(** * Scheduling conflict-resolution engine of the WhatsApp calendar agent

    A shallow embedding of
    - [connectors/calendar_api.py]  (time normalizer, conflict check,
      listing, event creation, dispatch),
    - [utils/time_utils.py]         (free-slot search and its fallback,
      business days, dates and times in words),
    - [agent/action_planner.py]     (plan validation, parameter check),
    - [main.py]                     (entry point, verification,
      execution of a plan, conflict-resolution dialog),
    followed by the properties established about them.

    Conventions.  Python exceptions are explicit: a computation that can
    raise returns a [PyResult].  Python dictionaries with a fixed set of
    optional keys are records of [option] fields; open dictionaries are
    [gmap]s.  Objects that the program mutates in place and shares
    ([Action] instances) live in a heap indexed by references.  Time strings
    are sequences of ASCII characters. *)

From Stdlib Require Import ZArith Lia List String Ascii Bool DecimalString Sorted.
From stdpp Require Import base option list gmap strings.
Import ListNotations.

Local Open Scope string_scope.
Local Open Scope Z_scope.

(* ===================================================================== *)
(** * Python values and exceptions                                        *)
(* ===================================================================== *)

Module Py.

(** The exception classes the modelled code can meet. *)
Inductive Exn :=
| ValueError (msg : string)
| TypeError (msg : string)
| AttributeError (msg : string)
| OverflowError (msg : string)
| KeyError (msg : string)
| OtherError (msg : string).

(** [str(e)] *)
Definition str_of_exn (e : Exn) : string :=
  match e with
  | ValueError m | TypeError m | AttributeError m
  | OverflowError m | KeyError m | OtherError m => m
  end.

Inductive PyResult (A : Type) :=
| Ok (a : A)
| Raise (e : Exn).
Arguments Ok {A} a.
Arguments Raise {A} e.

Definition bind {A B} (m : PyResult A) (k : A -> PyResult B) : PyResult B :=
  match m with
  | Ok a => k a
  | Raise e => Raise e
  end.

Definition raises {A} (m : PyResult A) : bool :=
  match m with Ok _ => false | Raise _ => true end.

(** ** String operations used by the program *)

(** [c in s] for a one-character [c] *)
Fixpoint contains_char (c : ascii) (s : string) : bool :=
  match s with
  | EmptyString => false
  | String d s' => Ascii.eqb d c || contains_char c s'
  end.

Fixpoint last_char (s : string) : option ascii :=
  match s with
  | EmptyString => None
  | String c EmptyString => Some c
  | String _ s' => last_char s'
  end.

(** [s.endswith(c)] for a one-character [c] *)
Definition endswith_char (s : string) (c : ascii) : bool :=
  match last_char s with
  | Some d => Ascii.eqb d c
  | None => false
  end.

(** [s[-n:]]: the last [n] characters, the whole string when it is
    shorter. *)
Definition last_n (n : nat) (s : string) : string :=
  substring (String.length s - n) n s.

(** [not s] for [s] a string or [None] *)
Definition falsy (s : option string) : bool :=
  match s with
  | None => true
  | Some EmptyString => true
  | Some _ => false
  end.

(** [s.replace('Z', '+00:00')] *)
Fixpoint replace_Z (s : string) : string :=
  match s with
  | EmptyString => EmptyString
  | String c s' =>
      if Ascii.eqb c "Z"%char then "+00:00" ++ replace_Z s'
      else String c (replace_Z s')
  end.

End Py.
Export Py.

#[global] Instance PyResult_ret : MRet PyResult := @Py.Ok.
#[global] Instance PyResult_bind : MBind PyResult :=
  fun A B k m => Py.bind m k.

(* ===================================================================== *)
(** * connectors/calendar_api.py: the time normalizer                     *)
(* ===================================================================== *)

Module Normalizer.

(** The test of lines 86 and 95:
    [t.endswith('Z') or '+' in t or '-' in t[-6:]] *)
Definition has_tz_marker (t : string) : bool :=
  endswith_char t "Z" || contains_char "+" t || contains_char "-" (last_n 6 t).

(** One half of [_ensure_iso_format] (lines 86-93 and 95-102, which are
    the same code on [start_time] and on [end_time]). *)
Definition format_time (t : string) : string :=
  if has_tz_marker t then t
  else if contains_char "T" t
       then (if negb (endswith_char t "Z") then t ++ "Z" else t)
       else t.

(** [GoogleCalendarConnector._ensure_iso_format] *)
Definition _ensure_iso_format (start_time end_time : option string)
  : PyResult (string * string) :=
  if falsy start_time || falsy end_time
  then Raise (ValueError "Both start_time and end_time must be provided")
  else match start_time, end_time with
       | Some s, Some e => Ok (format_time s, format_time e)
       | _, _ => Raise (ValueError "Both start_time and end_time must be provided")
       end.

End Normalizer.

(* ===================================================================== *)
(** * Python's [datetime], as far as the program uses it                  *)
(* ===================================================================== *)

Module Datetime.

Definition SECOND : Z := 1000000.
Definition MINUTE : Z := 60 * SECOND.
Definition HOUR : Z := 60 * MINUTE.
Definition DAY : Z := 24 * HOUR.

(** A [datetime] is identified with the number of microseconds its own
    wall clock shows since 0001-01-01T00:00:00 (proleptic Gregorian
    calendar), together with its [tzinfo]: [None] for a naive datetime,
    the UTC offset in microseconds for an aware one.  [fromisoformat] only
    builds fixed-offset zones, and every other datetime of the free-slot
    search is derived from those. *)
Record datetime := mk_datetime {
  wall : Z;
  tzinfo : option Z
}.

(** A [timedelta], in microseconds. *)
Definition timedelta := Z.

(** [datetime.max] is 9999-12-31T23:59:59.999999, whose date has ordinal
    3652059. *)
Definition MAX_WALL : Z := 3652059 * DAY - 1.

Definition in_range (w : Z) : bool := (0 <=? w) && (w <=? MAX_WALL).

(** [d + td] *)
Definition add (d : datetime) (td : timedelta) : PyResult datetime :=
  if in_range (wall d + td)
  then Ok {| wall := wall d + td; tzinfo := tzinfo d |}
  else Raise (OverflowError "date value out of range").

(** The instant on the UTC time line an aware datetime denotes; the wall
    clock itself for a naive one. *)
Definition instant (d : datetime) : Z :=
  match tzinfo d with
  | Some off => wall d - off
  | None => wall d
  end.

Definition same_awareness (a b : datetime) : bool :=
  match tzinfo a, tzinfo b with
  | Some _, Some _ | None, None => true
  | _, _ => false
  end.

(** [a < b]; comparing a naive with an aware datetime raises. *)
Definition lt (a b : datetime) : PyResult bool :=
  if same_awareness a b then Ok (instant a <? instant b)
  else Raise (TypeError "can't compare offset-naive and offset-aware datetimes").

(** [a <= b] *)
Definition le (a b : datetime) : PyResult bool :=
  if same_awareness a b then Ok (instant a <=? instant b)
  else Raise (TypeError "can't compare offset-naive and offset-aware datetimes").

(** [a > b] is [b < a]. *)
Definition gt (a b : datetime) : PyResult bool := lt b a.

(** [a != b]; a naive and an aware datetime are never equal, and the
    comparison does not raise. *)
Definition neq (a b : datetime) : bool :=
  if same_awareness a b then negb (instant a =? instant b) else true.

(** [a - b] *)
Definition sub (a b : datetime) : PyResult timedelta :=
  if same_awareness a b then Ok (instant a - instant b)
  else Raise (TypeError "can't subtract offset-naive and offset-aware datetimes").

(** [d.replace(hour=h, minute=0, second=0, microsecond=0)]: same date,
    same [tzinfo]. *)
Definition replace_hour (d : datetime) (h : Z) : datetime :=
  {| wall := (wall d / DAY) * DAY + h * HOUR; tzinfo := tzinfo d |}.

(** ** The civil calendar, for parsing and printing *)

Definition is_leap (y : Z) : bool :=
  ((y mod 4 =? 0) && negb (y mod 100 =? 0)) || (y mod 400 =? 0).

Definition days_in_month (y m : Z) : Z :=
  if m =? 2 then (if is_leap y then 29 else 28)
  else if (m =? 4) || (m =? 6) || (m =? 9) || (m =? 11) then 30
  else 31.

(** Days from 0001-01-01 to [y]-[m]-[d]. *)
Definition days_from_civil (y m d : Z) : Z :=
  let y' := if m <=? 2 then y - 1 else y in
  let era := y' / 400 in
  let yoe := y' - era * 400 in
  let mp := (m + 9) mod 12 in
  let doy := (153 * mp + 2) / 5 + d - 1 in
  let doe := yoe * 365 + yoe / 4 - yoe / 100 + doy in
  era * 146097 + doe - 306.

(** The inverse: year, month and day of the [n]-th day after 0001-01-01. *)
Definition civil_from_days (n : Z) : Z * Z * Z :=
  let z := n + 306 in
  let era := z / 146097 in
  let doe := z - era * 146097 in
  let yoe := (doe - doe / 1460 + doe / 36524 - doe / 146096) / 365 in
  let doy := doe - (365 * yoe + yoe / 4 - yoe / 100) in
  let mp := (5 * doy + 2) / 153 in
  let d := doy - (153 * mp + 2) / 5 + 1 in
  let m := if mp <? 10 then mp + 3 else mp - 9 in
  let y := yoe + era * 400 + (if m <=? 2 then 1 else 0) in
  (y, m, d).

(** ** [datetime.fromisoformat]

    The format is the one the library documents for Python 3.7 to 3.10:
    [YYYY-MM-DD[*HH[:MM[:SS[.fff[fff]]]][+HH:MM[:SS[.ffffff]]]]], where [*]
    is any single character.  [None] stands for the [ValueError] the
    library raises on any other string. *)

Definition digit (c : ascii) : option Z :=
  let n := Z.of_nat (nat_of_ascii c) in
  if (48 <=? n) && (n <=? 57) then Some (n - 48) else None.

Fixpoint digits_acc (s : string) (acc : Z) : option Z :=
  match s with
  | EmptyString => Some acc
  | String c s' => d ← digit c; digits_acc s' (10 * acc + d)
  end.

Definition parse_int (s : string) : option Z :=
  match s with
  | EmptyString => None
  | _ => digits_acc s 0
  end.

(** [s[i:j]] and [s[i:]] *)
Definition slice (i j : nat) (s : string) : string := substring i (j - i) s.
Definition slice_from (i : nat) (s : string) : string :=
  substring i (String.length s - i) s.

Definition char_at (i : nat) (s : string) : option ascii := String.get i s.

(** Position of the first character of [s] satisfying [p]. *)
Fixpoint find_char (p : ascii -> bool) (s : string) : option nat :=
  match s with
  | EmptyString => None
  | String c s' => if p c then Some O else S <$> find_char p s'
  end.

Definition is_char (c d : ascii) : bool := Ascii.eqb c d.

(** [YYYY-MM-DD] on a string of length 10 *)
Definition parse_isoformat_date (dstr : string) : option (Z * Z * Z) :=
  if negb (String.length dstr =? 10)%nat then None else
  year ← parse_int (slice 0 4 dstr);
  _ ← guard (char_at 4 dstr = Some "-"%char);
  month ← parse_int (slice 5 7 dstr);
  _ ← guard (char_at 7 dstr = Some "-"%char);
  day ← parse_int (slice 8 10 dstr);
  Some (year, month, day).

(** The fraction of a second: [.fff] or [.ffffff], or nothing. *)
Definition parse_fraction (rest : string) : option Z :=
  match rest with
  | EmptyString => Some 0
  | String c digits =>
      if negb (is_char c ".") then None
      else if (String.length digits =? 3)%nat then (fun n => n * 1000) <$> parse_int digits
      else if (String.length digits =? 6)%nat then parse_int digits
      else None
  end.

(** [HH[:MM[:SS[.fff[fff]]]]], giving hour, minute, second, microsecond. *)
Definition parse_hh_mm_ss_ff (tstr : string) : option (Z * Z * Z * Z) :=
  hh ← parse_int (slice 0 2 tstr);
  match slice_from 2 tstr with
  | EmptyString => Some (hh, 0, 0, 0)
  | String c1 r1 =>
      if negb (is_char c1 ":") then None else
      mm ← parse_int (slice 0 2 r1);
      match slice_from 2 r1 with
      | EmptyString => Some (hh, mm, 0, 0)
      | String c2 r2 =>
          if negb (is_char c2 ":") then None else
          ss ← parse_int (slice 0 2 r2);
          ff ← parse_fraction (slice_from 2 r2);
          Some (hh, mm, ss, ff)
      end
  end.

(** The time of day with its optional UTC offset. *)
Definition parse_isoformat_time (tstr : string) : option (Z * Z * Z * Z * option Z) :=
  if (String.length tstr <? 2)%nat then None else
  match find_char (fun c => is_char c "+" || is_char c "-") tstr with
  | None =>
      '(hh, mm, ss, ff) ← parse_hh_mm_ss_ff tstr;
      Some (hh, mm, ss, ff, None)
  | Some pos =>
      '(hh, mm, ss, ff) ← parse_hh_mm_ss_ff (slice 0 pos tstr);
      let tzstr := slice_from (S pos) tstr in
      let n := String.length tzstr in
      if negb ((n =? 5) || (n =? 8) || (n =? 15))%nat then None else
      '(th, tm, ts, tf) ← parse_hh_mm_ss_ff tzstr;
      let magnitude := th * HOUR + tm * MINUTE + ts * SECOND + tf in
      let sign := if bool_decide (char_at pos tstr = Some "-"%char) then -1 else 1 in
      (* [timezone(offset)] demands -24h < offset < 24h *)
      if magnitude <? DAY then Some (hh, mm, ss, ff, Some (sign * magnitude))
      else None
  end.

(** [datetime.fromisoformat(date_string)] *)
Definition fromisoformat (date_string : string) : option datetime :=
  '(year, month, day) ← parse_isoformat_date (slice 0 10 date_string);
  '(hh, mm, ss, ff, tz) ←
     (if (String.length date_string <=? 10)%nat then Some (0, 0, 0, 0, None)
      else parse_isoformat_time (slice_from 11 date_string));
  (* the range checks of the [datetime] constructor *)
  if (1 <=? year) && (year <=? 9999) && (1 <=? month) && (month <=? 12)
     && (1 <=? day) && (day <=? days_in_month year month)
     && (hh <? 24) && (mm <? 60) && (ss <? 60)
  then Some {| wall := days_from_civil year month day * DAY
                       + hh * HOUR + mm * MINUTE + ss * SECOND + ff;
               tzinfo := tz |}
  else None.

(** The idiom of the repository:
    [datetime.fromisoformat(s.replace('Z', '+00:00'))] *)
Definition parse_iso (s : string) : PyResult datetime :=
  match fromisoformat (replace_Z s) with
  | Some d => Ok d
  | None => Raise (ValueError "Invalid isoformat string")
  end.

(** ** [datetime.isoformat] *)

Definition digit_char (n : Z) : ascii := ascii_of_nat (Z.to_nat (48 + n mod 10)).

(** [n] written with [width] decimal digits, zero padded. *)
Fixpoint zero_pad (width : nat) (n : Z) : string :=
  match width with
  | O => EmptyString
  | S w => zero_pad w (n / 10) ++ String (digit_char n) EmptyString
  end.

(** [HH:MM:SS], followed by [.ffffff] when the microseconds are not zero *)
Definition format_hms (us : Z) : string :=
  let hh := us / HOUR in
  let mm := (us mod HOUR) / MINUTE in
  let ss := (us mod MINUTE) / SECOND in
  let ff := us mod SECOND in
  zero_pad 2 hh ++ ":" ++ zero_pad 2 mm ++ ":" ++ zero_pad 2 ss
  ++ (if ff =? 0 then "" else "." ++ zero_pad 6 ff).

(** The UTC offset: [+HH:MM], with [:SS[.ffffff]] only when needed. *)
Definition format_offset (off : Z) : string :=
  let sign := if off <? 0 then "-" else "+" in
  let a := Z.abs off in
  let hh := a / HOUR in
  let mm := (a mod HOUR) / MINUTE in
  let ss := (a mod MINUTE) / SECOND in
  let ff := a mod SECOND in
  sign ++ zero_pad 2 hh ++ ":" ++ zero_pad 2 mm
  ++ (if (ss =? 0) && (ff =? 0) then ""
      else ":" ++ zero_pad 2 ss ++ (if ff =? 0 then "" else "." ++ zero_pad 6 ff)).

Definition isoformat (d : datetime) : string :=
  let '(y, m, dd) := civil_from_days (wall d / DAY) in
  zero_pad 4 y ++ "-" ++ zero_pad 2 m ++ "-" ++ zero_pad 2 dd ++ "T"
  ++ format_hms (wall d mod DAY)
  ++ match tzinfo d with
     | Some off => format_offset off
     | None => ""
     end.

End Datetime.

Export Datetime.

(* ===================================================================== *)
(** * utils/time_utils.py: the free-slot finder                           *)
(* ===================================================================== *)

Module TimeConverter.

(** The value stored under ['start'] or ['end'] of an event dictionary.
    The Google API nests the time in a dictionary,
    [{'dateTime': '2025-05-23T10:00:00+01:00', 'timeZone': ..}] (all-day
    events carry ['date'] instead and no ['dateTime']).
    [GoogleCalendarConnector._list_events_sync] and [_check_conflicts_sync]
    flatten it to the string itself. *)
Inductive TimeField :=
| Null
| Flat (s : string)
| Nested (dateTime : option string).

(** An event dictionary, with the keys the finder reads. *)
Record Event := mk_Event {
  ev_summary : string;
  ev_start : option TimeField;
  ev_end : option TimeField
}.

(** The dictionary [calendar_service.list_events] returns: the ['events']
    key is absent from an error result. *)
Record ListEventsResult := mk_ListEventsResult {
  events : option (list Event)
}.

Definition period : Type := datetime * datetime.

(** [field.get('dateTime')]: a string has no [get]. *)
Definition get_dateTime (field : TimeField) : PyResult (option string) :=
  match field with
  | Nested v => Ok v
  | Flat _ => Raise (AttributeError "'str' object has no attribute 'get'")
  | Null => Raise (AttributeError "'NoneType' object has no attribute 'get'")
  end.

(** The body of the loop of lines 115-126 on one event: the busy period it
    contributes, if any. *)
Definition busy_period_of (event : Event) : PyResult (option period) :=
  match ev_start event, ev_end event with
  | Some start_field, Some end_field =>
      event_start ← get_dateTime start_field;
      event_end ← get_dateTime end_field;
      if negb (falsy event_start) && negb (falsy event_end) then
        match event_start, event_end with
        | Some s, Some e =>
            (* the inner try/except skips an event that does not parse *)
            match parse_iso s, parse_iso e with
            | Ok start_time, Ok end_time => Ok (Some (start_time, end_time))
            | _, _ => Ok None
            end
        | _, _ => Ok None
        end
      else Ok None
  | _, _ => Ok None
  end.

(** Lines 114-126: [busy_periods], in the order of the events. *)
Fixpoint busy_periods (all_events : list Event) : PyResult (list period) :=
  match all_events with
  | [] => Ok []
  | event :: rest =>
      this ← busy_period_of event;
      more ← busy_periods rest;
      Ok (match this with Some p => p :: more | None => more end)
  end.

(** [busy_periods.sort(key=lambda x: x[0])].  The sort is stable.  It
    compares the keys with [<], which raises as soon as a naive and an
    aware datetime meet; a comparison sort of a list that holds both kinds
    cannot avoid such a comparison. *)
Fixpoint insert_by_start (p : period) (sorted : list period) : list period :=
  match sorted with
  | [] => [p]
  | q :: rest =>
      if instant (fst p) <? instant (fst q) then p :: q :: rest
      else q :: insert_by_start p rest
  end.

Definition uniform_awareness (l : list period) : bool :=
  match l with
  | [] => true
  | p :: rest => forallb (fun q => same_awareness (fst p) (fst q)) rest
  end.

Definition sort_by_start (l : list period) : PyResult (list period) :=
  if uniform_awareness l
  then Ok (fold_left (fun sorted p => insert_by_start p sorted) l [])
  else Raise (TypeError "can't compare offset-naive and offset-aware datetimes").

(** Line 146: [current_time < busy_end and slot_end > busy_start] *)
Definition overlaps (current_time slot_end : datetime) (busy : period)
  : PyResult bool :=
  let '(busy_start, busy_end) := busy in
  before_end ← lt current_time busy_end;
  if before_end : bool then gt slot_end busy_start else Ok false.

(** The [for] loop of lines 144-150: the end of the first busy period the
    candidate overlaps, [None] when the candidate is free. *)
Fixpoint first_conflict (current_time slot_end : datetime)
  (busy_periods : list period) : PyResult (option datetime) :=
  match busy_periods with
  | [] => Ok None
  | busy :: rest =>
      hit ← overlaps current_time slot_end busy;
      if hit : bool then Ok (Some (snd busy))
      else first_conflict current_time slot_end rest
  end.

(** The [while] loop of lines 139-167.  Each iteration either leaves, or
    appends a slot, or jumps over a busy period; [fuel] bounds the number
    of iterations and [None] means it ran out. *)
Fixpoint search_loop (fuel : nat) (business_end_time : datetime)
  (duration : timedelta) (busy_periods : list period)
  (current_time : datetime) (available_slots : list period)
  : option (PyResult (list period)) :=
  match fuel with
  | O => None
  | S fuel' =>
      match (slot_end ← add current_time duration;
             inside ← le slot_end business_end_time;
             Ok (slot_end, inside)) with
      | Raise e => Some (Raise e)
      | Ok (_, false) => Some (Ok available_slots)
      | Ok (slot_end, true) =>
          match first_conflict current_time slot_end busy_periods with
          | Raise e => Some (Raise e)
          | Ok (Some busy_end) =>
              (* jump to after this busy period *)
              search_loop fuel' business_end_time duration busy_periods
                busy_end available_slots
          | Ok None =>
              let available_slots' :=
                (available_slots ++ [(current_time, slot_end)])%list in
              match add current_time (30 * MINUTE) with
              | Raise e => Some (Raise e)
              | Ok next_time =>
                  if (5 <=? length available_slots')%nat
                  then Some (Ok available_slots')
                  else search_loop fuel' business_end_time duration
                         busy_periods next_time available_slots'
              end
          end
      end
  end.

(** A busy period is jumped over at most once and at most five slots are
    collected, so this many iterations are enough
    (see [search_loop_enough_fuel]). *)
Definition search_fuel (busy_periods : list period) : nat :=
  S (length busy_periods + 5).

(** The [try] block of [get_smart_alternative_times] (lines 82-170), with
    the slots still as datetimes.  [listing] is the outcome of the call
    [calendar_service.list_events(time_min=.., time_max=..)] for the
    target day. *)
Definition smart_search (original_start original_end : string)
  (listing : PyResult ListEventsResult) : PyResult (list period) :=
  start_dt ← parse_iso original_start;
  end_dt ← parse_iso original_end;
  duration ← sub end_dt start_dt;
  all_events_result ← listing;
  let all_events := default [] (events all_events_result) in
  unsorted ← busy_periods all_events;
  busy ← sort_by_start unsorted;
  let current_time := replace_hour start_dt 9 in
  let business_end_time := replace_hour start_dt 18 in
  match search_loop (search_fuel busy) business_end_time duration busy
          current_time [] with
  | Some found => available_slots ← found; Ok (firstn 3 available_slots)
  | None => Raise (OtherError "iteration bound exceeded")
  end.

(** The busy periods the search works with (lines 110-126); none when
    the listing or the reading of the events raises. *)
Definition listed_busy_periods (listing : PyResult ListEventsResult)
  : list period :=
  match (all_events_result ← listing;
         busy_periods (default [] (events all_events_result))) with
  | Ok unsorted => unsorted
  | Raise _ => []
  end.

(** The [for] loop of [get_fallback_alternatives] (lines 195-204). *)
Fixpoint fallback_loop (start_dt : datetime) (duration : timedelta)
  (fallback_hours : list Z) : PyResult (list period) :=
  match fallback_hours with
  | [] => Ok []
  | hour :: rest =>
      let candidate_start := replace_hour start_dt hour in
      candidate_end ← add candidate_start duration;
      more ← fallback_loop start_dt duration rest;
      Ok (if neq candidate_start start_dt
          then (candidate_start, candidate_end) :: more
          else more)
  end.

(** [TimeConverter.get_fallback_alternatives], slots as datetimes. *)
Definition fallback_slots (original_start original_end : string) : list period :=
  match (start_dt ← parse_iso original_start;
         end_dt ← parse_iso original_end;
         duration ← sub end_dt start_dt;
         fallback_loop start_dt duration [9; 12; 16]) with
  | Ok suggestions => suggestions
  | Raise _ => []
  end.

(** [TimeConverter.get_smart_alternative_times], slots as datetimes: the
    search, and the fallback when the search raises.  The argument
    [conflicts] is not used by the function. *)
Definition smart_alternative_slots (original_start original_end : string)
  (conflicts : list Event) (listing : PyResult ListEventsResult)
  : list period :=
  match smart_search original_start original_end listing with
  | Ok slots => slots
  | Raise _ => fallback_slots original_start original_end
  end.

Definition isoformat_pair (slot : period) : string * string :=
  (isoformat (fst slot), isoformat (snd slot)).

(** [TimeConverter.get_fallback_alternatives] *)
Definition get_fallback_alternatives (original_start original_end : string)
  : list (string * string) :=
  map isoformat_pair (fallback_slots original_start original_end).

(** [TimeConverter.get_smart_alternative_times] *)
Definition get_smart_alternative_times (original_start original_end : string)
  (conflicts : list Event) (listing : PyResult ListEventsResult)
  : list (string * string) :=
  map isoformat_pair
    (smart_alternative_slots original_start original_end conflicts listing).

End TimeConverter.

Export TimeConverter.

(* ===================================================================== *)
(** * Shared data: values, actions, events, results, the world            *)
(* ===================================================================== *)

Module Model.

(** A JSON-like Python value, as found in [Action.params]. *)
Inductive Value :=
| VNone
| VBool (b : bool)
| VInt (n : Z)
| VStr (s : string).

(** Truth value of [v] in a condition. *)
Definition truthy (v : Value) : bool :=
  match v with
  | VNone => false
  | VBool b => b
  | VInt n => negb (n =? 0)
  | VStr s => negb (falsy (Some s))
  end.

Abbreviation Params := (gmap string Value).

(** [agent/action_planner.py], class [Action].  [service] and [method] are
    never reassigned; [params] is a dictionary that several functions
    update in place. *)
Record Action := mk_Action {
  service : string;
  method : string;
  params : Params
}.

(** [Action] objects are shared between the plan, the conversation state
    and the functions that update them, so they are referred to by
    reference. *)
Definition ref := nat.

(** class [ActionPlan] *)
Record ActionPlan := mk_ActionPlan {
  actions : list ref;
  summary : string;
  requires_verification : bool
}.

(** An event resource of the Google Calendar API. *)
Record GTime := mk_GTime {
  dateTime : option string;
  date : option string
}.

Record GEvent := mk_GEvent {
  g_id : string;
  g_summary : option string;
  g_start : GTime;
  g_end : GTime;
  g_location : option string;
  g_description : option string;
  g_htmlLink : option string
}.

(** The body of an insert request, as [_create_event_sync] builds it. *)
Record EventBody := mk_EventBody {
  b_summary : Value;
  b_location : Value;
  b_description : Value;
  b_time_format : string;
  b_start : string;
  b_end : string;
  b_timeZone : string
}.

(** The flattened event dictionaries the connector hands out; a key that a
    given function does not set is [None]. *)
Record FlatEvent := mk_FlatEvent {
  f_id : string;
  f_summary : string;
  f_start : option string;
  f_end : option string;
  f_location : option string;
  f_description : option string;
  f_html_link : option string
}.

(** The result dictionaries of the connector. *)
Inductive Result :=
| CheckSuccess (has_conflicts : bool) (conflicts : list FlatEvent) (count : nat)
| ListSuccess (count : nat) (events : list FlatEvent)
| Created (message : string) (event : FlatEvent)
| Conflict (message : string) (conflicts : list FlatEvent)
| Error (message : string)
| ErrorOnly (error : string).

(** [result.get("status")] *)
Definition status (r : Result) : option string :=
  match r with
  | CheckSuccess _ _ _ | ListSuccess _ _ | Created _ _ => Some "success"
  | Conflict _ _ => Some "conflict"
  | Error _ => Some "error"
  | ErrorOnly _ => None
  end.

(** [result.get("has_conflicts")], as a truth value *)
Definition has_conflicts (r : Result) : bool :=
  match r with
  | CheckSuccess h _ _ => h
  | _ => false
  end.

(** [result.get("conflicts", [])] *)
Definition conflicts_of (r : Result) : list FlatEvent :=
  match r with
  | CheckSuccess _ c _ | Conflict _ c => c
  | _ => []
  end.

(** [result["count"]] *)
Definition count_of (r : Result) : nat :=
  match r with
  | CheckSuccess _ _ n | ListSuccess n _ => n
  | _ => O
  end.

(** [result.get('message', 'Unknown error')] *)
Definition message_of (r : Result) : string :=
  match r with
  | Created m _ | Conflict m _ | Error m => m
  | _ => "Unknown error"
  end.

(** The requests sent to the Google Calendar API. *)
Inductive Request :=
| ListRequest (calendarId timeMin timeMax : string) (maxResults : option Z)
| InsertRequest (calendarId : string) (body : EventBody).

Definition is_insert (r : Request) : bool :=
  match r with
  | InsertRequest _ _ => true
  | ListRequest _ _ _ _ => false
  end.

(** The remote calendar: its state is of some type [Store]; listing reads
    it, inserting changes it, and either request can fail. *)
Record GoogleService (Store : Type) := mk_GoogleService {
  events_list :
    Store -> string -> string -> string -> option Z -> PyResult (list GEvent);
  events_insert : Store -> string -> EventBody -> PyResult GEvent * Store
}.
Arguments events_list {Store} _ _ _ _ _ _.
Arguments events_insert {Store} _ _ _ _.

(** The messages the dialog sends to the requester, named after the text
    [main.py] builds. *)
Inductive Message :=
| LostTrack                                   (* "Sorry, I lost track of what we were scheduling.." *)
| CancelledCreation                           (* "No problem! I've cancelled the event creation.." *)
| WhichTime                                   (* "I'm not sure which time you meant.." *)
| Menu                                        (* "I'm not sure what you'd like to do. You can: .." *)
| TroubleUnderstanding                        (* "I had trouble understanding your response.." *)
| CreatedDespite (summary : Value)            (* "Created your event '..' despite the conflicts.." *)
| CouldNotCreate (message : string)           (* "Sorry, I couldn't create the event: .." *)
| ErrorCreating (e : string)                  (* "Error creating event: .." *)
| Scheduled (summary : Value) (start_time end_time : string)
                                              (* "Perfect! I've scheduled your event: .." *)
| CouldNotSchedule (message : string)         (* "Sorry, I couldn't schedule the event: .." *)
| ErrorScheduling (e : string)                (* "Error scheduling event: .." *)
| AlsoConflicts (start_time end_time : string) (n : nat)
                                              (* "The time you suggested (..) also has conflicts with n existing events.." *)
| TimeNotUnderstood                           (* "I couldn't understand the time you suggested.." *)
| TroubleWithTime.                            (* "I had trouble understanding the time you suggested.." *)

(** One entry of the dictionary [conversation_state] of [main.py]; [{}] is
    [empty_state].  A flag that is absent counts as false. *)
Record ConvState := mk_ConvState {
  awaiting_verification : bool;
  pending_action : option ActionPlan;
  awaiting_conflict_resolution : bool;
  conflicts : option (list FlatEvent);
  alternative_times : option (list (string * string));
  original_action : option ref
}.

Definition empty_state : ConvState :=
  mk_ConvState false None false None None None.

(** Everything the modelled functions read and write. *)
Record World (Store : Type) := mk_World {
  heap : gmap ref Action;
  store : Store;
  requests : list Request;
  conversation_state : gmap string ConvState;
  outbox : list (string * Message)
}.
Arguments mk_World {Store} _ _ _ _ _.
Arguments heap {Store} _.
Arguments store {Store} _.
Arguments requests {Store} _.
Arguments conversation_state {Store} _.
Arguments outbox {Store} _.

(** Computations over the world that may raise. *)
Definition M (Store A : Type) : Type := World Store -> PyResult A * World Store.

Definition ret {Store A} (a : A) : M Store A := fun w => (Ok a, w).

Definition bindM {Store A B} (m : M Store A) (k : A -> M Store B) : M Store B :=
  fun w =>
    match m w with
    | (Ok a, w') => k a w'
    | (Raise e, w') => (Raise e, w')
    end.

(** [raise e] *)
Definition throw {Store A} (e : Exn) : M Store A := fun w => (Raise e, w).

(** [try: body except Exception as e: handler(e)]; what [body] wrote
    before it raised stays written. *)
Definition try_except {Store A} (body : M Store A) (handler : Exn -> M Store A)
  : M Store A :=
  fun w =>
    match body w with
    | (Ok a, w') => (Ok a, w')
    | (Raise e, w') => handler e w'
    end.

(** Lifting of a pure computation that may raise. *)
Definition lift {Store A} (r : PyResult A) : M Store A := fun w => (r, w).

End Model.
Export Model.

#[global] Instance M_ret {Store} : MRet (M Store) := @ret Store.
#[global] Instance M_bind {Store} : MBind (M Store) :=
  fun A B k m => bindM m k.

(* ===================================================================== *)
(** * connectors/calendar_api.py: the connector                           *)
(* ===================================================================== *)

Module Calendar.
Import Normalizer.

Definition str_of_nat (n : nat) : string :=
  DecimalString.NilZero.string_of_uint (Nat.to_uint n).

(** [_ensure_iso_format] on the values found in a parameter dictionary:
    [not v] decides first, and a truthy value that is not a string has no
    [endswith]. *)
Definition ensure_iso_format_values (start_time end_time : Value)
  : PyResult (string * string) :=
  if negb (truthy start_time) || negb (truthy end_time)
  then Raise (ValueError "Both start_time and end_time must be provided")
  else match start_time, end_time with
       | VStr s, VStr e => _ensure_iso_format (Some s) (Some e)
       | _, _ => Raise (AttributeError "object has no attribute 'endswith'")
       end.

(** [field.get('dateTime', field.get('date'))] *)
Definition time_of (t : GTime) : option string :=
  match dateTime t with
  | Some s => Some s
  | None => date t
  end.

(** The dictionary [_check_conflicts_sync] builds for one event
    (lines 1067-1072). *)
Definition conflict_entry (event : GEvent) : FlatEvent :=
  {| f_id := g_id event;
     f_summary := default "No title" (g_summary event);
     f_start := time_of (g_start event);
     f_end := time_of (g_end event);
     f_location := None; f_description := None; f_html_link := None |}.

(** The dictionary [_list_events_sync] builds for one event
    (lines 158-165). *)
Definition listed_entry (event : GEvent) : FlatEvent :=
  {| f_id := g_id event;
     f_summary := default "No title" (g_summary event);
     f_start := time_of (g_start event);
     f_end := time_of (g_end event);
     f_location := Some (default "" (g_location event));
     f_description := Some (default "" (g_description event));
     f_html_link := None |}.

(** The ["event"] dictionary of a successful creation (lines 855-863). *)
Definition created_entry (event : GEvent) : FlatEvent :=
  {| f_id := g_id event;
     f_summary := default "No title" (g_summary event);
     f_start := time_of (g_start event);
     f_end := time_of (g_end event);
     f_location := Some (default "" (g_location event));
     f_description := Some (default "" (g_description event));
     f_html_link := Some (default "" (g_htmlLink event)) |}.

Section Connector.

Context {Store : Type}.

(** [self.service] and [self.default_calendar_id] *)
Variable service : GoogleService Store.
Variable default_calendar_id : string.

(** [self.service.events().list(..).execute()] *)
Definition api_list (calendarId timeMin timeMax : string) (maxResults : option Z)
  : M Store (list GEvent) :=
  fun w =>
    (events_list service (store w) calendarId timeMin timeMax maxResults,
     mk_World (heap w) (store w)
       (requests w ++ [ListRequest calendarId timeMin timeMax maxResults])
       (conversation_state w) (outbox w)).

(** [self.service.events().insert(calendarId=.., body=..).execute()] *)
Definition api_insert (calendarId : string) (body : EventBody) : M Store GEvent :=
  fun w =>
    let '(outcome, store') := events_insert service (store w) calendarId body in
    (outcome,
     mk_World (heap w) store'
       (requests w ++ [InsertRequest calendarId body])
       (conversation_state w) (outbox w)).

(** [calendar_id or self.default_calendar_id] *)
Definition calendar_or_default (calendar_id : option string) : string :=
  if falsy calendar_id then default_calendar_id
  else default default_calendar_id calendar_id.

(** [_check_conflicts_sync] *)
Definition _check_conflicts_sync (start_time end_time calendar_id : string)
  : M Store Result :=
  try_except
    (events ← api_list calendar_id start_time end_time None;
     let found := map conflict_entry events in
     mret (CheckSuccess (0 <? length found)%nat found (length found)))
    (fun e => mret (Error ("Failed to check conflicts: " ++ str_of_exn e))).

(** [check_conflicts] *)
Definition check_conflicts (start_time end_time : Value)
  (calendar_id : option string) : M Store Result :=
  let calendar_id := calendar_or_default calendar_id in
  '(start_time, end_time) ← lift (ensure_iso_format_values start_time end_time);
  _check_conflicts_sync start_time end_time calendar_id.

(** [_list_events_sync] *)
Definition _list_events_sync (time_min time_max : string) (max_results : Z)
  (calendar_id : string) : M Store Result :=
  try_except
    (events ← api_list calendar_id time_min time_max (Some max_results);
     let formatted_events := map listed_entry events in
     mret (ListSuccess (length formatted_events) formatted_events))
    (fun e => mret (Error ("Failed to list events: " ++ str_of_exn e))).

(** [list_events].  The defaults of [time_min] and [time_max] read
    [TimeConverter.TIMEZONE], an attribute the class does not have. *)
Definition list_events (time_min time_max : option string) (max_results : Z)
  (calendar_id : option string) : M Store Result :=
  let calendar_id := calendar_or_default calendar_id in
  match time_min, time_max with
  | Some time_min, Some time_max =>
      '(time_min, time_max) ← lift (_ensure_iso_format (Some time_min) (Some time_max));
      _list_events_sync time_min time_max max_results calendar_id
  | _, _ =>
      throw (AttributeError "type object 'TimeConverter' has no attribute 'TIMEZONE'")
  end.

(** [_create_event_sync] *)
Definition _create_event_sync (summary : Value) (start_time end_time : string)
  (description location : Value) (calendar_id : string) : M Store Result :=
  try_except
    (let time_format := if contains_char "T" start_time then "dateTime" else "date" in
     let event_body :=
       {| b_summary := summary; b_location := location;
          b_description := description; b_time_format := time_format;
          b_start := start_time; b_end := end_time;
          b_timeZone := "Africa/Casablanca" |} in
     event ← api_insert calendar_id event_body;
     mret (Created "Event created successfully" (created_entry event)))
    (fun e => mret (Error ("Failed to create event: " ++ str_of_exn e))).

(** [create_event] *)
Definition create_event (summary start_time end_time description location : Value)
  (calendar_id : option string) (check_for_conflicts : Value) : M Store Result :=
  let calendar_id' := calendar_or_default calendar_id in
  let create : M Store Result :=
    '(start_time, end_time) ← lift (ensure_iso_format_values start_time end_time);
    _create_event_sync summary start_time end_time description location calendar_id' in
  if truthy check_for_conflicts then
    conflicts ← check_conflicts start_time end_time (Some calendar_id');
    if bool_decide (status conflicts = Some "success") && has_conflicts conflicts
    then mret (Conflict
                 ("Found " ++ str_of_nat (count_of conflicts)
                  ++ " conflicting events in the specified time range")
                 (conflicts_of conflicts))
    else create
  else create.

(** Behind [execute], the methods of [method_map] other than
    [create_event] and [check_conflicts] are not modelled; what they do is
    a parameter. *)
Variable other_methods : string -> Params -> M Store Result.

Definition method_map : list string :=
  ["list_events"; "create_event"; "update_event"; "delete_event";
   "check_conflicts"; "create_event_with_attendees"; "find_free_time";
   "search_events"; "reschedule_event"].

Definition only_keys (allowed : list string) (params : Params) : bool :=
  forallb (fun kv => bool_decide (fst kv ∈ allowed)) (map_to_list params).

Definition unexpected_keyword {A} : M Store A :=
  throw (TypeError "got an unexpected keyword argument").
Definition missing_argument {A} : M Store A :=
  throw (TypeError "missing required positional argument").

(** [value or None], for an optional string argument *)
Definition as_calendar_id (v : option Value) : option string :=
  match v with
  | Some (VStr s) => Some s
  | _ => None
  end.

(** [self.create_event] called with [params] as keyword arguments *)
Definition call_create_event (params : Params) : M Store Result :=
  if negb (only_keys ["summary"; "start_time"; "end_time"; "description";
                      "location"; "calendar_id"; "check_for_conflicts"] params)
  then unexpected_keyword
  else match params !! "summary", params !! "start_time", params !! "end_time" with
       | Some summary, Some start_time, Some end_time =>
           create_event summary start_time end_time
             (default (VStr "") (params !! "description"))
             (default (VStr "") (params !! "location"))
             (as_calendar_id (params !! "calendar_id"))
             (default (VBool true) (params !! "check_for_conflicts"))
       | _, _, _ => missing_argument
       end.

(** [self.check_conflicts] called with [params] as keyword arguments *)
Definition call_check_conflicts (params : Params) : M Store Result :=
  if negb (only_keys ["start_time"; "end_time"; "calendar_id"] params)
  then unexpected_keyword
  else match params !! "start_time", params !! "end_time" with
       | Some start_time, Some end_time =>
           check_conflicts start_time end_time (as_calendar_id (params !! "calendar_id"))
       | _, _ => missing_argument
       end.

(** [GoogleCalendarConnector.execute] *)
Definition execute (method : string) (params : Params) : M Store Result :=
  if negb (bool_decide (method ∈ method_map))
  then mret (ErrorOnly ("Unknown method: " ++ method))
  else
    try_except
      (if String.eqb method "create_event" then call_create_event params
       else if String.eqb method "check_conflicts" then call_check_conflicts params
       else other_methods method params)
      (fun e => mret (ErrorOnly (str_of_exn e))).

End Connector.

End Calendar.

(* ===================================================================== *)
(** * The heap of [Action] objects                                        *)
(* ===================================================================== *)

Module Heap.

Section Heap.

Context {Store : Type}.

Definition with_heap (w : World Store) (h : gmap ref Action) : World Store :=
  mk_World h (store w) (requests w) (conversation_state w) (outbox w).

(** [Action(service=.., method=.., params=..)] *)
Definition alloc (a : Action) : M Store ref :=
  fun w =>
    let r := fresh (dom (heap w)) in
    (Ok r, with_heap w (<[r := a]> (heap w))).

Definition read (r : ref) : M Store Action :=
  fun w =>
    match heap w !! r with
    | Some a => (Ok a, w)
    | None => (Raise (OtherError "dangling reference"), w)
    end.

(** [action.params[key] = v] *)
Definition set_param (r : ref) (key : string) (v : Value) : M Store unit :=
  fun w =>
    match heap w !! r with
    | Some a =>
        (Ok tt,
         with_heap w (<[r := mk_Action (service a) (method a)
                                (<[key := v]> (params a))]> (heap w)))
    | None => (Raise (OtherError "dangling reference"), w)
    end.

End Heap.

End Heap.
Export Heap.

(* ===================================================================== *)
(** * agent/action_planner.py: plan validation                            *)
(* ===================================================================== *)

Module Planner.
Import Normalizer Calendar.

Definition nl : string := String (ascii_of_nat 10) EmptyString.

(** [str(v)], as an f-string prints a value *)
Definition str_of_value (v : Value) : string :=
  match v with
  | VNone => "None"
  | VBool true => "True"
  | VBool false => "False"
  | VInt n =>
      if n <? 0 then "-" ++ str_of_nat (Z.to_nat (- n)) else str_of_nat (Z.to_nat n)
  | VStr s => s
  end.

(** One entry of the ["conflicts"] list of a validation result. *)
Record ActionConflict := mk_ActionConflict {
  c_action : ref;
  c_conflicts : list FlatEvent;
  c_message : string
}.

(** The dictionary [validate_calendar_actions] returns. *)
Record Validation := mk_Validation {
  valid : bool;
  v_actions : list ref;
  v_conflicts : list ActionConflict;
  v_message : string
}.

(** What the language model proposes (the [result] of line 121). *)
Record ActionData := mk_ActionData {
  ad_service : string;
  ad_method : string;
  ad_params : Params
}.

Record PlanResult := mk_PlanResult {
  r_actions : list ActionData;
  r_summary : string;
  r_requires_verification : bool
}.

(** The bullet of line 159, as the source file spells it. *)
Definition bullet : string :=
  String (ascii_of_nat 195) (String (ascii_of_nat 162)
  (String (ascii_of_nat 226) (String (ascii_of_nat 130) (String (ascii_of_nat 172)
  (String (ascii_of_nat 194) (String (ascii_of_nat 162) EmptyString)))))).

(** Lines 156-159: one line per conflicting event. *)
Definition event_line (evt : FlatEvent) : string :=
  "  " ++ bullet ++ " " ++ f_summary evt ++ " at "
  ++ default "None" (f_start evt) ++ nl.

(** Lines 153-159: the lines for one conflicting action. *)
Definition conflict_lines (conflict : ActionConflict) : string :=
  "- " ++ c_message conflict ++ ":" ++ nl
  ++ String.concat "" (map event_line (c_conflicts conflict)).

(** Lines 151-159: [conflict_details] *)
Definition conflict_details (conflicts : list ActionConflict) : string :=
  nl ++ nl ++ "Potential conflicts detected:" ++ nl
  ++ String.concat "" (map conflict_lines conflicts).

Section Planner.

Context {Store : Type}.
Variable service : GoogleService Store.
Variable default_calendar_id : string.

(** The body of the loop of [validate_calendar_actions] (lines 194-227) on
    one action: the conflict entry it appends, or [None] when the action
    goes to [validated_actions]. *)
Definition validate_action (r : ref) : M Store (option ActionConflict) :=
  action ← read r;
  if String.eqb (Model.service action) "calendar"
     && String.eqb (method action) "create_event"
  then
    let start_time := default VNone (params action !! "start_time") in
    let end_time := default VNone (params action !! "end_time") in
    let summary := default (VStr "Untitled Event") (params action !! "summary") in
    if truthy start_time && truthy end_time then
      '(start_time, end_time) ← lift (ensure_iso_format_values start_time end_time);
      _ ← set_param r "start_time" (VStr start_time);
      _ ← set_param r "end_time" (VStr end_time);
      conflict_result ← check_conflicts service default_calendar_id
                          (VStr start_time) (VStr end_time) None;
      if bool_decide (status conflict_result = Some "success")
         && has_conflicts conflict_result
      then
        let conflict_events := conflicts_of conflict_result in
        mret (Some (mk_ActionConflict r conflict_events
                      ("Event '" ++ str_of_value summary ++ "' conflicts with "
                       ++ str_of_nat (length conflict_events) ++ " existing events")))
      else mret None
    else mret None
  else mret None.

(** The loop of lines 193-227: the list [conflicts]. *)
Fixpoint validate_loop (actions : list ref) : M Store (list ActionConflict) :=
  match actions with
  | [] => mret []
  | r :: rest =>
      this ← validate_action r;
      more ← validate_loop rest;
      mret (match this with Some c => c :: more | None => more end)
  end.

(** [ActionPlanner.validate_calendar_actions], with the calendar service
    of [main.py] in [available_services]. *)
Definition validate_calendar_actions (actions : list ref) : M Store Validation :=
  conflicts ← validate_loop actions;
  mret {| valid := (length conflicts =? 0)%nat;
          v_actions := actions;
          v_conflicts := conflicts;
          v_message :=
            match conflicts with
            | [] => "No conflicts found"
            | _ => "Found " ++ str_of_nat (length conflicts) ++ " potential conflicts"
            end |}.

(** Lines 128-135: the [Action] objects built from the proposal. *)
Fixpoint build_actions (proposed : list ActionData) : M Store (list ref) :=
  match proposed with
  | [] => mret []
  | action_data :: rest =>
      r ← alloc (mk_Action (ad_service action_data) (ad_method action_data)
                   (ad_params action_data));
      more ← build_actions rest;
      mret (r :: more)
  end.

(** [action.service == "calendar"] for the object behind [r] *)
Definition is_calendar_action (w : World Store) (r : ref) : bool :=
  match heap w !! r with
  | Some a => String.eqb (Model.service a) "calendar"
  | None => false
  end.

(** [ActionPlanner.plan] from line 127 on: everything after the language
    model has answered with [result]. *)
Definition plan (result : PlanResult) : M Store ActionPlan :=
  actions ← build_actions (r_actions result);
  let summary := r_summary result in
  let requires_verification := r_requires_verification result in
  calendar_actions ← (fun w => (Ok (filter (fun r => is_calendar_action w r = true) actions), w));
  match calendar_actions with
  | [] => mret (mk_ActionPlan actions summary requires_verification)
  | _ =>
      validation_result ← validate_calendar_actions actions;
      if negb (valid validation_result)
      then mret (mk_ActionPlan actions
                   (summary ++ conflict_details (v_conflicts validation_result))
                   true)
      else mret (mk_ActionPlan actions summary requires_verification)
  end.

End Planner.

End Planner.

(* ===================================================================== *)
(** * main.py: the conflict-resolution dialog                             *)
(* ===================================================================== *)

Module Dialog.
Import Normalizer Calendar.

(** The three modes of a requester, as [process_message] tells them apart
    (lines 121 and 127). *)
Inductive Mode := Idle | AwaitingVerification | AwaitingConflictResolution.

(** The answer of the language model in [handle_conflict_resolution]
    (the [analysis] of line 289); an absent key is [None]. *)
Record Analysis := mk_Analysis {
  intent : option string;
  suggested_time_index : option Value;
  custom_time : option string
}.

(** The ["entities"] of a parsed message, and the parsed message. *)
Record Entities := mk_Entities {
  start_time_iso : option Value;
  end_time_iso : option Value
}.

Record Intent := mk_Intent {
  entities : option Entities
}.

(** What the body of the [try] of [handle_conflict_resolution] asks of the
    line that follows it: to clear the state, or to have returned before. *)
Inductive Outcome := ClearState | Returned.

(** The integer a value stands for in [0 <= time_index < len(..)]. *)
Definition as_index (v : Value) : PyResult Z :=
  match v with
  | VInt n => Ok n
  | VBool b => Ok (if b then 1 else 0)
  | VNone => Raise (TypeError "'<=' not supported between instances of 'int' and 'NoneType'")
  | VStr _ => Raise (TypeError "'<=' not supported between instances of 'int' and 'str'")
  end.

Section Dialog.

Context {Store : Type}.

(** [calendar], the connector of lines 39-42, and the methods of it that
    are not modelled. *)
Variable service : GoogleService Store.
Variable default_calendar_id : string.
Variable other_methods : string -> Params -> M Store Result.

Definition mode (w : World Store) (sender_id : string) : Mode :=
  match conversation_state w !! sender_id with
  | None => Idle
  | Some state =>
      if awaiting_verification state then AwaitingVerification
      else if awaiting_conflict_resolution state then AwaitingConflictResolution
      else Idle
  end.

(** Modelled from the spec: [connectors/whatsapp.py] is not among the
    sources.  [sendMessage(recipientId, text)] is fire-and-forget from the
    caller's side: the message is handed over and a delivery failure is
    the connector's business, so the call always returns. *)
Definition send_message (recipient_id : string) (message : Message) : M Store unit :=
  fun w =>
    (Ok tt,
     mk_World (heap w) (store w) (requests w) (conversation_state w)
       (outbox w ++ [(recipient_id, message)])).

(** [conversation_state[sender_id] = state] *)
Definition set_state (sender_id : string) (state : ConvState) : M Store unit :=
  fun w =>
    (Ok tt,
     mk_World (heap w) (store w) (requests w)
       (<[sender_id := state]> (conversation_state w)) (outbox w)).

(** [conversation_state.get(sender_id, {})] *)
Definition get_state (sender_id : string) : M Store ConvState :=
  fun w => (Ok (default empty_state (conversation_state w !! sender_id)), w).

(** [service = action_planner.available_services.get(name)] followed by
    [service.execute(method=.., params=..)]; [available_services] is
    [{"calendar": calendar}] (line 48). *)
Definition service_execute (name method : string) (params : Params)
  : M Store Result :=
  if String.eqb name "calendar"
  then execute service default_calendar_id other_methods method params
  else throw (AttributeError "'NoneType' object has no attribute 'execute'").

(** [reschedule_to_time] *)
Definition reschedule_to_time (sender_id : string) (original_action : ref)
  (start_time end_time : string) : M Store unit :=
  response ←
    try_except
      (_ ← set_param original_action "start_time" (VStr start_time);
       _ ← set_param original_action "end_time" (VStr end_time);
       _ ← set_param original_action "check_for_conflicts" (VBool false);
       action ← read original_action;
       result ← service_execute (Model.service action) (method action) (params action);
       if bool_decide (status result = Some "success") then
         (* the date line of the reply parses [start_time] *)
         _ ← lift (parse_iso start_time);
         mret (Scheduled (default (VStr "Event") (params action !! "summary"))
                 start_time end_time)
       else mret (CouldNotSchedule (message_of result)))
      (fun e => mret (ErrorScheduling (str_of_exn e)));
  send_message sender_id response.

(** [create_event_ignoring_conflicts] *)
Definition create_event_ignoring_conflicts (sender_id : string)
  (original_action : ref) : M Store unit :=
  try_except
    (_ ← set_param original_action "check_for_conflicts" (VBool false);
     action ← read original_action;
     result ← service_execute (Model.service action) (method action) (params action);
     if bool_decide (status result = Some "success")
     then send_message sender_id
            (CreatedDespite (default (VStr "Event") (params action !! "summary")))
     else send_message sender_id (CouldNotCreate (message_of result)))
    (fun e => send_message sender_id (ErrorCreating (str_of_exn e))).

(** [handle_custom_reschedule]; [parsed] is the outcome of
    [message_parser.parse] on the sentence built from the summary and the
    requester's time. *)
Definition handle_custom_reschedule (sender_id : string) (original_action : ref)
  (custom_time_text : string) (parsed : PyResult Intent) : M Store unit :=
  try_except
    (intent ← lift parsed;
     let entities := default (mk_Entities None None) (entities intent) in
     match start_time_iso entities, end_time_iso entities with
     | Some start_time, Some end_time =>
         conflict_check ← check_conflicts service default_calendar_id
                            start_time end_time None;
         match start_time, end_time with
         | VStr start_time, VStr end_time =>
             if has_conflicts conflict_check then
               let conflicts := conflicts_of conflict_check in
               _ ← send_message sender_id
                     (AlsoConflicts start_time end_time (length conflicts));
               set_state sender_id
                 {| awaiting_verification := false;
                    pending_action := None;
                    awaiting_conflict_resolution := true;
                    conflicts := Some conflicts;
                    alternative_times := Some [(start_time, end_time)];
                    original_action := Some original_action |}
             else reschedule_to_time sender_id original_action start_time end_time
         | _, _ =>
             (* [check_conflicts] has raised on anything but two strings *)
             throw (AttributeError "object has no attribute 'endswith'")
         end
     | _, _ => send_message sender_id TimeNotUnderstood
     end)
    (fun e => send_message sender_id TroubleWithTime).

(** The body of the [try] of [handle_conflict_resolution]
    (lines 289-336). *)
Definition resolve (sender_id message_text : string)
  (alternative_times : list (string * string)) (original_action : ref)
  (llm : PyResult Analysis) (parsed : PyResult Intent) : M Store Outcome :=
  analysis ← lift llm;
  let intent := intent analysis in
  if bool_decide (intent = Some "cancel") then
    _ ← send_message sender_id CancelledCreation;
    mret ClearState
  else if bool_decide (intent = Some "override_conflicts") then
    _ ← create_event_ignoring_conflicts sender_id original_action;
    mret ClearState
  else if bool_decide (intent = Some "reschedule_to_suggested") then
    time_index ← lift (as_index (default (VInt 0) (suggested_time_index analysis)));
    if (0 <=? time_index) && (time_index <? Z.of_nat (length alternative_times)) then
      match alternative_times !! Z.to_nat time_index with
      | Some (start_time, end_time) =>
          _ ← reschedule_to_time sender_id original_action start_time end_time;
          mret ClearState
      | None => throw (OtherError "index out of range")
      end
    else
      _ ← send_message sender_id WhichTime;
      mret Returned
  else if bool_decide (intent = Some "reschedule_to_custom") then
    let custom_time := default message_text (custom_time analysis) in
    _ ← handle_custom_reschedule sender_id original_action custom_time parsed;
    mret Returned
  else
    _ ← send_message sender_id Menu;
    mret Returned.

(** [handle_conflict_resolution]; [llm] is the outcome of
    [llm_service.structured_generate] on the requester's reply, [parsed]
    the outcome of [message_parser.parse] should the reply name a time of
    its own. *)
Definition handle_conflict_resolution (sender_id message_text : string)
  (llm : PyResult Analysis) (parsed : PyResult Intent) : M Store unit :=
  state ← get_state sender_id;
  let alternative_times := default [] (alternative_times state) in
  match original_action state with
  | None =>
      _ ← send_message sender_id LostTrack;
      set_state sender_id empty_state
  | Some original_action =>
      outcome ←
        try_except
          (resolve sender_id message_text alternative_times original_action
             llm parsed)
          (fun e =>
             _ ← send_message sender_id TroubleUnderstanding;
             mret Returned);
      match outcome with
      | ClearState =>
          (* "Clear the conflict resolution state only on success" *)
          set_state sender_id empty_state
      | Returned => mret tt
      end
  end.

End Dialog.

End Dialog.

(* ===================================================================== *)
(** * The connector behind the finder                                     *)
(* ===================================================================== *)

Module Integration.
Import Calendar.

(** How the finder sees a dictionary of the connector: ['start'] and
    ['end'] are present, and hold a string or [None]. *)
Definition flat_field (t : option string) : TimeField :=
  match t with
  | Some s => Flat s
  | None => Null
  end.

Definition flat_view (f : FlatEvent) : Event :=
  {| ev_summary := f_summary f;
     ev_start := Some (flat_field (f_start f));
     ev_end := Some (flat_field (f_end f)) |}.

(** The result dictionary of [list_events], as the finder reads it:
    only a successful listing has the key ['events']. *)
Definition listing_view (r : Result) : ListEventsResult :=
  match r with
  | ListSuccess _ evs => mk_ListEventsResult (Some (map flat_view evs))
  | _ => mk_ListEventsResult None
  end.

Section Integration.

Context {Store : Type}.
Variable service : GoogleService Store.
Variable default_calendar_id : string.

(** [get_smart_alternative_times] with the connector of the repository as
    [calendar_service], as [execute_action_plan] calls it (main.py, lines
    511-514).  [day_start] and [day_end] are the bounds of the target day
    in the zone Africa/Casablanca, as ISO strings; the zone database is
    not modelled, so they are arguments. *)
Definition smart_alternatives_from_calendar (original_start original_end : string)
  (conflicts : list FlatEvent) (day_start day_end : string)
  : M Store (list (string * string)) :=
  fun w =>
    let '(listing, w') :=
      list_events service default_calendar_id (Some day_start) (Some day_end) 10 None w in
    (Ok (get_smart_alternative_times original_start original_end
           (map flat_view conflicts)
           (match listing with
            | Ok r => Ok (listing_view r)
            | Raise e => Raise e
            end)),
     w').

End Integration.

End Integration.

(* ===================================================================== *)
(** * The vocabulary of the specification                                 *)
(* ===================================================================== *)

Module Spec.

(** The overlap rule of the conflict detector: a busy interval [b]
    conflicts with a candidate [[s, e)] iff [b.start < e] and [b.end > s].
    Touching boundaries are not conflicts. *)
Definition conflicts_with (b : period) (slot : period) : Prop :=
  instant (fst b) < instant (snd slot) /\ instant (snd b) > instant (fst slot).

(** One slot starts strictly before another. *)
Definition starts_before (a b : period) : Prop :=
  instant (fst a) < instant (fst b).

(** The free-slot search in the words of the specification: a cursor [t]
    walks the window; a free candidate [[t, t + duration)] is recorded and
    [t] advances by [step]; a candidate that overlaps a busy interval [b]
    moves [t] to [b.end]; the walk stops when [t + duration] would pass
    the end of the window or when [enough] slots are collected.
    [walk .. t collected out]: from cursor [t] with the slots [collected]
    so far, the walk ends with the slots [out]. *)
Inductive walk (busy : list period) (duration : timedelta) (step : timedelta)
  (window_end : datetime) (enough : nat)
  : datetime -> list period -> list period -> Prop :=
| walk_window_passed t collected :
    instant t + duration > instant window_end ->
    walk busy duration step window_end enough t collected collected
| walk_enough t collected :
    (enough <= length collected)%nat ->
    walk busy duration step window_end enough t collected collected
| walk_free t t_end t_next collected out :
    add t duration = Ok t_end ->
    instant t_end <= instant window_end ->
    (forall b, In b busy -> ~ conflicts_with b (t, t_end)) ->
    add t step = Ok t_next ->
    walk busy duration step window_end enough t_next
      (collected ++ [(t, t_end)])%list out ->
    walk busy duration step window_end enough t collected out
| walk_busy t t_end b collected out :
    add t duration = Ok t_end ->
    instant t_end <= instant window_end ->
    In b busy ->
    conflicts_with b (t, t_end) ->
    walk busy duration step window_end enough (snd b) collected out ->
    walk busy duration step window_end enough t collected out.

End Spec.
Export Spec.

(* ===================================================================== *)
(** * Concrete data for the examples                                      *)
(* ===================================================================== *)

Module Examples.

(** An event from 10:00 to 11:00, as the Google API delivers it. *)
Definition standup : Event :=
  mk_Event "Standup"
    (Some (Nested (Some "2025-05-23T10:00:00+01:00")))
    (Some (Nested (Some "2025-05-23T11:00:00+01:00"))).

(** The listing of a day whose only event is [standup]. *)
Definition standup_day : PyResult ListEventsResult :=
  Ok (mk_ListEventsResult (Some [standup])).

(** An event that starts at 08:00 and ends in the last hour of the last
    day a [datetime] can hold. *)
Definition open_ended : Event :=
  mk_Event "Sabbatical"
    (Some (Nested (Some "2025-05-23T08:00:00+01:00")))
    (Some (Nested (Some "9999-12-31T23:30:00+01:00"))).

Definition open_ended_day : PyResult ListEventsResult :=
  Ok (mk_ListEventsResult (Some [open_ended])).

(** An event from 09:00 to 10:00, as the connector of the repository
    delivers it. *)
Definition review : FlatEvent :=
  {| f_id := "evt-1"; f_summary := "Review";
     f_start := Some "2025-05-23T09:00:00+01:00";
     f_end := Some "2025-05-23T10:00:00+01:00";
     f_location := Some ""; f_description := Some "";
     f_html_link := None |}.


(** A remote calendar for the examples: its state is the list of its
    events; a listing returns the events that overlap the queried range
    (an event is returned when it ends after [timeMin] and starts before
    [timeMax]); an insert stores the event under the id ["new"]. *)
Definition in_query_range (timeMin timeMax : string) (event : GEvent) : bool :=
  match parse_iso timeMin, parse_iso timeMax,
        dateTime (g_start event), dateTime (g_end event) with
  | Ok lo, Ok hi, Some s, Some e =>
      match parse_iso s, parse_iso e with
      | Ok start_dt, Ok end_dt =>
          (instant lo <? instant end_dt) && (instant start_dt <? instant hi)
      | _, _ => false
      end
  | _, _, _, _ => false
  end.

Definition event_of_body (body : EventBody) : GEvent :=
  {| g_id := "new";
     g_summary := match b_summary body with VStr s => Some s | _ => None end;
     g_start := mk_GTime (Some (b_start body)) None;
     g_end := mk_GTime (Some (b_end body)) None;
     g_location := None; g_description := None;
     g_htmlLink := Some "https://calendar.example/new" |}.

Definition remote : GoogleService (list GEvent) :=
  {| events_list := fun stored _ timeMin timeMax _ =>
       Ok (List.filter (in_query_range timeMin timeMax) stored);
     events_insert := fun stored _ body =>
       (Ok (event_of_body body), (stored ++ [event_of_body body])%list) |}.

(** The same calendar when inserting fails. *)
Definition read_only_remote : GoogleService (list GEvent) :=
  {| events_list := events_list remote;
     events_insert := fun stored _ _ =>
       (Raise (OtherError "HttpError 503: backend unavailable"), stored) |}.

(** None of the examples calls a method that is not modelled. *)
Definition no_other_methods : string -> Params -> M (list GEvent) Result :=
  fun method _ => mret (ErrorOnly ("not modelled: " ++ method)).

(** The calendar holds a review from 14:30 to 15:30 and a lunch from
    12:00 to 13:00. *)
Definition review_1430 : GEvent :=
  {| g_id := "evt-7"; g_summary := Some "Review";
     g_start := mk_GTime (Some "2025-05-23T14:30:00+01:00") None;
     g_end := mk_GTime (Some "2025-05-23T15:30:00+01:00") None;
     g_location := None; g_description := None; g_htmlLink := None |}.

Definition lunch_1200 : GEvent :=
  {| g_id := "evt-8"; g_summary := Some "Lunch";
     g_start := mk_GTime (Some "2025-05-23T12:00:00+01:00") None;
     g_end := mk_GTime (Some "2025-05-23T13:00:00+01:00") None;
     g_location := None; g_description := None; g_htmlLink := None |}.

Definition stored_events : list GEvent := [lunch_1200; review_1430].

(** A world with that calendar, no object, no dialog and nothing sent. *)
Definition quiet_world : World (list GEvent) :=
  mk_World ∅ stored_events [] ∅ [].

(** A requester in the middle of a negotiation: the creation of "Sync"
    from 14:00 to 15:00 ran into the review, and 16:00-17:00 and
    17:00-18:00 were offered instead. *)
Definition requester : string := "whatsapp:+212600000000".

Definition sync_action : Action :=
  mk_Action "calendar" "create_event"
    (<["summary" := VStr "Sync"]>
       (<["start_time" := VStr "2025-05-23T14:00:00+01:00"]>
          (<["end_time" := VStr "2025-05-23T15:00:00+01:00"]> ∅))).

Definition negotiation : ConvState :=
  {| awaiting_verification := false;
     pending_action := None;
     awaiting_conflict_resolution := true;
     conflicts := Some [Calendar.conflict_entry review_1430];
     alternative_times :=
       Some [("2025-05-23T16:00:00+01:00", "2025-05-23T17:00:00+01:00");
             ("2025-05-23T17:00:00+01:00", "2025-05-23T18:00:00+01:00")];
     original_action := Some 0%nat |}.

Definition negotiating_world : World (list GEvent) :=
  mk_World (<[0%nat := sync_action]> ∅) stored_events []
    (<[requester := negotiation]> ∅) [].

(** A proposal of the language model: create "Sync" from 14:00 to 15:00,
    the times written without a zone. *)
Definition naive_creation : Planner.ActionData :=
  Planner.mk_ActionData "calendar" "create_event"
    (<["summary" := VStr "Sync"]>
       (<["start_time" := VStr "2025-05-23T14:00:00"]>
          (<["end_time" := VStr "2025-05-23T15:00:00"]> ∅))).

Definition naive_proposal : Planner.PlanResult :=
  Planner.mk_PlanResult [naive_creation] "Create the event Sync." false.

(** Replies of the language model. *)
Definition pick (i : Z) : Dialog.Analysis :=
  Dialog.mk_Analysis (Some "reschedule_to_suggested") (Some (VInt i)) None.

Definition custom (text : string) : Dialog.Analysis :=
  Dialog.mk_Analysis (Some "reschedule_to_custom") None (Some text).

(** What the message parser makes of a time of the requester's own. *)
Definition parsed_times (start_time end_time : string) : Dialog.Intent :=
  Dialog.mk_Intent
    (Some (Dialog.mk_Entities (Some (VStr start_time)) (Some (VStr end_time)))).

End Examples.

(* ===================================================================== *)
(** * Notions used in the proofs about the finder                         *)
(* ===================================================================== *)

Module FinderAux.

(** The four ways one iteration of [search_loop] that takes part in a
    successful search can go. *)
Inductive iteration (fuel : nat) (business_end_time : datetime)
  (duration : timedelta) (busy : list period) (current_time : datetime)
  (available_slots out : list period) : Prop :=
| iter_leave slot_end :
    add current_time duration = Ok slot_end ->
    le slot_end business_end_time = Ok false ->
    out = available_slots ->
    iteration fuel business_end_time duration busy current_time available_slots out
| iter_jump slot_end busy_end :
    add current_time duration = Ok slot_end ->
    le slot_end business_end_time = Ok true ->
    first_conflict current_time slot_end busy = Ok (Some busy_end) ->
    search_loop fuel business_end_time duration busy busy_end available_slots
      = Some (Ok out) ->
    iteration fuel business_end_time duration busy current_time available_slots out
| iter_last slot_end next_time :
    add current_time duration = Ok slot_end ->
    le slot_end business_end_time = Ok true ->
    first_conflict current_time slot_end busy = Ok None ->
    add current_time (30 * MINUTE) = Ok next_time ->
    (5 <= length (available_slots ++ [(current_time, slot_end)]))%nat ->
    out = (available_slots ++ [(current_time, slot_end)])%list ->
    iteration fuel business_end_time duration busy current_time available_slots out
| iter_record slot_end next_time :
    add current_time duration = Ok slot_end ->
    le slot_end business_end_time = Ok true ->
    first_conflict current_time slot_end busy = Ok None ->
    add current_time (30 * MINUTE) = Ok next_time ->
    (length (available_slots ++ [(current_time, slot_end)]) < 5)%nat ->
    search_loop fuel business_end_time duration busy next_time
      (available_slots ++ [(current_time, slot_end)])%list = Some (Ok out) ->
    iteration fuel business_end_time duration busy current_time available_slots out.

(** The busy periods that still end after the cursor. *)
Definition ends_after (current_time : datetime) (b : period) : bool :=
  match lt current_time (snd b) with
  | Ok true => true
  | _ => false
  end.

Definition pending (current_time : datetime) (busy : list period) : nat :=
  length (List.filter (ends_after current_time) busy).

End FinderAux.
Export FinderAux.

(* ===================================================================== *)
(** * Notions used in the statements about the dialog and the planner     *)
(* ===================================================================== *)

Module StateAux.

(** The pending action as [reschedule_to_time] rewrites it (lines
    434-436). *)
Definition rescheduled (a : Action) (start_time end_time : string) : Action :=
  mk_Action (service a) (method a)
    (<["check_for_conflicts" := VBool false]>
       (<["end_time" := VStr end_time]>
          (<["start_time" := VStr start_time]> (params a)))).

(** The [Action] built from a proposal of the language model (lines
    130-134). *)
Definition action_of (action_data : Planner.ActionData) : Action :=
  mk_Action (Planner.ad_service action_data) (Planner.ad_method action_data)
    (Planner.ad_params action_data).

(** [a'] is [a] except that a time string under ["start_time"] or
    ["end_time"] may have been replaced by its normalized form. *)
Definition same_but_times (a a' : Action) : Prop :=
  service a' = service a
  /\ method a' = method a
  /\ forall key,
       params a' !! key = params a !! key
       \/ ((key = "start_time" \/ key = "end_time")
           /\ exists t, params a !! key = Some (VStr t)
                        /\ params a' !! key = Some (VStr (Normalizer.format_time t))).

(** The objects of [h'] are those of [h], up to the normalization of
    their times. *)
Definition heap_related (h h' : gmap ref Action) : Prop :=
  forall r, match h !! r, h' !! r with
            | Some a, Some a' => same_but_times a a'
            | None, None => True
            | _, _ => False
            end.

(** [a] is a calendar creation whose conflict check, run in the world
    [w], succeeds and reports conflicts. *)
Definition reports_conflict {Store} (calendar : GoogleService Store)
  (default_calendar_id : string) (w : World Store) (a : Action) : Prop :=
  service a = "calendar"
  /\ method a = "create_event"
  /\ exists start_time end_time reported w1,
       params a !! "start_time" = Some start_time
       /\ params a !! "end_time" = Some end_time
       /\ Calendar.check_conflicts calendar default_calendar_id
            start_time end_time None w = (Ok reported, w1)
       /\ status reported = Some "success"
       /\ has_conflicts reported = true.

(** The same, spelled out on the remote calendar: both times are
    non-empty strings and the listing of the normalized range returns at
    least one event. *)
Definition listing_finds_events {Store} (calendar : GoogleService Store)
  (default_calendar_id : string) (stored : Store) (a : Action) : Prop :=
  service a = "calendar"
  /\ method a = "create_event"
  /\ exists s e first others,
       params a !! "start_time" = Some (VStr s)
       /\ params a !! "end_time" = Some (VStr e)
       /\ falsy (Some s) = false
       /\ falsy (Some e) = false
       /\ events_list calendar stored
            (Calendar.calendar_or_default default_calendar_id None)
            (Normalizer.format_time s) (Normalizer.format_time e) None
          = Ok (first :: others).

End StateAux.
Export StateAux.

(* ===================================================================== *)
(** * agent/action_planner.py: the parameter check                        *)
(* ===================================================================== *)

Module PlannerChecks.

(** [key in action.params] *)
Definition has_key (action : Action) (key : string) : bool :=
  bool_decide (is_Some (params action !! key)).

(** [ActionPlanner.validate_required_parameters] *)
Definition validate_required_parameters (action : Action) : bool :=
  if String.eqb (service action) "email" then
    if String.eqb (method action) "send_email"
    then has_key action "to" && has_key action "subject"
    else if String.eqb (method action) "reply_to_email"
    then has_key action "email_id" && has_key action "body"
    else true
  else if String.eqb (service action) "calendar" then
    if String.eqb (method action) "create_event"
    then has_key action "summary" && has_key action "start_time"
         && has_key action "end_time"
    else if String.eqb (method action) "update_event"
    then has_key action "event_id"
    else if String.eqb (method action) "delete_event"
    then has_key action "event_id"
    else true
  else true.

(** The condition under which [validate_calendar_actions] checks an
    action against the calendar (lines 194, 201 and 206). *)
Definition is_checked_creation (action : Action) : bool :=
  String.eqb (service action) "calendar"
  && String.eqb (method action) "create_event"
  && truthy (default VNone (params action !! "start_time"))
  && truthy (default VNone (params action !! "end_time")).

(** A time parameter that is absent, falsy or a string. *)
Definition string_or_falsy (v : option Value) : bool :=
  match v with
  | Some (VStr _) => true
  | Some v => negb (truthy v)
  | None => true
  end.

Definition has_string_times (action : Action) : bool :=
  string_or_falsy (params action !! "start_time")
  && string_or_falsy (params action !! "end_time").

End PlannerChecks.
Export PlannerChecks.

(* ===================================================================== *)
(** * main.py: the execution of an action plan                            *)
(* ===================================================================== *)

Module Executor.
Import Normalizer Calendar Dialog Integration.

(** What [execute_action_plan] returns: the conflict message it builds
    itself (lines 528-547) from the summary of the action, the conflicts
    and the first three alternatives, or the text the language model
    generates from the results (line 559). *)
Inductive Response :=
| ConflictMessage (summary : Value) (conflicts : list FlatEvent)
    (alternative_times : list (string * string))
| Text (text : string).

(** How the body of the loop of [execute_action_plan] ends for one
    action: with the [return] of line 547, or with a result appended to
    [results]. *)
Inductive Step :=
| Return (response : Response)
| Append (result : Result).

(** [action.params[key]]; [str(e)] of a [KeyError] is the key in
    quotes. *)
Definition param (action : Action) (key : string) : PyResult Value :=
  match params action !! key with
  | Some v => Ok v
  | None => Raise (KeyError ("'" ++ key ++ "'"))
  end.

Section Executor.

Context {Store : Type}.

(** [calendar], the connector of lines 39-42, and the methods of it that
    are not modelled. *)
Variable service : GoogleService Store.
Variable default_calendar_id : string.
Variable other_methods : string -> Params -> M Store Result.

(** Lines 96-107 of [utils/time_utils.py]: the first and the last
    instant of the day of [start_dt] in the zone Africa/Casablanca, as ISO
    strings.  The zone database is not modelled. *)
Variable day_bounds : datetime -> PyResult (string * string).

(** [action_planner.generate_response]: what the language model writes
    is not modelled. *)
Variable generate_response : ActionPlan -> list Result -> M Store string.

(** [TimeConverter.get_smart_alternative_times] with the connector as
    [calendar_service]: the request's times are parsed before the
    calendar is asked, and whatever is raised on the way leads to the
    fallback. *)
Definition get_smart_alternative_times_on (original_start original_end : string)
  (conflicts : list FlatEvent) : M Store (list (string * string)) :=
  fun w =>
    match (start_dt ← parse_iso original_start;
           end_dt ← parse_iso original_end;
           _ ← sub end_dt start_dt;
           day_bounds start_dt) with
    | Ok (day_start, day_end) =>
        smart_alternatives_from_calendar service default_calendar_id
          original_start original_end conflicts day_start day_end w
    | Raise _ => (Ok (get_fallback_alternatives original_start original_end), w)
    end.

(** The same on the values found in [action.params]: a value that is not
    a string has no [replace], in the search as in the fallback. *)
Definition alternatives_for (start_time end_time : Value)
  (conflicts : list FlatEvent) : M Store (list (string * string)) :=
  match start_time, end_time with
  | VStr original_start, VStr original_end =>
      get_smart_alternative_times_on original_start original_end conflicts
  | _, _ => mret []
  end.

(** Lines 481-487: the times of a calendar creation are normalized in
    place before it is executed. *)
Definition normalize_times (r : ref) (action : Action) : M Store unit :=
  if String.eqb (method action) "create_event" then
    match params action !! "start_time", params action !! "end_time" with
    | Some start_time, Some end_time =>
        '(start_time, end_time) ← lift (ensure_iso_format_values start_time end_time);
        _ ← set_param r "start_time" (VStr start_time);
        set_param r "end_time" (VStr end_time)
    | _, _ => mret tt
    end
  else mret tt.

(** The body of the [try] of lines 479-549, for an action of the
    calendar service. *)
Definition run_calendar_action (sender_id : string) (r : ref) (action : Action)
  : M Store Step :=
  _ ← normalize_times r action;
  action ← read r;
  result ← execute service default_calendar_id other_methods
             (method action) (params action);
  if String.eqb (method action) "create_event"
     && bool_decide (status result = Some "conflict")
  then
    let conflicts := conflicts_of result in
    start_time ← lift (param action "start_time");
    end_time ← lift (param action "end_time");
    alternative_times ← alternatives_for start_time end_time conflicts;
    _ ← set_state sender_id
          {| awaiting_verification := false;
             pending_action := None;
             awaiting_conflict_resolution := true;
             Model.conflicts := Some conflicts;
             Model.alternative_times := Some alternative_times;
             original_action := Some r |};
    mret (Return (ConflictMessage
                    (default (VStr "Event") (params action !! "summary"))
                    conflicts (firstn 3 alternative_times)))
  else mret (Append result).

(** The body of the loop (lines 474-556) for one action;
    [available_services] is [{"calendar": calendar}]. *)
Definition execute_action (sender_id : string) (r : ref) : M Store Step :=
  action ← read r;
  if String.eqb (Model.service action) "calendar" then
    try_except
      (run_calendar_action sender_id r action)
      (fun e => mret (Append (ErrorOnly ("Error with " ++ Model.service action
                                         ++ ": " ++ str_of_exn e))))
  else
    mret (Append (ErrorOnly ("Service " ++ Model.service action ++ " not available"))).

(** The loop of lines 474-556: the response returned from inside it, or
    the [results] it has collected. *)
Fixpoint execute_loop (sender_id : string) (actions : list ref)
  (results : list Result) : M Store (Response + list Result) :=
  match actions with
  | [] => mret (inr results)
  | r :: rest =>
      step ← execute_action sender_id r;
      match step with
      | Return response => mret (inl response)
      | Append result => execute_loop sender_id rest (results ++ [result])%list
      end
  end.

(** [execute_action_plan] *)
Definition execute_action_plan (action_plan : ActionPlan) (sender_id : string)
  : M Store Response :=
  outcome ← execute_loop sender_id (actions action_plan) [];
  match outcome with
  | inl response => mret response
  | inr results =>
      text ← generate_response action_plan results;
      mret (Text text)
  end.

End Executor.

End Executor.

(* ===================================================================== *)
(** * utils/time_utils.py: dates and times in words                       *)
(* ===================================================================== *)

Module PyStr.

(** [needle in hay], for strings *)
Fixpoint contains (needle hay : string) : bool :=
  String.prefix needle hay
  || match hay with
     | EmptyString => false
     | String _ rest => contains needle rest
     end.

End PyStr.
Export PyStr.

Module Clock.

(** [d.weekday()]: Monday is 0, and 0001-01-01 was a Monday. *)
Definition weekday (d : datetime) : Z := (wall d / DAY) mod 7.

(** [d.hour] *)
Definition hour (d : datetime) : Z := (wall d mod DAY) / HOUR.

(** [TimeConverter.is_business_hours] *)
Definition is_business_hours (dt : datetime) : bool :=
  if 5 <=? weekday dt then false
  else (9 <=? hour dt) && (hour dt <=? 18).

(** A [date] is identified with the number of days since 0001-01-01;
    [date.max] is 9999-12-31. *)
Definition date := Z.

(** [d.date()] *)
Definition date_of (d : datetime) : date := wall d / DAY.

(** [day + timedelta(days=n)] *)
Definition date_add (day : date) (n : Z) : PyResult date :=
  if (0 <=? day + n) && (day + n <=? 3652058) then Ok (day + n)
  else Raise (OverflowError "date value out of range").

(** The argument of [get_next_business_day]: a string or a datetime. *)
Inductive DateArg :=
| IsoString (s : string)
| Moment (d : datetime).

(** Lines 258-259 *)
Definition as_datetime (reference_date : DateArg) : PyResult datetime :=
  match reference_date with
  | IsoString s => parse_iso s
  | Moment d => Ok d
  end.

(** The loop of lines 268-269; it runs at most twice. *)
Fixpoint skip_weekend (fuel : nat) (next_day : datetime)
  : option (PyResult datetime) :=
  match fuel with
  | O => None
  | S fuel' =>
      if 5 <=? weekday next_day then
        match add next_day DAY with
        | Ok next_day' => skip_weekend fuel' next_day'
        | Raise e => Some (Raise e)
        end
      else Some (Ok next_day)
  end.

(** The dictionary [time_patterns] of lines 296-307, in its order. *)
Definition time_patterns : list (string * Z) :=
  [("9am", 9); ("9 am", 9); ("9:00am", 9); ("9:00 am", 9);
   ("10am", 10); ("10 am", 10); ("10:00am", 10); ("10:00 am", 10);
   ("11am", 11); ("11 am", 11); ("11:00am", 11); ("11:00 am", 11);
   ("12pm", 12); ("12 pm", 12); ("12:00pm", 12); ("12:00 pm", 12); ("noon", 12);
   ("1pm", 13); ("1 pm", 13); ("1:00pm", 13); ("1:00 pm", 13);
   ("2pm", 14); ("2 pm", 14); ("2:00pm", 14); ("2:00 pm", 14);
   ("3pm", 15); ("3 pm", 15); ("3:00pm", 15); ("3:00 pm", 15);
   ("4pm", 16); ("4 pm", 16); ("4:00pm", 16); ("4:00 pm", 16);
   ("5pm", 17); ("5 pm", 17); ("5:00pm", 17); ("5:00 pm", 17);
   ("6pm", 18); ("6 pm", 18); ("6:00pm", 18); ("6:00 pm", 18)].

(** The loop of lines 309-312: the hour of the first pattern found in
    the text. *)
Definition find_time (text_lower : string) : option Z :=
  snd <$> List.find (fun pattern => contains (fst pattern) text_lower)
            time_patterns.

Section Clock.

(** [user_tz.localize(d).utcoffset()] for the zone Africa/Casablanca, as
    a function of the wall clock; the zone database is not modelled. *)
Variable utcoffset : Z -> Z.

(** [str.lower] and [str.strip]; the case mapping and the white space of
    Unicode are not modelled. *)
Variable lower : string -> string.
Variable strip : string -> string.

(** [user_tz.localize(d)] *)
Definition localize (d : datetime) : datetime :=
  {| wall := wall d; tzinfo := Some (utcoffset (wall d)) |}.

(** [TimeConverter.get_next_business_day] *)
Definition get_next_business_day (reference_date : DateArg) : PyResult datetime :=
  reference_date ← as_datetime reference_date;
  let reference_date :=
    match tzinfo reference_date with
    | None => localize reference_date
    | Some _ => reference_date
    end in
  next_day ← add reference_date DAY;
  match skip_weekend 3 next_day with
  | Some outcome => outcome
  | None => Raise (OtherError "iteration bound exceeded")
  end.

(** [TimeConverter.parse_relative_date], with the reference time
    given. *)
Definition parse_relative_date (text : string) (reference_time : datetime)
  : PyResult (option date) :=
  let text_lower := lower text in
  if contains "tomorrow" text_lower
  then day ← date_add (date_of reference_time) 1; Ok (Some day)
  else if contains "today" text_lower
  then Ok (Some (date_of reference_time))
  else if contains "next week" text_lower
  then day ← date_add (date_of reference_time) 7; Ok (Some day)
  else if contains "next monday" text_lower
  then
    let days_ahead := 0 - weekday reference_time + 7 in
    let days_ahead := if days_ahead <=? 0 then days_ahead + 7 else days_ahead in
    day ← date_add (date_of reference_time) days_ahead; Ok (Some day)
  else Ok None.

(** [TimeConverter.parse_natural_time], with the reference time given. *)
Definition parse_natural_time (text : string) (reference_time : datetime)
  : PyResult (option datetime) :=
  let text_lower := strip (lower text) in
  base_date ←
    (if contains "tomorrow" text_lower then add reference_time DAY
     else if contains "today" text_lower then Ok reference_time
     else if contains "next week" text_lower then add reference_time (7 * DAY)
     else Ok reference_time);
  match find_time text_lower with
  | Some time_hour => Ok (Some (replace_hour base_date time_hour))
  | None => Ok None
  end.

End Clock.

End Clock.

(* ===================================================================== *)
(** * main.py: the entry point of a message                               *)
(* ===================================================================== *)

Module Webhook.
Import Normalizer Calendar Planner Dialog Executor.

(** The thumbs of lines 198 and 215, as UTF-8. *)
Definition thumbs_up : string :=
  String (ascii_of_nat 240) (String (ascii_of_nat 159)
  (String (ascii_of_nat 145) (String (ascii_of_nat 141) EmptyString))).

Definition thumbs_down : string :=
  String (ascii_of_nat 240) (String (ascii_of_nat 159)
  (String (ascii_of_nat 145) (String (ascii_of_nat 142) EmptyString))).

(** The messages that [process_message] and [handle_verification_response]
    send themselves, named after the text [main.py] builds. *)
Inductive Notice :=
| Thinking                                 (* "Thinking about your request..." *)
| VerificationRequest (summary : string)   (* "I'll help you with this. Here's what I'm planning to do: .. Would you like me to proceed? (yes/no)" *)
| Answer (response : Response)             (* the response of [execute_action_plan] *)
| ProcessingError (e : string)             (* "I encountered an error while processing your request: .." *)
| ProcessingNow                            (* "Processing your request now..." *)
| ActionCancelled                          (* "Action cancelled. How else can I help you?" *)
| YesOrNo.                                 (* "I'm not sure if that's a yes or a no. .." *)

(** The world together with the messages of this module that were
    sent. *)
Record Session (Store : Type) := mk_Session {
  world : World Store;
  sent : list (string * Notice)
}.
Arguments mk_Session {Store} _ _.
Arguments world {Store} _.
Arguments sent {Store} _.

(** Computations over a session that may raise. *)
Definition S (Store A : Type) : Type :=
  Session Store -> PyResult A * Session Store.

Definition retS {Store A} (a : A) : S Store A := fun s => (Ok a, s).

Definition bindS {Store A B} (m : S Store A) (k : A -> S Store B) : S Store B :=
  fun s =>
    match m s with
    | (Ok a, s') => k a s'
    | (Raise e, s') => (Raise e, s')
    end.

Definition throwS {Store A} (e : Exn) : S Store A := fun s => (Raise e, s).

(** [try: body except Exception as e: handler(e)] *)
Definition try_exceptS {Store A} (body : S Store A) (handler : Exn -> S Store A)
  : S Store A :=
  fun s =>
    match body s with
    | (Ok a, s') => (Ok a, s')
    | (Raise e, s') => handler e s'
    end.

(** A computation over the world, run in a session. *)
Definition liftS {Store A} (m : M Store A) : S Store A :=
  fun s =>
    let '(outcome, w') := m (world s) in
    (outcome, mk_Session w' (sent s)).

(** [whatsapp.send_message], for the messages of this module (see
    [Dialog.send_message]). *)
Definition notify {Store} (recipient_id : string) (notice : Notice)
  : S Store unit :=
  fun s => (Ok tt, mk_Session (world s) (sent s ++ [(recipient_id, notice)])).

(** The mock of lines 103-116. *)
Definition mock_action : Action :=
  mk_Action "calendar" "create_event"
    (<["summary" := VStr "Meeting"]>
       (<["start_time" := VStr "2025-05-23T15:00:00+01:00"]>
          (<["end_time" := VStr "2025-05-23T16:00:00+01:00"]> ∅))).

(** The conflict of the mock has no id; an id is read nowhere. *)
Definition mock_state (r : ref) : ConvState :=
  {| awaiting_verification := false;
     pending_action := None;
     awaiting_conflict_resolution := true;
     conflicts :=
       Some [ {| f_id := ""; f_summary := "meeting";
                 f_start := Some "2025-05-23T15:00:00+01:00";
                 f_end := Some "2025-05-23T16:00:00+01:00";
                 f_location := None; f_description := None;
                 f_html_link := None |} ];
     alternative_times :=
       Some [("2025-05-23T09:00:00+01:00", "2025-05-23T10:00:00+01:00")];
     original_action := Some r |}.

End Webhook.

#[global] Instance S_ret {Store} : MRet (Webhook.S Store) := @Webhook.retS Store.
#[global] Instance S_bind {Store} : MBind (Webhook.S Store) :=
  fun A B k m => Webhook.bindS m k.

Module Entry.
Import Normalizer Calendar Planner Dialog Executor Webhook.

Section Entry.

Context {Store : Type}.

Variable service : GoogleService Store.
Variable default_calendar_id : string.
Variable other_methods : string -> Params -> M Store Result.
Variable day_bounds : datetime -> PyResult (string * string).
Variable generate_response : ActionPlan -> list Result -> M Store string.

(** [str.lower]; the case mapping of Unicode is not modelled. *)
Variable lower : string -> string.

(** [conversation_state[sender_id]] *)
Definition state_of (sender_id : string) : S Store ConvState :=
  fun s =>
    match conversation_state (world s) !! sender_id with
    | Some state => (Ok state, s)
    | None => (Raise (KeyError ("'" ++ sender_id ++ "'")), s)
    end.

(** [handle_verification_response] *)
Definition handle_verification_response (sender_id message_text : string)
  : S Store unit :=
  state ← state_of sender_id;
  if bool_decide (lower message_text ∈ ["yes"; "oui"; "y"; "sure"; "ok"; thumbs_up])
  then
    _ ← notify sender_id ProcessingNow;
    pending ← match pending_action state with
              | Some action_plan => mret action_plan
              | None => throwS (KeyError "'pending_action'")
              end;
    response ← liftS (execute_action_plan service default_calendar_id
                        other_methods day_bounds generate_response
                        pending sender_id);
    _ ← notify sender_id (Answer response);
    liftS (set_state sender_id empty_state)
  else if bool_decide (lower message_text ∈ ["no"; "non"; "n"; "cancel"; thumbs_down])
  then
    _ ← notify sender_id ActionCancelled;
    liftS (set_state sender_id empty_state)
  else notify sender_id YesOrNo.

(** Lines 134-192 of [process_message]: a new request.  [proposal] is
    what [message_parser.parse], [reasoner.reason] and the language model
    of the planner come to (lines 142-151, and lines 51-125 of
    [agent/action_planner.py]). *)
Definition process_new_message (sender_id : string)
  (proposal : PyResult PlanResult) : S Store unit :=
  try_exceptS
    (_ ← notify sender_id Thinking;
     result ← liftS (lift proposal);
     action_plan ← liftS (plan service default_calendar_id result);
     if requires_verification action_plan then
       _ ← liftS (set_state sender_id
                    {| awaiting_verification := true;
                       pending_action := Some action_plan;
                       awaiting_conflict_resolution := false;
                       conflicts := None;
                       alternative_times := None;
                       original_action := None |});
       notify sender_id (VerificationRequest (summary action_plan))
     else
       response ← liftS (execute_action_plan service default_calendar_id
                           other_methods day_bounds generate_response
                           action_plan sender_id);
       notify sender_id (Answer response))
    (fun e => notify sender_id (ProcessingError (str_of_exn e))).

(** The test of line 97 *)
Definition forces_conflict_resolution (message_text : string) : bool :=
  contains "reschedule" (lower message_text)
  && (contains "9am" (lower message_text) || contains "9" message_text).

(** [process_message]; [llm] and [parsed] are the outcomes
    [handle_conflict_resolution] depends on. *)
Definition process_message (sender_id message_text : string)
  (llm : PyResult Analysis) (parsed : PyResult Intent)
  (proposal : PyResult PlanResult) : S Store unit :=
  if forces_conflict_resolution message_text then
    liftS (r ← alloc mock_action;
           _ ← set_state sender_id (mock_state r);
           handle_conflict_resolution service default_calendar_id other_methods
             sender_id message_text llm parsed)
  else
    fun s =>
      match conversation_state (world s) !! sender_id with
      | Some state =>
          if awaiting_verification state
          then handle_verification_response sender_id message_text s
          else if awaiting_conflict_resolution state
          then liftS (handle_conflict_resolution service default_calendar_id
                        other_methods sender_id message_text llm parsed) s
          else process_new_message sender_id proposal s
      | None => process_new_message sender_id proposal s
      end.

End Entry.

End Entry.

(* ===================================================================== *)
(** * Notions used in the statements about what the dialog sends          *)
(* ===================================================================== *)

Module DialogAux.

(** [m] sends no message and leaves every dialog as it is, however it
    ends. *)
Definition quiet {Store A} (m : M Store A) : Prop :=
  forall (w : World Store) res w',
    m w = (res, w') ->
    outbox w' = outbox w /\ conversation_state w' = conversation_state w.

(** [m] returns, sends no message and leaves the dialogs of everybody
    but [sender_id] as they are. *)
Definition settles {Store A} (sender_id : string) (m : M Store A) : Prop :=
  forall w : World Store,
    exists a w',
      m w = (Ok a, w')
      /\ outbox w' = outbox w
      /\ forall other, other <> sender_id ->
           conversation_state w' !! other = conversation_state w !! other.

(** [m] returns after sending exactly one message, to [sender_id], and
    leaves the dialogs of everybody else as they are. *)
Definition answers_once {Store A} (sender_id : string) (m : M Store A) : Prop :=
  forall w : World Store,
    exists a w' message,
      m w = (Ok a, w')
      /\ outbox w' = (outbox w ++ [(sender_id, message)])%list
      /\ forall other, other <> sender_id ->
           conversation_state w' !! other = conversation_state w !! other.

(** [m] either answers once, or raises without having sent anything. *)
Definition attempts {Store A} (sender_id : string) (m : M Store A) : Prop :=
  forall w : World Store,
    (exists a w' message,
       m w = (Ok a, w')
       /\ outbox w' = (outbox w ++ [(sender_id, message)])%list
       /\ forall other, other <> sender_id ->
            conversation_state w' !! other = conversation_state w !! other)
    \/ (exists e w',
          m w = (Raise e, w')
          /\ outbox w' = outbox w
          /\ conversation_state w' = conversation_state w).

(** [m] leaves every dialog as it is, or sets the dialog of [sender_id]
    to a state that satisfies [P]. *)
Definition sets_only {Store A} (sender_id : string) (P : ConvState -> Prop)
  (m : M Store A) : Prop :=
  forall (w : World Store) res w',
    m w = (res, w') ->
    conversation_state w' = conversation_state w
    \/ exists state,
         P state
         /\ conversation_state w' = <[sender_id := state]> (conversation_state w).

(** A dialog state without a plan that awaits verification. *)
Definition no_pending_plan (state : ConvState) : Prop :=
  awaiting_verification state = false /\ pending_action state = None.

End DialogAux.
Export DialogAux.

(* ===================================================================== *)
(** * Further concrete data                                               *)
(* ===================================================================== *)

Module Scenarios.
Import Examples.

(** The calendar of the examples when the listing request fails. *)
Definition unlistable_remote : GoogleService (list GEvent) :=
  {| events_list := fun _ _ _ _ _ =>
       Raise (OtherError "HttpError 500: internal error");
     events_insert := events_insert remote |}.

(** A proposal of the language model that only lists events. *)
Definition listing_only : Planner.PlanResult :=
  Planner.mk_PlanResult
    [Planner.mk_ActionData "calendar" "list_events"
       (<["time_min" := VStr "2025-05-23T00:00:00+01:00"]>
          (<["time_max" := VStr "2025-05-24T00:00:00+01:00"]> ∅))]
    "List the events of Friday." false.

(** A world where the creation of "Sync" from 14:00 to 15:00 has been
    planned and nothing else has happened. *)
Definition planned_world : World (list GEvent) :=
  mk_World (<[0%nat := sync_action]> ∅) stored_events [] ∅ [].

(** The bounds of 23 May 2025 in Casablanca. *)
Definition may_23 : datetime -> PyResult (string * string) :=
  fun _ => Ok ("2025-05-23T00:00:00+01:00", "2025-05-23T23:59:59.999999+01:00").

(** A language model that always writes the same text. *)
Definition terse : ActionPlan -> list Result -> M (list GEvent) string :=
  fun _ _ => mret "Done.".

(** [str.lower] on ASCII text. *)
Definition lower_char (c : ascii) : ascii :=
  if ((65 <=? nat_of_ascii c) && (nat_of_ascii c <=? 90))%nat
  then ascii_of_nat (nat_of_ascii c + 32)
  else c.

Fixpoint ascii_lower (s : string) : string :=
  match s with
  | EmptyString => EmptyString
  | String c rest => String (lower_char c) (ascii_lower rest)
  end.

(** The requester has been shown the plan to create "Sync" and is asked
    to confirm it. *)
Definition sync_plan : ActionPlan :=
  mk_ActionPlan [0%nat] "Create the event Sync." true.

Definition verifying_session : Webhook.Session (list GEvent) :=
  Webhook.mk_Session
    (mk_World (<[0%nat := sync_action]> ∅) stored_events []
       (<[requester := mk_ConvState true (Some sync_plan) false None None None]> ∅)
       [])
    [].


(** A creation that lacks its end time. *)
Definition endless_creation : Action :=
  mk_Action "calendar" "create_event"
    (<["summary" := VStr "Sync"]>
       (<["start_time" := VStr "2025-05-23T14:00:00+01:00"]> ∅)).

End Scenarios.

(* ===================================================================== *)
(** * Properties of the time normalizer                                   *)
(* ===================================================================== *)

Module NormalizerFacts.
Import Normalizer.

Lemma last_char_app (t : string) (c : ascii) :
  last_char (t ++ String c EmptyString) = Some c.
Proof.
  induction t as [|d t IH]; simpl; [reflexivity|].
  rewrite IH. destruct t; reflexivity.
Qed.

Lemma endswith_app_Z (t : string) : endswith_char (t ++ "Z") "Z" = true.
Proof. unfold endswith_char. rewrite last_char_app. reflexivity. Qed.

Lemma has_tz_marker_app_Z (t : string) : has_tz_marker (t ++ "Z") = true.
Proof. unfold has_tz_marker. rewrite endswith_app_Z. reflexivity. Qed.

(** A second pass over a formatted time changes nothing. *)
Lemma format_time_idempotent (t : string) :
  format_time (format_time t) = format_time t.
Proof.
  destruct (has_tz_marker t) eqn:Htz.
  - assert (format_time t = t) as ->
      by (unfold format_time; rewrite Htz; reflexivity).
    unfold format_time. rewrite Htz. reflexivity.
  - destruct (contains_char "T" t) eqn:HT.
    + destruct (negb (endswith_char t "Z")) eqn:HZ.
      * assert (format_time t = t ++ "Z") as ->
          by (unfold format_time; rewrite Htz, HT, HZ; reflexivity).
        unfold format_time. rewrite has_tz_marker_app_Z. reflexivity.
      * assert (format_time t = t) as ->
          by (unfold format_time; rewrite Htz, HT, HZ; reflexivity).
        unfold format_time. rewrite Htz, HT, HZ. reflexivity.
    + assert (format_time t = t) as ->
        by (unfold format_time; rewrite Htz, HT; reflexivity).
      unfold format_time. rewrite Htz, HT. reflexivity.
Qed.

Lemma format_time_nonempty (t : string) :
  falsy (Some t) = false -> falsy (Some (format_time t)) = false.
Proof.
  destruct t as [|c t]; [discriminate|]. intros _.
  unfold format_time.
  destruct (has_tz_marker _); [reflexivity|].
  destruct (contains_char _ _); [|reflexivity].
  destruct (negb _); reflexivity.
Qed.

Lemma ensure_iso_format_ok (start_time end_time : option string) (s e : string) :
  _ensure_iso_format start_time end_time = Ok (s, e) ->
  exists s0 e0, start_time = Some s0 /\ end_time = Some e0
    /\ falsy (Some s0) = false /\ falsy (Some e0) = false
    /\ s = format_time s0 /\ e = format_time e0.
Proof.
  unfold _ensure_iso_format.
  destruct (falsy start_time) eqn:Hs; [discriminate|].
  destruct (falsy end_time) eqn:He; [discriminate|]. simpl.
  destruct start_time as [s0|]; [|discriminate].
  destruct end_time as [e0|]; [|discriminate].
  intros [= <- <-]. exists s0, e0. repeat split; assumption.
Qed.

(** C3.  Normalizing is idempotent: whenever [_ensure_iso_format] succeeds
    on a pair of time strings, applying it again to the pair it returned
    succeeds and returns that same pair. *)
Theorem ensure_iso_format_idempotent
  (start_time end_time : option string) (s e : string) :
  _ensure_iso_format start_time end_time = Ok (s, e) ->
  _ensure_iso_format (Some s) (Some e) = Ok (s, e).
Proof.
  intros H. apply ensure_iso_format_ok in H.
  destruct H as (s0 & e0 & _ & _ & Hs & He & -> & ->).
  unfold _ensure_iso_format.
  rewrite (format_time_nonempty _ Hs), (format_time_nonempty _ He). simpl.
  rewrite !format_time_idempotent. reflexivity.
Qed.

Lemma ensure_iso_format_idempotent_witness :
  _ensure_iso_format (Some "2025-05-23T14:00:00") (Some "2025-05-23T15:00:00+01:00")
  = Ok ("2025-05-23T14:00:00Z", "2025-05-23T15:00:00+01:00")
  /\ _ensure_iso_format (Some "2025-05-23T14:00:00Z") (Some "2025-05-23T15:00:00+01:00")
     = Ok ("2025-05-23T14:00:00Z", "2025-05-23T15:00:00+01:00").
Proof.
  split; [reflexivity|].
  apply (ensure_iso_format_idempotent
           (Some "2025-05-23T14:00:00") (Some "2025-05-23T15:00:00+01:00")).
  reflexivity.
Defined.

(** C4, as the code has it.  [_ensure_iso_format] raises exactly when one
    of its two arguments is missing or empty, and what it raises is a
    [ValueError]; every other pair of strings, whether or not the strings
    can be parsed as times, is returned formatted. *)
Theorem ensure_iso_format_raises_iff_missing (start_time end_time : option string) :
  (raises (_ensure_iso_format start_time end_time) = true
   <-> falsy start_time = true \/ falsy end_time = true)
  /\ (raises (_ensure_iso_format start_time end_time) = true ->
      exists msg, _ensure_iso_format start_time end_time = Raise (ValueError msg))
  /\ (forall s e, start_time = Some s -> end_time = Some e ->
      falsy start_time = false -> falsy end_time = false ->
      _ensure_iso_format start_time end_time = Ok (format_time s, format_time e)).
Proof.
  unfold _ensure_iso_format.
  destruct (falsy start_time) eqn:Hs; simpl.
  - repeat split; eauto; discriminate.
  - destruct (falsy end_time) eqn:He; simpl.
    + repeat split; eauto; discriminate.
    + destruct start_time as [s0|]; [|discriminate].
      destruct end_time as [e0|]; [|discriminate]. simpl.
      repeat split; try discriminate.
      * intros [|]; discriminate.
      * intros s e [= ->] [= ->] _ _. reflexivity.
Qed.

Lemma ensure_iso_format_raises_iff_missing_witness :
  raises (_ensure_iso_format (Some "") (Some "2025-05-23T15:00:00Z")) = true.
Proof.
  apply (proj1 (ensure_iso_format_raises_iff_missing
                  (Some "") (Some "2025-05-23T15:00:00Z"))).
  left. reflexivity.
Defined.

(** C4, as the claim states it, fails: a start time that no parser of the
    program accepts is neither rejected nor replaced, it is returned as it
    came. *)
Lemma ensure_iso_format_accepts_unparseable :
  raises (parse_iso "next tuesday at noon") = true
  /\ raises (_ensure_iso_format (Some "next tuesday at noon")
                                (Some "2025-05-23T15:00:00Z")) = false
  /\ _ensure_iso_format (Some "next tuesday at noon") (Some "2025-05-23T15:00:00Z")
     = Ok ("next tuesday at noon", "2025-05-23T15:00:00Z").
Proof. repeat split; vm_compute; reflexivity. Qed.

End NormalizerFacts.

(* ===================================================================== *)
(** * Properties of the free-slot finder                                  *)
(* ===================================================================== *)

Module FinderFacts.

(** ** Datetime arithmetic and comparison *)

Lemma add_ok (d d' : datetime) (td : timedelta) :
  add d td = Ok d' -> wall d' = wall d + td /\ tzinfo d' = tzinfo d.
Proof.
  unfold add. destruct (in_range _); [|discriminate].
  intros [= <-]. split; reflexivity.
Qed.

Lemma instant_add (d d' : datetime) (td : timedelta) :
  add d td = Ok d' -> instant d' = instant d + td.
Proof.
  intros H. apply add_ok in H as [Hw Htz].
  unfold instant. rewrite Hw, Htz. destruct (tzinfo d); lia.
Qed.

Lemma same_awareness_add (d d' : datetime) (td : timedelta) :
  add d td = Ok d' -> same_awareness d d' = true.
Proof.
  intros H. apply add_ok in H as [_ Htz].
  unfold same_awareness. rewrite Htz. destruct (tzinfo d); reflexivity.
Qed.

Lemma same_awareness_trans (a b c : datetime) :
  same_awareness a b = true -> same_awareness b c = true ->
  same_awareness a c = true.
Proof.
  unfold same_awareness.
  destruct (tzinfo a), (tzinfo b), (tzinfo c); auto; discriminate.
Qed.

Lemma lt_true (a b : datetime) :
  lt a b = Ok true <-> same_awareness a b = true /\ instant a < instant b.
Proof.
  unfold lt. destruct (same_awareness a b).
  - split.
    + intros [= H]. split; [reflexivity|]. lia.
    + intros [_ H]. f_equal. lia.
  - split; [discriminate|]. intros [H _]. discriminate.
Qed.

Lemma lt_false (a b : datetime) :
  lt a b = Ok false -> instant b <= instant a.
Proof.
  unfold lt. destruct (same_awareness a b); [|discriminate].
  intros [= H]. lia.
Qed.

Lemma le_true (a b : datetime) : le a b = Ok true -> instant a <= instant b.
Proof.
  unfold le. destruct (same_awareness a b); [|discriminate].
  intros [= H]. lia.
Qed.

Lemma le_false (a b : datetime) : le a b = Ok false -> instant a > instant b.
Proof.
  unfold le. destruct (same_awareness a b); [|discriminate].
  intros [= H]. lia.
Qed.

Lemma lt_trans (a b c : datetime) :
  lt a b = Ok true -> lt b c = Ok true -> lt a c = Ok true.
Proof.
  rewrite !lt_true. intros [Hab Hlt1] [Hbc Hlt2]. split.
  - eapply same_awareness_trans; eassumption.
  - lia.
Qed.

Lemma lt_add (d d' : datetime) (td : timedelta) :
  add d td = Ok d' -> 0 < td -> lt d d' = Ok true.
Proof.
  intros H Htd. apply lt_true. split.
  - eapply same_awareness_add; eassumption.
  - rewrite (instant_add _ _ _ H). lia.
Qed.

Lemma instant_replace_hour (d : datetime) (h1 h2 : Z) :
  h1 < h2 -> instant (replace_hour d h1) < instant (replace_hour d h2).
Proof.
  intros H. unfold instant, replace_hour; simpl.
  assert (0 < HOUR) by (vm_compute; reflexivity).
  destruct (tzinfo d); nia.
Qed.

(** ** The overlap test of the code is the overlap rule of the
    specification *)

Lemma overlaps_true (current_time slot_end : datetime) (b : period) :
  overlaps current_time slot_end b = Ok true ->
  conflicts_with b (current_time, slot_end) /\ lt current_time (snd b) = Ok true.
Proof.
  destruct b as [busy_start busy_end]. unfold overlaps. simpl.
  destruct (lt current_time busy_end) as [[|]|] eqn:H1; simpl; try discriminate.
  unfold gt. intros H2. split; [|reflexivity].
  apply lt_true in H1 as [_ H1]. apply lt_true in H2 as [_ H2].
  unfold conflicts_with; simpl. lia.
Qed.

Lemma overlaps_false (current_time slot_end : datetime) (b : period) :
  overlaps current_time slot_end b = Ok false ->
  ~ conflicts_with b (current_time, slot_end).
Proof.
  destruct b as [busy_start busy_end]. unfold overlaps, conflicts_with. simpl.
  destruct (lt current_time busy_end) as [[|]|] eqn:H1; simpl; try discriminate.
  - unfold gt. intros H2%lt_false. lia.
  - intros _. apply lt_false in H1. lia.
Qed.

Lemma first_conflict_none (current_time slot_end : datetime) (busy : list period) :
  first_conflict current_time slot_end busy = Ok None ->
  forall b, In b busy -> ~ conflicts_with b (current_time, slot_end).
Proof.
  induction busy as [|b0 busy IH]; simpl; [intros _ b []|].
  destruct (overlaps current_time slot_end b0) as [[|]|] eqn:Ho; simpl;
    try discriminate.
  intros H b [<-|Hin].
  - apply overlaps_false; assumption.
  - apply IH; assumption.
Qed.

Lemma first_conflict_some (current_time slot_end busy_end : datetime)
  (busy : list period) :
  first_conflict current_time slot_end busy = Ok (Some busy_end) ->
  exists b, In b busy /\ snd b = busy_end
    /\ conflicts_with b (current_time, slot_end)
    /\ lt current_time busy_end = Ok true.
Proof.
  induction busy as [|b0 busy IH]; simpl; [discriminate|].
  destruct (overlaps current_time slot_end b0) as [[|]|] eqn:Ho; simpl;
    try discriminate.
  - intros [= <-]. apply overlaps_true in Ho as [Hc Hlt].
    exists b0. split; [left; reflexivity|]. split; [reflexivity|].
    split; assumption.
  - intros H. destruct (IH H) as (b & Hin & Hb & Hc & Hlt).
    exists b. split; [right; assumption|]. split; [assumption|].
    split; assumption.
Qed.

(** ** One iteration of the loop *)

Lemma search_loop_iteration (fuel : nat) (business_end_time : datetime)
  (duration : timedelta) (busy : list period) (current_time : datetime)
  (available_slots out : list period) :
  search_loop (S fuel) business_end_time duration busy current_time available_slots
    = Some (Ok out) ->
  iteration fuel business_end_time duration busy current_time available_slots out.
Proof.
  cbn [search_loop]. unfold mbind, PyResult_bind, Py.bind.
  destruct (add current_time duration) as [slot_end|] eqn:Hadd; [|discriminate].
  destruct (le slot_end business_end_time) as [[|]|] eqn:Hle; try discriminate.
  - destruct (first_conflict current_time slot_end busy) as [[busy_end|]|] eqn:Hfc;
      try discriminate.
    + intros H. eapply iter_jump; eassumption.
    + destruct (add current_time (30 * MINUTE)) as [next_time|] eqn:Hnext;
        [|discriminate].
      match goal with
      | |- context [(5 <=? ?n)%nat] => destruct (5 <=? n)%nat eqn:Hlen
      end.
      * intros [= <-]. apply Nat.leb_le in Hlen.
        eapply iter_last; eauto.
      * intros H. apply Nat.leb_gt in Hlen.
        eapply iter_record; eauto.
  - intros [= <-]. eapply iter_leave; eauto.
Qed.

(** ** The loop follows the walk of the specification *)

Lemma search_loop_walk (fuel : nat) (business_end_time : datetime)
  (duration : timedelta) (busy : list period) :
  forall (current_time : datetime) (available_slots out : list period),
  search_loop fuel business_end_time duration busy current_time available_slots
    = Some (Ok out) ->
  walk busy duration (30 * MINUTE) business_end_time 5
    current_time available_slots out.
Proof.
  induction fuel as [|fuel IH]; intros current_time available_slots out H;
    [discriminate|].
  apply search_loop_iteration in H.
  destruct H as [slot_end Hadd Hle ->
                |slot_end busy_end Hadd Hle Hfc Hrec
                |slot_end next_time Hadd Hle Hfc Hnext Hlen ->
                |slot_end next_time Hadd Hle Hfc Hnext Hlen Hrec].
  - apply walk_window_passed.
    apply le_false in Hle. rewrite (instant_add _ _ _ Hadd) in Hle. lia.
  - apply first_conflict_some in Hfc as (b & Hin & <- & Hc & _).
    eapply walk_busy; eauto using le_true.
  - eapply walk_free; eauto using le_true, first_conflict_none.
    apply walk_enough. assumption.
  - eapply walk_free; eauto using le_true, first_conflict_none.
Qed.

(** ** What holds along a walk *)

Lemma walk_no_overlap (busy : list period) (duration step : timedelta)
  (window_end : datetime) (enough : nat) (t : datetime)
  (collected out : list period) :
  walk busy duration step window_end enough t collected out ->
  (forall slot b, In slot collected -> In b busy -> ~ conflicts_with b slot) ->
  forall slot b, In slot out -> In b busy -> ~ conflicts_with b slot.
Proof.
  induction 1 as [t collected Hpass
                 |t collected Hlen
                 |t t_end t_next collected out Hadd Hfit Hfree Hnext Hwalk IH
                 |t t_end b0 collected out Hadd Hfit Hin Hc Hwalk IH];
    intros Hacc; try assumption.
  - apply IH. intros slot b Hslot Hb.
    apply in_app_or in Hslot as [Hslot|[<-|[]]].
    + apply Hacc; assumption.
    + apply Hfree; assumption.
  - apply IH. assumption.
Qed.

Lemma StronglySorted_snoc {A} (R : A -> A -> Prop) (l : list A) (x : A) :
  StronglySorted R l -> Forall (fun y => R y x) l ->
  StronglySorted R (l ++ [x]).
Proof.
  induction 1 as [|a l Hs IH Ha]; intros Hall; simpl.
  - repeat constructor.
  - inversion_clear Hall as [|? ? Hax Hlx]. constructor.
    + apply IH; assumption.
    + apply Forall_app. split; [assumption|]. constructor; [assumption|constructor].
Qed.

Lemma In_firstn {A} (n : nat) (l : list A) (x : A) :
  In x (firstn n l) -> In x l.
Proof.
  revert n. induction l as [|a l IH]; intros [|n]; simpl; try tauto.
  intros [->|H]; [left; reflexivity|right; eapply IH; eassumption].
Qed.

Lemma StronglySorted_firstn {A} (R : A -> A -> Prop) (n : nat) (l : list A) :
  StronglySorted R l -> StronglySorted R (firstn n l).
Proof.
  intros H. revert n. induction H as [|a l Hs IH Ha]; intros [|n]; simpl;
    try constructor.
  - apply IH.
  - rewrite List.Forall_forall in *. intros x Hx. apply Ha.
    eapply In_firstn; eassumption.
Qed.

Lemma walk_increasing (busy : list period) (duration step : timedelta)
  (window_end : datetime) (enough : nat) (t : datetime)
  (collected out : list period) :
  0 < step ->
  walk busy duration step window_end enough t collected out ->
  StronglySorted starts_before collected ->
  Forall (fun slot => instant (fst slot) < instant t) collected ->
  StronglySorted starts_before out.
Proof.
  intros Hstep.
  induction 1 as [t collected Hpass
                 |t collected Hlen
                 |t t_end t_next collected out Hadd Hfit Hfree Hnext Hwalk IH
                 |t t_end b0 collected out Hadd Hfit Hin Hc Hwalk IH];
    intros Hsorted Hbefore; try assumption.
  - pose proof (instant_add _ _ _ Hnext) as Ht.
    apply IH.
    + apply StronglySorted_snoc; assumption.
    + apply Forall_app. split.
      * eapply Forall_impl; [eassumption|]. simpl. intros slot Hs. lia.
      * constructor; [simpl; lia|constructor].
  - destruct Hc as [_ Hc]. simpl in Hc.
    apply IH; [assumption|].
    eapply Forall_impl; [eassumption|]. simpl. intros slot Hs. lia.
Qed.

Lemma starts_before_NoDup (l : list period) :
  StronglySorted starts_before l ->
  NoDup (map (fun slot => instant (fst slot)) l).
Proof.
  induction 1 as [|a l Hs IH Ha]; simpl; constructor; [|assumption].
  intros Hin. apply list_elem_of_In in Hin.
  apply in_map_iff in Hin as (b & Heq & Hb).
  rewrite List.Forall_forall in Ha. specialize (Ha b Hb).
  unfold starts_before in Ha. lia.
Qed.

(** ** Sorting keeps the busy periods *)

Lemma insert_by_start_In (p x : period) (l : list period) :
  In x (insert_by_start p l) <-> x = p \/ In x l.
Proof.
  induction l as [|q l IH]; simpl.
  - intuition.
  - destruct (instant (fst p) <? instant (fst q)); simpl; [intuition|].
    rewrite IH. intuition.
Qed.

Lemma sort_by_start_In (l sorted : list period) :
  sort_by_start l = Ok sorted -> forall x, In x sorted <-> In x l.
Proof.
  unfold sort_by_start. destruct (uniform_awareness l); [|discriminate].
  intros [= <-] x.
  assert (G : forall acc, In x (fold_left (fun s p => insert_by_start p s) l acc)
                          <-> In x l \/ In x acc).
  { induction l as [|p l IH]; intros acc; simpl; [intuition|].
    rewrite IH, insert_by_start_In. intuition. }
  rewrite G. simpl. intuition.
Qed.

(** ** The iteration bound is never reached *)

Lemma filter_length_le {A} (f g : A -> bool) (l : list A) :
  (forall x, f x = true -> g x = true) ->
  (length (List.filter f l) <= length (List.filter g l))%nat.
Proof.
  intros Hfg. induction l as [|a l IH]; simpl; [lia|].
  destruct (f a) eqn:Hf.
  - rewrite (Hfg _ Hf). simpl. lia.
  - destruct (g a); simpl; lia.
Qed.

Lemma filter_length_lt {A} (f g : A -> bool) (l : list A) (x : A) :
  (forall y, f y = true -> g y = true) ->
  In x l -> f x = false -> g x = true ->
  (length (List.filter f l) < length (List.filter g l))%nat.
Proof.
  intros Hfg. induction l as [|a l IH]; simpl; [intros []|].
  intros [->|Hin] Hf Hg.
  - rewrite Hf, Hg. simpl.
    pose proof (filter_length_le f g l Hfg). lia.
  - specialize (IH Hin Hf Hg).
    destruct (f a) eqn:Hfa.
    + rewrite (Hfg _ Hfa). simpl. lia.
    + destruct (g a); simpl; lia.
Qed.

Lemma ends_after_mono (a b : datetime) (p : period) :
  lt a b = Ok true -> ends_after b p = true -> ends_after a p = true.
Proof.
  unfold ends_after. intros Hab.
  destruct (lt b (snd p)) as [[|]|] eqn:Hb; try discriminate.
  intros _. rewrite (lt_trans _ _ _ Hab Hb). reflexivity.
Qed.

Lemma ends_after_self (p : period) : ends_after (snd p) p = false.
Proof.
  unfold ends_after, lt.
  destruct (same_awareness _ _); [|reflexivity].
  rewrite Z.ltb_irrefl. reflexivity.
Qed.

Lemma pending_le_length (t : datetime) (busy : list period) :
  (pending t busy <= length busy)%nat.
Proof.
  unfold pending. induction busy as [|b busy IH]; simpl; [lia|].
  destruct (ends_after t b); simpl; lia.
Qed.

Lemma search_loop_enough_fuel (business_end_time : datetime)
  (duration : timedelta) (busy : list period) :
  forall (fuel : nat) (current_time : datetime) (available_slots : list period),
  (length available_slots < 5)%nat ->
  (pending current_time busy + (5 - length available_slots) < fuel)%nat ->
  search_loop fuel business_end_time duration busy current_time available_slots
    <> None.
Proof.
  induction fuel as [|fuel IH]; intros current_time available_slots Hlen Hfuel;
    [lia|].
  cbn [search_loop]. unfold mbind, PyResult_bind, Py.bind.
  destruct (add current_time duration) as [slot_end|]; [|discriminate].
  destruct (le slot_end business_end_time) as [[|]|]; try discriminate.
  destruct (first_conflict current_time slot_end busy) as [[busy_end|]|] eqn:Hfc;
    try discriminate.
  - apply first_conflict_some in Hfc as (b & Hin & <- & _ & Hlt).
    apply IH; [assumption|].
    assert (pending (snd b) busy < pending current_time busy)%nat; [|lia].
    unfold pending. apply filter_length_lt with (x := b).
    + intros p. apply ends_after_mono. assumption.
    + assumption.
    + apply ends_after_self.
    + unfold ends_after. rewrite Hlt. reflexivity.
  - destruct (add current_time (30 * MINUTE)) as [next_time|] eqn:Hnext;
      [|discriminate].
    match goal with
    | |- context [(5 <=? ?n)%nat] => destruct (5 <=? n)%nat eqn:Hfive
    end; [discriminate|].
    apply Nat.leb_gt in Hfive. rewrite length_app in *. simpl in *.
    apply IH.
    + rewrite length_app. simpl. lia.
    + rewrite length_app. simpl.
      assert (pending next_time busy <= pending current_time busy)%nat; [|lia].
      unfold pending. apply filter_length_le.
      intros p. apply ends_after_mono.
      eapply lt_add; [eassumption|]. vm_compute. reflexivity.
Qed.

Lemma search_terminates (business_end_time : datetime) (duration : timedelta)
  (busy : list period) (current_time : datetime) :
  search_loop (search_fuel busy) business_end_time duration busy current_time []
    <> None.
Proof.
  apply search_loop_enough_fuel; simpl; [lia|].
  pose proof (pending_le_length current_time busy). unfold search_fuel. lia.
Qed.

(** ** The search as a whole *)

Lemma smart_search_ok (original_start original_end : string)
  (listing : PyResult ListEventsResult) (slots : list period) :
  smart_search original_start original_end listing = Ok slots ->
  exists start_dt end_dt duration result unsorted busy out,
    parse_iso original_start = Ok start_dt
    /\ parse_iso original_end = Ok end_dt
    /\ sub end_dt start_dt = Ok duration
    /\ listing = Ok result
    /\ busy_periods (default [] (events result)) = Ok unsorted
    /\ sort_by_start unsorted = Ok busy
    /\ search_loop (search_fuel busy) (replace_hour start_dt 18) duration busy
         (replace_hour start_dt 9) [] = Some (Ok out)
    /\ slots = firstn 3 out.
Proof.
  unfold smart_search, mbind, PyResult_bind, Py.bind.
  destruct (parse_iso original_start) as [start_dt|] eqn:Hs; [|discriminate].
  destruct (parse_iso original_end) as [end_dt|] eqn:He; [|discriminate].
  destruct (sub end_dt start_dt) as [duration|] eqn:Hd; [|discriminate].
  destruct listing as [result|]; [|discriminate].
  destruct (busy_periods _) as [unsorted|] eqn:Hbusy; [|discriminate].
  destruct (sort_by_start unsorted) as [busy|] eqn:Hsort; [|discriminate].
  destruct (search_loop _ _ _ _ _ _) as [[out|]|] eqn:Hloop; try discriminate.
  intros [= <-].
  exists start_dt, end_dt, duration, result, unsorted, busy, out.
  repeat split; first [reflexivity|assumption].
Qed.

Lemma listed_busy_periods_ok (result : ListEventsResult) (unsorted : list period) :
  busy_periods (default [] (events result)) = Ok unsorted ->
  listed_busy_periods (Ok result) = unsorted.
Proof.
  intros H. unfold listed_busy_periods, mbind, PyResult_bind, Py.bind.
  rewrite H. reflexivity.
Qed.

(** ** The fallback *)

Lemma fallback_loop_sorted (start_dt : datetime) (duration : timedelta)
  (hours : list Z) :
  forall suggestions,
  fallback_loop start_dt duration hours = Ok suggestions ->
  StronglySorted Z.lt hours ->
  StronglySorted starts_before suggestions
  /\ Forall (fun slot => exists h, In h hours /\ fst slot = replace_hour start_dt h)
       suggestions.
Proof.
  induction hours as [|hour hours IH]; simpl; intros suggestions.
  - intros [= <-] _. split; constructor.
  - unfold mbind, PyResult_bind, Py.bind.
    destruct (add (replace_hour start_dt hour) duration) as [candidate_end|];
      [|discriminate].
    destruct (fallback_loop start_dt duration hours) as [more|]; [|discriminate].
    intros [= <-] Hsorted. inversion_clear Hsorted as [|? ? Hrest Hhour].
    destruct (IH more eq_refl Hrest) as [Hs Hall].
    assert (Hall' : Forall
              (fun slot => exists h, In h (hour :: hours)
                                     /\ fst slot = replace_hour start_dt h) more).
    { eapply Forall_impl; [eassumption|]. simpl.
      intros slot (h & Hin & Heq). exists h. auto. }
    destruct (neq _ _); [|split; assumption].
    split.
    + constructor; [assumption|].
      eapply Forall_impl; [exact Hall|]. simpl.
      intros slot (h & Hin & Heq). unfold starts_before. simpl. rewrite Heq.
      apply instant_replace_hour.
      rewrite List.Forall_forall in Hhour. apply Hhour. assumption.
    + constructor; [|assumption]. exists hour. simpl. auto.
Qed.

Lemma fallback_slots_sorted (original_start original_end : string) :
  StronglySorted starts_before (fallback_slots original_start original_end).
Proof.
  unfold fallback_slots, mbind, PyResult_bind, Py.bind.
  destruct (parse_iso original_start) as [start_dt|]; [|constructor].
  destruct (parse_iso original_end) as [end_dt|]; [|constructor].
  destruct (sub end_dt start_dt) as [duration|]; [|constructor].
  destruct (fallback_loop start_dt duration [9; 12; 16]) as [suggestions|] eqn:H;
    [|constructor].
  apply (fallback_loop_sorted _ _ _ _ H).
  repeat (constructor; [|repeat constructor; lia]). constructor.
Qed.

Lemma search_slots_sorted (original_start original_end : string)
  (listing : PyResult ListEventsResult) (slots : list period) :
  smart_search original_start original_end listing = Ok slots ->
  StronglySorted starts_before slots.
Proof.
  intros H. apply smart_search_ok in H.
  destruct H as (start_dt & end_dt & duration & result & unsorted & busy & out
                 & _ & _ & _ & _ & _ & _ & Hloop & ->).
  apply StronglySorted_firstn.
  apply search_loop_walk in Hloop.
  eapply walk_increasing; [|exact Hloop| |]; try constructor.
Qed.

(** ** The claims about the finder *)

Import Examples.

(** C1, as the code has it.  Whenever the search of
    [get_smart_alternative_times] runs to its end without raising, what the
    function returns are the slots of the search, and none of them
    overlaps any busy period built from the listed events: no busy period
    [b] has [b.start < e] and [b.end > s] for a returned slot [[s, e)].
    (When the search raises, the function returns the fallback slots, for
    which nothing of the kind holds.) *)
Theorem search_slots_avoid_busy (original_start original_end : string)
  (conflicts : list Event) (listing : PyResult ListEventsResult)
  (slots : list period) :
  smart_search original_start original_end listing = Ok slots ->
  smart_alternative_slots original_start original_end conflicts listing = slots
  /\ forall slot b, In slot slots -> In b (listed_busy_periods listing) ->
       ~ conflicts_with b slot.
Proof.
  intros H. split.
  - unfold smart_alternative_slots. rewrite H. reflexivity.
  - apply smart_search_ok in H.
    destruct H as (start_dt & end_dt & duration & result & unsorted & busy & out
                   & _ & _ & _ & -> & Hbusy & Hsort & Hloop & ->).
    rewrite (listed_busy_periods_ok _ _ Hbusy).
    intros slot b Hslot Hb.
    apply In_firstn in Hslot.
    apply search_loop_walk in Hloop.
    eapply walk_no_overlap; [exact Hloop| |exact Hslot|].
    + intros ? ? [].
    + apply (sort_by_start_In _ _ Hsort). assumption.
Qed.

Lemma search_slots_avoid_busy_witness :
  length (smart_alternative_slots "2025-05-23T10:00:00+01:00"
            "2025-05-23T10:30:00+01:00" [] standup_day) = 3%nat
  /\ forall slot b,
       In slot (smart_alternative_slots "2025-05-23T10:00:00+01:00"
                  "2025-05-23T10:30:00+01:00" [] standup_day) ->
       In b (listed_busy_periods standup_day) ->
       ~ conflicts_with b slot.
Proof.
  split; [reflexivity|].
  pose proof (search_slots_avoid_busy "2025-05-23T10:00:00+01:00"
                "2025-05-23T10:30:00+01:00" [] standup_day _ eq_refl) as [-> H].
  exact H.
Defined.

(** C1, as the claim states it, fails.  The day holds one event, from
    08:00 until 23:30 on 9999-12-31.  The 09:00 candidate overlaps it, the
    cursor jumps to its end, and adding the duration to that cursor leaves
    the range of [datetime]: the search raises, and the function returns
    the fallback slots 09:00, 12:00 and 16:00, each inside the event. *)
Lemma fallback_slot_overlaps_busy :
  exists slot b,
    In slot (smart_alternative_slots "2025-05-23T09:30:00+01:00"
               "2025-05-23T10:30:00+01:00" [] open_ended_day)
    /\ In b (listed_busy_periods open_ended_day)
    /\ conflicts_with b slot.
Proof.
  eexists. eexists. split; [|split].
  - vm_compute. left. reflexivity.
  - vm_compute. left. reflexivity.
  - vm_compute. split; reflexivity.
Qed.

(** The same happens with the connector of the repository whenever the
    day has an event: [_list_events_sync] hands out ['start'] and ['end']
    as strings, the finder calls [.get('dateTime')] on them, and the
    search raises before it has looked at a single candidate. *)
Lemma busy_periods_of_connector_events (first : FlatEvent)
  (others : list FlatEvent) :
  exists e, busy_periods (map Integration.flat_view (first :: others)) = Raise e.
Proof.
  cbn [map busy_periods]. unfold busy_period_of, Integration.flat_view.
  cbn [ev_start ev_end]. unfold mbind, PyResult_bind, Py.bind.
  destruct (f_start first); eexists; reflexivity.
Qed.

Lemma connector_events_divert_to_fallback (original_start original_end : string)
  (conflicts : list Event) (count : nat) (first : FlatEvent)
  (others : list FlatEvent) :
  smart_alternative_slots original_start original_end conflicts
    (Ok (Integration.listing_view (ListSuccess count (first :: others))))
  = fallback_slots original_start original_end.
Proof.
  destruct (busy_periods_of_connector_events first others) as [e He].
  unfold smart_alternative_slots, smart_search, mbind, PyResult_bind, Py.bind.
  destruct (parse_iso original_start) as [start_dt|]; [|reflexivity].
  destruct (parse_iso original_end) as [end_dt|]; [|reflexivity].
  destruct (sub end_dt start_dt) as [duration|]; [|reflexivity].
  unfold Integration.listing_view. cbn [events default from_option id].
  rewrite He. reflexivity.
Qed.

Lemma connector_fallback_overlaps_listed_event :
  get_smart_alternative_times "2025-05-23T09:30:00+01:00"
    "2025-05-23T10:30:00+01:00" [Integration.flat_view review]
    (Ok (Integration.listing_view (ListSuccess 1 [review])))
  = [("2025-05-23T09:00:00+01:00", "2025-05-23T10:00:00+01:00");
     ("2025-05-23T12:00:00+01:00", "2025-05-23T13:00:00+01:00");
     ("2025-05-23T16:00:00+01:00", "2025-05-23T17:00:00+01:00")]
  /\ exists slot busy_start busy_end,
       In slot (smart_alternative_slots "2025-05-23T09:30:00+01:00"
                  "2025-05-23T10:30:00+01:00" [Integration.flat_view review]
                  (Ok (Integration.listing_view (ListSuccess 1 [review]))))
       /\ (parse_iso <$> f_start review) = Some (Ok busy_start)
       /\ (parse_iso <$> f_end review) = Some (Ok busy_end)
       /\ conflicts_with (busy_start, busy_end) slot.
Proof.
  split; [vm_compute; reflexivity|].
  eexists. eexists. eexists. split; [|split; [|split]].
  - vm_compute. left. reflexivity.
  - vm_compute. reflexivity.
  - vm_compute. reflexivity.
  - vm_compute. split; reflexivity.
Qed.

(** C9.  The slots [get_smart_alternative_times] returns, whether they
    come from the search or from the fallback, are strictly increasing by
    start time; hence no two of them start at the same instant.  (The
    strings the function returns are the ISO renderings of these slots, in
    the same order.) *)
Theorem alternatives_strictly_increasing (original_start original_end : string)
  (conflicts : list Event) (listing : PyResult ListEventsResult) :
  get_smart_alternative_times original_start original_end conflicts listing
  = map isoformat_pair
      (smart_alternative_slots original_start original_end conflicts listing)
  /\ StronglySorted starts_before
       (smart_alternative_slots original_start original_end conflicts listing)
  /\ NoDup (map (fun slot => instant (fst slot))
              (smart_alternative_slots original_start original_end conflicts listing)).
Proof.
  assert (H : StronglySorted starts_before
                (smart_alternative_slots original_start original_end conflicts listing)).
  { unfold smart_alternative_slots.
    destruct (smart_search original_start original_end listing) as [slots|] eqn:Hs.
    - eapply search_slots_sorted; eassumption.
    - apply fallback_slots_sorted. }
  split; [reflexivity|].
  split; [assumption|]. apply starts_before_NoDup. assumption.
Qed.

(** C2.  A successful search is a walk as the specification describes it:
    the cursor starts at 09:00 of the requested day, a free candidate
    [[t, t + duration)] is recorded and the cursor advances by 30 minutes,
    a candidate that overlaps a busy period [b] moves the cursor to
    [b.end], and the walk stops when [t + duration] would pass 18:00 or
    when enough slots (five) are collected; the loop always comes to an
    end; the first three slots are returned, in chronological order.  For
    a day whose only busy period is 10:00-11:00 and a duration of 30
    minutes the result is exactly 09:00-09:30, 09:30-10:00, 11:00-11:30. *)
Theorem free_slot_search_is_walk :
  (forall (original_start original_end : string)
          (listing : PyResult ListEventsResult) (slots : list period),
     smart_search original_start original_end listing = Ok slots ->
     exists start_dt end_dt duration busy out,
       parse_iso original_start = Ok start_dt
       /\ parse_iso original_end = Ok end_dt
       /\ sub end_dt start_dt = Ok duration
       /\ (forall b, In b busy <-> In b (listed_busy_periods listing))
       /\ walk busy duration (30 * MINUTE) (replace_hour start_dt 18) 5
            (replace_hour start_dt 9) [] out
       /\ slots = firstn 3 out
       /\ (length slots <= 3)%nat
       /\ StronglySorted starts_before slots)
  /\ (forall business_end_time duration busy current_time,
       search_loop (search_fuel busy) business_end_time duration busy
         current_time [] <> None)
  /\ get_smart_alternative_times "2025-05-23T10:00:00+01:00"
       "2025-05-23T10:30:00+01:00" [] standup_day
     = [("2025-05-23T09:00:00+01:00", "2025-05-23T09:30:00+01:00");
        ("2025-05-23T09:30:00+01:00", "2025-05-23T10:00:00+01:00");
        ("2025-05-23T11:00:00+01:00", "2025-05-23T11:30:00+01:00")].
Proof.
  split; [|split].
  - intros original_start original_end listing slots H.
    pose proof (search_slots_sorted _ _ _ _ H) as Hsorted.
    apply smart_search_ok in H.
    destruct H as (start_dt & end_dt & duration & result & unsorted & busy & out
                   & Hs & He & Hd & -> & Hbusy & Hsort & Hloop & ->).
    exists start_dt, end_dt, duration, busy, out.
    rewrite (listed_busy_periods_ok _ _ Hbusy).
    repeat split; try assumption.
    + apply (sort_by_start_In _ _ Hsort).
    + apply (sort_by_start_In _ _ Hsort).
    + eapply search_loop_walk; eassumption.
    + apply firstn_le_length.
  - intros. apply search_terminates.
  - vm_compute. reflexivity.
Qed.

Lemma free_slot_search_is_walk_witness :
  exists start_dt end_dt duration busy out,
    parse_iso "2025-05-23T10:00:00+01:00" = Ok start_dt
    /\ parse_iso "2025-05-23T10:30:00+01:00" = Ok end_dt
    /\ sub end_dt start_dt = Ok duration
    /\ (forall b, In b busy <-> In b (listed_busy_periods standup_day))
    /\ walk busy duration (30 * MINUTE) (replace_hour start_dt 18) 5
         (replace_hour start_dt 9) [] out
    /\ firstn 3 out = firstn 3 out
    /\ (length (firstn 3 out) <= 3)%nat
    /\ StronglySorted starts_before (firstn 3 out).
Proof.
  destruct (proj1 free_slot_search_is_walk "2025-05-23T10:00:00+01:00"
              "2025-05-23T10:30:00+01:00" standup_day _ eq_refl)
    as (start_dt & end_dt & duration & busy & out & Hs & He & Hd & Hb & Hw & Heq & Hl & Hsorted).
  exists start_dt, end_dt, duration, busy, out.
  rewrite Heq in Hl, Hsorted.
  repeat split; try assumption; apply Hb.
Defined.

End FinderFacts.

(* ===================================================================== *)
(** * Reasoning about computations over the world                         *)
(* ===================================================================== *)

Module MonadFacts.

Section MonadFacts.

Context {Store : Type}.

Lemma bindM_inv {A B} (m : M Store A) (k : A -> M Store B)
  (w w' : World Store) (res : PyResult B) :
  (x ← m; k x) w = (res, w') ->
  (exists a w1, m w = (Ok a, w1) /\ k a w1 = (res, w'))
  \/ (exists e, m w = (Raise e, w') /\ res = Raise e).
Proof.
  unfold mbind, M_bind, bindM.
  destruct (m w) as [[a|e] w1] eqn:Hm.
  - intros H. left. exists a, w1. split; [reflexivity|assumption].
  - intros [= <- <-]. right. exists e. split; reflexivity.
Qed.

Lemma bindM_ok {A B} (m : M Store A) (k : A -> M Store B)
  (w w' : World Store) (b : B) :
  (x ← m; k x) w = (Ok b, w') ->
  exists a w1, m w = (Ok a, w1) /\ k a w1 = (Ok b, w').
Proof.
  intros H. apply bindM_inv in H as [H|(e & _ & [=])]. assumption.
Qed.

Lemma bindM_step {A B} (m : M Store A) (k : A -> M Store B)
  (w w1 : World Store) (a : A) :
  m w = (Ok a, w1) -> (x ← m; k x) w = k a w1.
Proof. intros H. unfold mbind, M_bind, bindM. rewrite H. reflexivity. Qed.

Lemma mret_inv {A} (a b : A) (w w' : World Store) :
  (mret a : M Store A) w = (Ok b, w') -> a = b /\ w = w'.
Proof. intros [= -> ->]. split; reflexivity. Qed.

Lemma set_param_ok (r : ref) (key : string) (v : Value) (w : World Store)
  (a : Action) :
  heap w !! r = Some a ->
  set_param r key v w
  = (Ok tt, with_heap w (<[r := mk_Action (Model.service a) (method a)
                                   (<[key := v]> (params a))]> (heap w))).
Proof. intros H. unfold set_param. rewrite H. reflexivity. Qed.

Lemma read_ok (r : ref) (w w' : World Store) (a : Action) :
  read r w = (Ok a, w') -> heap w !! r = Some a /\ w' = w.
Proof.
  unfold read. destruct (heap w !! r); intros [= <- <-]. split; reflexivity.
Qed.

End MonadFacts.

End MonadFacts.
Export MonadFacts.

(* ===================================================================== *)
(** * Properties of the connector                                         *)
(* ===================================================================== *)

Module CalendarFacts.
Import Normalizer Calendar Examples.

Section CalendarFacts.

Context {Store : Type}.
Variable service : GoogleService Store.
Variable default_calendar_id : string.

Lemma calendar_or_default_again (calendar_id : option string) :
  calendar_or_default default_calendar_id
    (Some (calendar_or_default default_calendar_id calendar_id))
  = calendar_or_default default_calendar_id calendar_id.
Proof.
  unfold calendar_or_default.
  destruct calendar_id as [[|c s]|]; simpl;
    destruct default_calendar_id; reflexivity.
Qed.

(** A conflict check sends one listing request at most, and nothing
    else: it leaves the calendar, the objects, the dialogs and the
    outbox as they are. *)
Lemma check_conflicts_frame (start_time end_time : Value)
  (calendar_id : option string) (w w' : World Store) (res : PyResult Result) :
  check_conflicts service default_calendar_id start_time end_time calendar_id w
    = (res, w') ->
  heap w' = heap w /\ store w' = store w
  /\ conversation_state w' = conversation_state w /\ outbox w' = outbox w
  /\ exists sent, requests w' = (requests w ++ sent)%list
                  /\ forallb (fun r => negb (is_insert r)) sent = true.
Proof.
  unfold check_conflicts, mbind, M_bind, bindM, lift.
  destruct (ensure_iso_format_values start_time end_time) as [[s e]|err].
  - unfold _check_conflicts_sync, try_except, mbind, M_bind, bindM, api_list.
    destruct (events_list _ _ _ _ _ _) as [evs|err]; intros [= <- <-]; simpl;
      repeat split; eexists; split; reflexivity.
  - intros [= <- <-]. repeat split. exists []. rewrite app_nil_r. split; reflexivity.
Qed.

(** What a successful check that reports conflicts looks like. *)
Lemma check_conflicts_reports (start_time end_time : Value)
  (calendar_id : option string) (w w' : World Store) (r : Result) :
  check_conflicts service default_calendar_id start_time end_time calendar_id w
    = (Ok r, w') ->
  status r = Some "success" -> has_conflicts r = true ->
  exists found, r = CheckSuccess true found (length found) /\ found <> [].
Proof.
  unfold check_conflicts, mbind, M_bind, bindM, lift.
  destruct (ensure_iso_format_values start_time end_time) as [[s e]|err];
    [|discriminate].
  unfold _check_conflicts_sync, try_except, mbind, M_bind, bindM, api_list.
  destruct (events_list _ _ _ _ _ _) as [evs|err]; intros [= <- <-]; simpl;
    [|discriminate].
  intros _ Hhas. exists (map conflict_entry evs).
  destruct evs; [discriminate|]. split; [reflexivity|discriminate].
Qed.

(** C10.  [create_event] is atomic on conflict: when conflicts are to be
    checked and the check succeeds and reports at least one conflicting
    event, [create_event] returns a result with status ["conflict"] that
    carries exactly that list of conflicts, and it stops there: no insert
    request is sent and the calendar is the one it was. *)
Theorem create_event_stops_on_conflict
  (summary start_time end_time description location : Value)
  (calendar_id : option string) (check_for_conflicts : Value)
  (w w' : World Store) (reported : Result) :
  truthy check_for_conflicts = true ->
  check_conflicts service default_calendar_id start_time end_time calendar_id w
    = (Ok reported, w') ->
  status reported = Some "success" ->
  has_conflicts reported = true ->
  exists message,
    create_event service default_calendar_id summary start_time end_time
      description location calendar_id check_for_conflicts w
    = (Ok (Conflict message (conflicts_of reported)), w')
    /\ status (Conflict message (conflicts_of reported)) = Some "conflict"
    /\ conflicts_of reported <> []
    /\ store w' = store w
    /\ List.filter is_insert (requests w') = List.filter is_insert (requests w).
Proof.
  intros Hcheck Hrun Hstatus Hhas.
  destruct (check_conflicts_reports _ _ _ _ _ _ Hrun Hstatus Hhas)
    as (found & -> & Hfound).
  destruct (check_conflicts_frame _ _ _ _ _ _ Hrun)
    as (_ & Hstore & _ & _ & sent & Hsent & Hnone).
  eexists. split; [|split; [|split; [|split]]].
  - unfold create_event. rewrite Hcheck.
    assert (Hsame :
      check_conflicts service default_calendar_id start_time end_time
        (Some (calendar_or_default default_calendar_id calendar_id)) w
      = (Ok (CheckSuccess true found (length found)), w')).
    { unfold check_conflicts in *. rewrite calendar_or_default_again. exact Hrun. }
    rewrite (bindM_step _ _ _ _ _ Hsame). simpl. reflexivity.
  - reflexivity.
  - exact Hfound.
  - exact Hstore.
  - rewrite Hsent, List.filter_app.
    assert (List.filter is_insert sent = []) as ->.
    { clear -Hnone. induction sent as [|r sent IH]; simpl in *; [reflexivity|].
      apply andb_true_iff in Hnone as [Hr Hrest].
      destruct (is_insert r); [discriminate|]. auto. }
    apply app_nil_r.
Qed.

End CalendarFacts.

Lemma create_event_stops_on_conflict_witness :
  exists message w',
    create_event remote "primary" (VStr "Sync") (VStr "2025-05-23T14:00:00+01:00")
      (VStr "2025-05-23T15:00:00+01:00") (VStr "") (VStr "") None (VBool true)
      quiet_world
    = (Ok (Conflict message [conflict_entry review_1430]), w')
    /\ store w' = stored_events
    /\ List.filter is_insert (requests w') = [].
Proof.
  destruct (create_event_stops_on_conflict remote "primary"
              (VStr "Sync") (VStr "2025-05-23T14:00:00+01:00")
              (VStr "2025-05-23T15:00:00+01:00") (VStr "") (VStr "") None
              (VBool true) quiet_world _ _ eq_refl eq_refl eq_refl eq_refl)
    as (message & Hrun & _ & _ & Hstore & Hreq).
  eexists. eexists. split; [exact Hrun|]. split; [exact Hstore|exact Hreq].
Defined.

End CalendarFacts.

(* ===================================================================== *)
(** * Properties of the conflict-resolution dialog                        *)
(* ===================================================================== *)

Module DialogFacts.
Import Normalizer Calendar Dialog Examples CalendarFacts.

Section DialogFacts.

Context {Store : Type}.
Variable service : GoogleService Store.
Variable default_calendar_id : string.
Variable other_methods : string -> Params -> M Store Result.

Lemma rewrite_pending_action {A} (r : ref) (a : Action)
  (start_time end_time : string) (k : Action -> M Store A) (w : World Store) :
  heap w !! r = Some a ->
  (_ ← set_param r "start_time" (VStr start_time);
   _ ← set_param r "end_time" (VStr end_time);
   _ ← set_param r "check_for_conflicts" (VBool false);
   action ← read r;
   k action) w
  = k (rescheduled a start_time end_time)
      (with_heap w (<[r := rescheduled a start_time end_time]> (heap w))).
Proof.
  intros Ha.
  rewrite (bindM_step _ _ _ _ _ (set_param_ok r _ _ w a Ha)).
  erewrite bindM_step; [|apply set_param_ok; simpl; apply lookup_insert_eq].
  erewrite bindM_step; [|apply set_param_ok; simpl; apply lookup_insert_eq].
  simpl. unfold with_heap at 1 2 3. simpl.
  rewrite !insert_insert_eq.
  erewrite bindM_step; [reflexivity|].
  unfold read. simpl. rewrite lookup_insert_eq. reflexivity.
Qed.

(** The connector's [execute] catches whatever is raised. *)
Lemma execute_total (method : string) (params : Params) (w : World Store) :
  exists result w',
    execute service default_calendar_id other_methods method params w
    = (Ok result, w').
Proof.
  unfold execute. destruct (negb _).
  - eexists. eexists. reflexivity.
  - unfold try_except.
    match goal with
    | |- context [match ?m w with _ => _ end] => destruct (m w) as [[result|e] w']
    end; eexists; eexists; reflexivity.
Qed.

(** [reschedule_to_time] rewrites the action, executes it once, answers
    the requester, and never raises. *)
Lemma reschedule_to_time_runs (sender_id : string) (r : ref) (a : Action)
  (start_time end_time : string) (w : World Store) :
  heap w !! r = Some a ->
  Model.service a = "calendar" ->
  exists result w1 response,
    execute service default_calendar_id other_methods (method a)
      (params (rescheduled a start_time end_time))
      (with_heap w (<[r := rescheduled a start_time end_time]> (heap w)))
    = (Ok result, w1)
    /\ reschedule_to_time service default_calendar_id other_methods
         sender_id r start_time end_time w
       = (Ok tt,
          mk_World (heap w1) (store w1) (requests w1) (conversation_state w1)
            (outbox w1 ++ [(sender_id, response)])).
Proof.
  intros Ha Hservice.
  destruct (execute_total (method a) (params (rescheduled a start_time end_time))
              (with_heap w (<[r := rescheduled a start_time end_time]> (heap w))))
    as (result & w1 & Hexec).
  exists result, w1.
  unfold reschedule_to_time.
  assert (Hbody : exists response,
    try_except
      (_ ← set_param r "start_time" (VStr start_time);
       _ ← set_param r "end_time" (VStr end_time);
       _ ← set_param r "check_for_conflicts" (VBool false);
       action ← read r;
       result ← service_execute service default_calendar_id other_methods
                  (Model.service action) (method action) (params action);
       if bool_decide (status result = Some "success") then
         _ ← lift (parse_iso start_time);
         mret (Scheduled (default (VStr "Event") (params action !! "summary"))
                 start_time end_time)
       else mret (CouldNotSchedule (message_of result)))
      (fun e => mret (ErrorScheduling (str_of_exn e))) w
    = (Ok response, w1)).
  { unfold try_except. rewrite (rewrite_pending_action _ _ _ _ _ _ Ha).
    unfold service_execute. simpl Model.service. rewrite Hservice. simpl String.eqb.
    simpl method. rewrite (bindM_step _ _ _ _ _ Hexec).
    destruct (bool_decide (status result = Some "success")).
    - unfold mbind, M_bind, bindM, lift.
      destruct (parse_iso start_time); eexists; reflexivity.
    - eexists. reflexivity. }
  destruct Hbody as [response Hbody]. exists response.
  split; [exact Hexec|].
  rewrite (bindM_step _ _ _ _ _ Hbody). reflexivity.
Qed.

(** With the conflict check switched off, executing [create_event] sends
    no listing request: whatever it sends is an insert. *)
Lemma create_without_check_only_inserts (params : Params) (w w1 : World Store)
  (res : PyResult Result) :
  params !! "check_for_conflicts" = Some (VBool false) ->
  execute service default_calendar_id other_methods "create_event" params w
  = (res, w1) ->
  exists sent, requests w1 = (requests w ++ sent)%list
               /\ forallb is_insert sent = true.
Proof.
  intros Hcheck. unfold execute.
  change (negb (bool_decide ("create_event" ∈ method_map))) with false.
  cbn [String.eqb Ascii.eqb Bool.eqb]. unfold try_except, call_create_event.
  destruct (negb (only_keys _ params)).
  { intros [= <- <-]. exists []. rewrite app_nil_r. split; reflexivity. }
  destruct (params !! "summary") as [summary|];
    [|intros [= <- <-]; exists []; rewrite app_nil_r; split; reflexivity].
  destruct (params !! "start_time") as [start_time|];
    [|intros [= <- <-]; exists []; rewrite app_nil_r; split; reflexivity].
  destruct (params !! "end_time") as [end_time|];
    [|intros [= <- <-]; exists []; rewrite app_nil_r; split; reflexivity].
  rewrite Hcheck. unfold create_event. cbn [default from_option id truthy].
  unfold mbind, M_bind, bindM, lift.
  destruct (ensure_iso_format_values start_time end_time) as [[s e]|err].
  - unfold _create_event_sync, try_except, mbind, M_bind, bindM, api_insert.
    destruct (events_insert _ _ _ _) as [[event|err] store'];
      intros [= <- <-]; eexists; split; reflexivity.
  - intros [= <- <-]. exists []. rewrite app_nil_r. split; reflexivity.
Qed.

(** C6.  In the state awaiting conflict resolution, when the reply is
    classified as [reschedule_to_suggested] with index [i]:
    if [0 <= i < len(alternatives)], the start and end of the pending
    action are rewritten to [alternatives[i]], the action is executed
    with [check_for_conflicts] false (for [create_event]: without any
    listing request), and the requester is back to idle;
    otherwise the requester is asked again and nothing else changes:
    mode, pending action, conflicts and alternatives are what they
    were. *)
Theorem suggested_time_reschedules_or_asks_again
  (sender_id message_text : string) (analysis : Analysis)
  (parsed : PyResult Intent) (w : World Store) (state : ConvState)
  (r : ref) (a : Action) (i : Z) :
  conversation_state w !! sender_id = Some state ->
  mode w sender_id = AwaitingConflictResolution ->
  original_action state = Some r ->
  heap w !! r = Some a ->
  Model.service a = "calendar" ->
  intent analysis = Some "reschedule_to_suggested" ->
  as_index (default (VInt 0) (suggested_time_index analysis)) = Ok i ->
  let alternatives := default [] (alternative_times state) in
  let run := handle_conflict_resolution service default_calendar_id other_methods
               sender_id message_text (Ok analysis) parsed w in
  (0 <= i < Z.of_nat (length alternatives) ->
   exists start_time end_time result w1 response,
     alternatives !! Z.to_nat i = Some (start_time, end_time)
     /\ params (rescheduled a start_time end_time) !! "start_time"
        = Some (VStr start_time)
     /\ params (rescheduled a start_time end_time) !! "end_time"
        = Some (VStr end_time)
     /\ params (rescheduled a start_time end_time) !! "check_for_conflicts"
        = Some (VBool false)
     /\ execute service default_calendar_id other_methods (method a)
          (params (rescheduled a start_time end_time))
          (with_heap w (<[r := rescheduled a start_time end_time]> (heap w)))
        = (Ok result, w1)
     /\ (method a = "create_event" ->
         exists sent, requests w1 = (requests w ++ sent)%list
                      /\ forallb is_insert sent = true)
     /\ run = (Ok tt,
               mk_World (heap w1) (store w1) (requests w1)
                 (<[sender_id := empty_state]> (conversation_state w1))
                 (outbox w1 ++ [(sender_id, response)]))
     /\ mode (snd run) sender_id = Idle)
  /\ (~ (0 <= i < Z.of_nat (length alternatives)) ->
      run = (Ok tt,
             mk_World (heap w) (store w) (requests w) (conversation_state w)
               (outbox w ++ [(sender_id, WhichTime)]))
      /\ mode (snd run) sender_id = AwaitingConflictResolution).
Proof.
  intros Hstate Hmode Horig Ha Hservice Hintent Hindex alternatives run.
  assert (Hrun : run =
    (outcome ←
       try_except
         (resolve service default_calendar_id other_methods sender_id
            message_text alternatives r (Ok analysis) parsed)
         (fun e => _ ← send_message sender_id TroubleUnderstanding; mret Returned);
     match outcome with
     | ClearState => set_state sender_id empty_state
     | Returned => mret tt
     end) w).
  { unfold run, handle_conflict_resolution, get_state.
    unfold mbind at 1, M_bind at 1, bindM at 1.
    rewrite Hstate. cbn [default from_option id]. rewrite Horig. reflexivity. }
  assert (Hresolve :
    resolve service default_calendar_id other_methods sender_id message_text
      alternatives r (Ok analysis) parsed w
    = (if (0 <=? i) && (i <? Z.of_nat (length alternatives)) then
         match alternatives !! Z.to_nat i with
         | Some (start_time, end_time) =>
             _ ← reschedule_to_time service default_calendar_id other_methods
                   sender_id r start_time end_time;
             mret ClearState
         | None => throw (OtherError "index out of range")
         end
       else _ ← send_message sender_id WhichTime; mret Returned) w).
  { unfold resolve. unfold mbind at 1, M_bind at 1, bindM at 1, lift at 1.
    rewrite Hintent.
    rewrite (bool_decide_eq_false_2
               (Some "reschedule_to_suggested" = Some "cancel")) by discriminate.
    rewrite (bool_decide_eq_false_2
               (Some "reschedule_to_suggested" = Some "override_conflicts"))
      by discriminate.
    rewrite (bool_decide_eq_true_2
               (Some "reschedule_to_suggested" = Some "reschedule_to_suggested"))
      by reflexivity.
    unfold mbind at 1, M_bind at 1, bindM at 1, lift at 1.
    rewrite Hindex. reflexivity. }
  split.
  - intros Hrange.
    assert ((0 <=? i) && (i <? Z.of_nat (length alternatives)) = true) as Hb
      by (apply andb_true_iff; split; [apply Z.leb_le|apply Z.ltb_lt]; lia).
    rewrite Hb in Hresolve.
    destruct (lookup_lt_is_Some_2 alternatives (Z.to_nat i)) as [[start_time end_time] Halt];
      [lia|].
    rewrite Halt in Hresolve.
    destruct (reschedule_to_time_runs sender_id r a start_time end_time w Ha Hservice)
      as (result & w1 & response & Hexec & Hre).
    exists start_time, end_time, result, w1, response.
    assert (Hfinal : run =
      (Ok tt,
       mk_World (heap w1) (store w1) (requests w1)
         (<[sender_id := empty_state]> (conversation_state w1))
         (outbox w1 ++ [(sender_id, response)]))).
    { rewrite Hrun. unfold mbind at 1, M_bind at 1, bindM at 1, try_except.
      rewrite Hresolve. rewrite (bindM_step _ _ _ _ _ Hre). reflexivity. }
    split; [exact Halt|].
    split; [unfold rescheduled; simpl; rewrite lookup_insert_ne by discriminate;
            rewrite lookup_insert_ne by discriminate; apply lookup_insert_eq|].
    split; [unfold rescheduled; simpl; rewrite lookup_insert_ne by discriminate;
            apply lookup_insert_eq|].
    split; [apply lookup_insert_eq|].
    split; [exact Hexec|].
    split.
    { intros Hmethod. rewrite Hmethod in Hexec.
      eapply create_without_check_only_inserts in Hexec; [exact Hexec|].
      apply lookup_insert_eq. }
    split; [exact Hfinal|].
    rewrite Hfinal. unfold mode. simpl. rewrite lookup_insert_eq. reflexivity.
  - intros Hout.
    assert ((0 <=? i) && (i <? Z.of_nat (length alternatives)) = false) as Hb.
    { apply andb_false_iff.
      destruct (Z.leb_spec 0 i); [|left; reflexivity].
      right. apply Z.ltb_ge. lia. }
    rewrite Hb in Hresolve.
    assert (Hfinal : run =
      (Ok tt,
       mk_World (heap w) (store w) (requests w) (conversation_state w)
         (outbox w ++ [(sender_id, WhichTime)]))).
    { rewrite Hrun. unfold mbind at 1, M_bind at 1, bindM at 1, try_except.
      rewrite Hresolve. reflexivity. }
    split; [exact Hfinal|].
    rewrite Hfinal. exact Hmode.
Qed.

(** C7.  In the state awaiting conflict resolution, when the reply is
    classified as [reschedule_to_custom] and the time it names still
    conflicts, the requester stays in that state; the stored conflicts
    become the conflicts just found and the stored alternatives become the
    single pair of times just tried, whatever was stored before; the
    pending action is kept, untouched. *)
Theorem conflicting_custom_time_replaces_conflicts
  (sender_id message_text : string) (analysis : Analysis)
  (parsed : Intent) (w w1 : World Store) (state : ConvState) (r : ref)
  (start_time end_time : string) (reported : Result) :
  conversation_state w !! sender_id = Some state ->
  mode w sender_id = AwaitingConflictResolution ->
  original_action state = Some r ->
  intent analysis = Some "reschedule_to_custom" ->
  entities parsed
  = Some (mk_Entities (Some (VStr start_time)) (Some (VStr end_time))) ->
  check_conflicts service default_calendar_id (VStr start_time) (VStr end_time)
    None w = (Ok reported, w1) ->
  has_conflicts reported = true ->
  let run := handle_conflict_resolution service default_calendar_id other_methods
               sender_id message_text (Ok analysis) (Ok parsed) w in
  let new_state :=
    {| awaiting_verification := false;
       pending_action := None;
       awaiting_conflict_resolution := true;
       conflicts := Some (conflicts_of reported);
       alternative_times := Some [(start_time, end_time)];
       original_action := Some r |} in
  fst run = Ok tt
  /\ conversation_state (snd run)
     = <[sender_id := new_state]> (conversation_state w)
  /\ conversation_state (snd run) !! sender_id = Some new_state
  /\ mode (snd run) sender_id = AwaitingConflictResolution
  /\ heap (snd run) = heap w
  /\ store (snd run) = store w
  /\ outbox (snd run)
     = (outbox w
        ++ [(sender_id,
             AlsoConflicts start_time end_time (length (conflicts_of reported)))])%list.
Proof.
  intros Hstate Hmode Horig Hintent Hentities Hcheck Hhas run new_state.
  destruct (check_conflicts_frame _ _ _ _ _ _ _ _ Hcheck)
    as (Hheap & Hstore & Hconv & Hout & _).
  assert (Hcustom :
    handle_custom_reschedule service default_calendar_id other_methods sender_id r
      (default message_text (custom_time analysis)) (Ok parsed) w
    = (Ok tt,
       mk_World (heap w1) (store w1) (requests w1)
         (<[sender_id := new_state]> (conversation_state w1))
         (outbox w1
          ++ [(sender_id,
               AlsoConflicts start_time end_time (length (conflicts_of reported)))]))).
  { unfold handle_custom_reschedule, try_except.
    unfold mbind at 1, M_bind at 1, bindM at 1, lift at 1.
    rewrite Hentities. cbn [default from_option id start_time_iso end_time_iso].
    rewrite (bindM_step _ _ _ _ _ Hcheck). rewrite Hhas. reflexivity. }
  assert (Hrun : run =
    (Ok tt,
     mk_World (heap w1) (store w1) (requests w1)
       (<[sender_id := new_state]> (conversation_state w1))
       (outbox w1
        ++ [(sender_id,
             AlsoConflicts start_time end_time (length (conflicts_of reported)))]))).
  { unfold run, handle_conflict_resolution, get_state.
    unfold mbind at 1, M_bind at 1, bindM at 1.
    rewrite Hstate. cbn [default from_option id]. rewrite Horig.
    unfold mbind at 1, M_bind at 1, bindM at 1, try_except, resolve.
    unfold mbind at 1, M_bind at 1, bindM at 1, lift at 1.
    rewrite Hintent.
    rewrite (bool_decide_eq_false_2
               (Some "reschedule_to_custom" = Some "cancel")) by discriminate.
    rewrite (bool_decide_eq_false_2
               (Some "reschedule_to_custom" = Some "override_conflicts"))
      by discriminate.
    rewrite (bool_decide_eq_false_2
               (Some "reschedule_to_custom" = Some "reschedule_to_suggested"))
      by discriminate.
    rewrite (bool_decide_eq_true_2
               (Some "reschedule_to_custom" = Some "reschedule_to_custom"))
      by reflexivity.
    rewrite (bindM_step _ _ _ _ _ Hcustom). reflexivity. }
  rewrite Hrun. unfold mode.
  cbn [fst snd heap store conversation_state outbox].
  rewrite Hheap, Hstore, Hconv, Hout, lookup_insert_eq.
  repeat split; reflexivity.
Qed.

End DialogFacts.

Lemma suggested_time_reschedules_or_asks_again_witness :
  exists start_time end_time result w1 response,
    default [] (alternative_times negotiation) !! Z.to_nat 1
    = Some (start_time, end_time)
    /\ params (rescheduled sync_action start_time end_time) !! "check_for_conflicts"
       = Some (VBool false)
    /\ handle_conflict_resolution remote "primary" no_other_methods
         requester "the second one" (Ok (pick 1))
         (Raise (OtherError "not consulted")) negotiating_world
       = (Ok tt,
          mk_World (heap w1) (store w1) (requests w1)
            (<[requester := empty_state]> (conversation_state w1))
            (outbox w1 ++ [(requester, response)]))
    /\ execute remote "primary" no_other_methods "create_event"
         (params (rescheduled sync_action start_time end_time))
         (with_heap negotiating_world
            (<[0%nat := rescheduled sync_action start_time end_time]>
               (heap negotiating_world)))
       = (Ok result, w1).
Proof.
  destruct (proj1 (suggested_time_reschedules_or_asks_again remote "primary"
                     no_other_methods requester "the second one" (pick 1)
                     (Raise (OtherError "not consulted")) negotiating_world
                     negotiation 0%nat sync_action 1
                     eq_refl eq_refl eq_refl eq_refl eq_refl eq_refl eq_refl))
    as (start_time & end_time & result & w1 & response
        & Halt & _ & _ & Hcheck & Hexec & _ & Hrun & _).
  { simpl. lia. }
  exists start_time, end_time, result, w1, response.
  repeat split; assumption.
Defined.

Lemma conflicting_custom_time_replaces_conflicts_witness :
  conversation_state
    (snd (handle_conflict_resolution remote "primary" no_other_methods
            requester "what about half past twelve"
            (Ok (custom "half past twelve"))
            (Ok (parsed_times "2025-05-23T12:30:00+01:00"
                   "2025-05-23T13:30:00+01:00"))
            negotiating_world)) !! requester
  = Some {| awaiting_verification := false;
            pending_action := None;
            awaiting_conflict_resolution := true;
            conflicts := Some [conflict_entry lunch_1200];
            alternative_times :=
              Some [("2025-05-23T12:30:00+01:00", "2025-05-23T13:30:00+01:00")];
            original_action := Some 0%nat |}
  /\ heap (snd (handle_conflict_resolution remote "primary" no_other_methods
                  requester "what about half past twelve"
                  (Ok (custom "half past twelve"))
                  (Ok (parsed_times "2025-05-23T12:30:00+01:00"
                         "2025-05-23T13:30:00+01:00"))
                  negotiating_world))
     = heap negotiating_world.
Proof.
  destruct (conflicting_custom_time_replaces_conflicts remote "primary"
              no_other_methods requester "what about half past twelve"
              (custom "half past twelve")
              (parsed_times "2025-05-23T12:30:00+01:00" "2025-05-23T13:30:00+01:00")
              negotiating_world _ negotiation 0%nat
              "2025-05-23T12:30:00+01:00" "2025-05-23T13:30:00+01:00" _
              eq_refl eq_refl eq_refl eq_refl eq_refl eq_refl eq_refl)
    as (_ & _ & Hstate & _ & Hheap & _ & _).
  split; [exact Hstate|exact Hheap].
Defined.

(** C5, at a failing input.  The requester picks the first suggested
    time while the calendar refuses inserts.  The failure is reported to
    the requester, and the negotiation is gone all the same: the state of
    the requester is the empty dictionary, with no pending action, no
    conflicts and no alternatives left to retry with. *)
Theorem failed_reschedule_clears_negotiation :
  let run := handle_conflict_resolution read_only_remote "primary"
               no_other_methods requester "the first one" (Ok (pick 0))
               (Raise (OtherError "not consulted")) negotiating_world in
  fst run = Ok tt
  /\ outbox (snd run)
     = [(requester,
         CouldNotSchedule
           "Failed to create event: HttpError 503: backend unavailable")]
  /\ conversation_state negotiating_world !! requester = Some negotiation
  /\ conversation_state (snd run) !! requester = Some empty_state
  /\ mode (snd run) requester = Idle
  /\ store (snd run) = stored_events.
Proof. vm_compute. repeat split; reflexivity. Qed.

(** The same reply when nothing fails, for comparison: the event is
    created and the state is cleared in the same way. *)
Lemma successful_reschedule_clears_negotiation :
  let run := handle_conflict_resolution remote "primary"
               no_other_methods requester "the first one" (Ok (pick 0))
               (Raise (OtherError "not consulted")) negotiating_world in
  outbox (snd run)
  = [(requester,
      Scheduled (VStr "Sync") "2025-05-23T16:00:00+01:00"
        "2025-05-23T17:00:00+01:00")]
  /\ conversation_state (snd run) !! requester = Some empty_state.
Proof. vm_compute. split; reflexivity. Qed.

End DialogFacts.

(* ===================================================================== *)
(** * Properties of plan validation                                       *)
(* ===================================================================== *)

Module PlannerFacts.
Import Normalizer Calendar Planner Examples CalendarFacts NormalizerFacts.

Lemma same_but_times_refl (a : Action) : same_but_times a a.
Proof. repeat split. intros key. left. reflexivity. Qed.

Lemma same_but_times_trans (a b c : Action) :
  same_but_times a b -> same_but_times b c -> same_but_times a c.
Proof.
  intros (Hs1 & Hm1 & Hp1) (Hs2 & Hm2 & Hp2).
  split; [congruence|]. split; [congruence|].
  intros key. destruct (Hp2 key) as [H2|(Hk & t2 & Hb & Hc)].
  - rewrite H2. apply Hp1.
  - destruct (Hp1 key) as [H1|(_ & t1 & Ha & Hb')].
    + right. split; [assumption|]. exists t2. rewrite <- H1. auto.
    + right. split; [assumption|]. exists t1. split; [assumption|].
      rewrite Hc. rewrite Hb' in Hb. injection Hb as <-.
      rewrite format_time_idempotent. reflexivity.
Qed.

Lemma heap_related_refl (h : gmap ref Action) : heap_related h h.
Proof. intros r. destruct (h !! r); [apply same_but_times_refl|exact I]. Qed.

Lemma heap_related_trans (h1 h2 h3 : gmap ref Action) :
  heap_related h1 h2 -> heap_related h2 h3 -> heap_related h1 h3.
Proof.
  intros H12 H23 r. specialize (H12 r). specialize (H23 r).
  destruct (h1 !! r), (h2 !! r), (h3 !! r); try tauto.
  eapply same_but_times_trans; eassumption.
Qed.

Lemma heap_related_insert (h : gmap ref Action) (r : ref) (a a' : Action) :
  h !! r = Some a -> same_but_times a a' -> heap_related h (<[r := a']> h).
Proof.
  intros Ha Hrel r'. destruct (decide (r = r')) as [<-|Hne].
  - rewrite Ha, lookup_insert_eq. assumption.
  - rewrite lookup_insert_ne by assumption.
    destruct (h !! r'); [apply same_but_times_refl|exact I].
Qed.

Section PlannerFacts.

Context {Store : Type}.
Variable service : GoogleService Store.
Variable default_calendar_id : string.

Lemma ensure_values_ok (start_time end_time : Value) (s' e' : string) :
  ensure_iso_format_values start_time end_time = Ok (s', e') ->
  exists s e, start_time = VStr s /\ end_time = VStr e
    /\ falsy (Some s) = false /\ falsy (Some e) = false
    /\ s' = format_time s /\ e' = format_time e.
Proof.
  unfold ensure_iso_format_values.
  destruct (negb (truthy start_time) || negb (truthy end_time)) eqn:Hb;
    [discriminate|].
  apply orb_false_iff in Hb as [Hs He].
  destruct start_time as [| | |s]; try discriminate.
  destruct end_time as [| | |e]; try discriminate.
  intros H. apply ensure_iso_format_ok in H.
  destruct H as (s0 & e0 & [= <-] & [= <-] & Hfs & Hfe & -> & ->).
  exists s, e. repeat split; assumption.
Qed.

Lemma ensure_values_strings (s e : string) :
  falsy (Some s) = false -> falsy (Some e) = false ->
  ensure_iso_format_values (VStr s) (VStr e) = Ok (format_time s, format_time e).
Proof.
  intros Hs He. unfold ensure_iso_format_values. cbn [truthy].
  rewrite Hs, He. cbn [negb orb]. unfold _ensure_iso_format.
  rewrite Hs, He. reflexivity.
Qed.

(** A conflict that the check reports is a listing that finds events. *)
Lemma reports_conflict_listing (w : World Store) (a : Action) :
  reports_conflict service default_calendar_id w a ->
  listing_finds_events service default_calendar_id (store w) a.
Proof.
  intros (Hs & Hm & start_time & end_time & reported & w1
          & Hst & Hen & Hcheck & Hstatus & Hhas).
  split; [assumption|]. split; [assumption|].
  revert Hcheck. unfold check_conflicts, mbind, M_bind, bindM, lift.
  destruct (ensure_iso_format_values start_time end_time) as [[s' e']|err] eqn:He;
    [|discriminate].
  apply ensure_values_ok in He as (s & e & -> & -> & Hfs & Hfe & -> & ->).
  unfold _check_conflicts_sync, try_except, mbind, M_bind, bindM, api_list.
  cbn [store].
  destruct (events_list _ _ _ _ _ _) as [[|first others]|err] eqn:Hl;
    intros [= <- <-]; try discriminate.
  exists s, e, first, others. repeat split; assumption.
Qed.

Lemma listing_finds_events_related (stored : Store) (a a' : Action) :
  same_but_times a a' ->
  listing_finds_events service default_calendar_id stored a ->
  listing_finds_events service default_calendar_id stored a'.
Proof.
  intros (Hs & Hm & Hp) (Hsa & Hma & s & e & first & others
                         & Hst & Hen & Hfs & Hfe & Hl).
  split; [congruence|]. split; [congruence|].
  assert (Hkey : forall key t, params a !! key = Some (VStr t) ->
                 falsy (Some t) = false ->
                 exists t', params a' !! key = Some (VStr t')
                            /\ falsy (Some t') = false
                            /\ format_time t' = format_time t).
  { intros key t Hk Hf. destruct (Hp key) as [H|(_ & t0 & H0 & H1)].
    - exists t. rewrite H. auto.
    - rewrite Hk in H0. injection H0 as <-.
      exists (format_time t). split; [assumption|].
      split; [apply format_time_nonempty; assumption|].
      apply format_time_idempotent. }
  destruct (Hkey _ _ Hst Hfs) as (s' & Hs' & Hfs' & Heqs).
  destruct (Hkey _ _ Hen Hfe) as (e' & He' & Hfe' & Heqe).
  exists s', e', first, others. rewrite Heqs, Heqe. repeat split; assumption.
Qed.

(** The check on two non-empty strings, in terms of the listing. *)
Lemma check_conflicts_listing (s e : string) (calendar_id : option string)
  (w : World Store) (found : list GEvent) :
  falsy (Some s) = false -> falsy (Some e) = false ->
  events_list service (store w)
    (calendar_or_default default_calendar_id calendar_id)
    (format_time s) (format_time e) None = Ok found ->
  exists w',
    check_conflicts service default_calendar_id (VStr s) (VStr e) calendar_id w
    = (Ok (CheckSuccess (0 <? length (map conflict_entry found))%nat
             (map conflict_entry found) (length (map conflict_entry found))), w').
Proof.
  intros Hs He Hl. unfold check_conflicts, mbind, M_bind, bindM, lift.
  rewrite (ensure_values_strings _ _ Hs He).
  unfold _check_conflicts_sync, try_except, mbind, M_bind, bindM, api_list.
  rewrite Hl. eexists. reflexivity.
Qed.

Lemma validate_action_spec (r : ref) (w w' : World Store)
  (res : option ActionConflict) :
  validate_action service default_calendar_id r w = (Ok res, w') ->
  store w' = store w
  /\ conversation_state w' = conversation_state w
  /\ outbox w' = outbox w
  /\ heap_related (heap w) (heap w')
  /\ (forall c, res = Some c -> c_action c = r /\ c_conflicts c <> [])
  /\ (forall a, heap w !! r = Some a ->
      listing_finds_events service default_calendar_id (store w) a ->
      res <> None).
Proof.
  unfold validate_action. intros H.
  apply bindM_ok in H as (a & w0 & Hread & H).
  apply read_ok in Hread as [Ha ->].
  destruct (String.eqb (Model.service a) "calendar"
            && String.eqb (method a) "create_event") eqn:Hcal.
  - destruct (truthy (default VNone (params a !! "start_time"))
              && truthy (default VNone (params a !! "end_time"))) eqn:Htruthy.
    + apply bindM_ok in H as ([s' e'] & w1 & Hens & H).
      unfold lift in Hens. injection Hens as Hens <-.
      apply ensure_values_ok in Hens
        as (s & e & Hst & Hen & Hfs & Hfe & -> & ->).
      assert (Hps : params a !! "start_time" = Some (VStr s))
        by (destruct (params a !! "start_time"); simpl in Hst; congruence).
      assert (Hpe : params a !! "end_time" = Some (VStr e))
        by (destruct (params a !! "end_time"); simpl in Hen; congruence).
      rewrite (bindM_step _ _ _ _ _ (set_param_ok r _ _ w a Ha)) in H.
      erewrite bindM_step in H;
        [|apply set_param_ok; simpl; apply lookup_insert_eq].
      cbn [Model.service method params] in H.
      unfold with_heap in H.
      cbn [heap store requests conversation_state outbox] in H.
      rewrite insert_insert_eq in H.
      set (a' := mk_Action (Model.service a) (method a)
                   (<["end_time" := VStr (format_time e)]>
                      (<["start_time" := VStr (format_time s)]> (params a)))) in *.
      set (w2 := mk_World (<[r := a']> (heap w)) (store w) (requests w)
                   (conversation_state w) (outbox w)) in *.
      assert (Hrel : heap_related (heap w) (heap w2)).
      { apply heap_related_insert with (a := a); [assumption|].
        split; [reflexivity|]. split; [reflexivity|].
        intros key. unfold a'. cbn [params].
        destruct (decide (key = "end_time")) as [->|Hne1].
        - right. split; [right; reflexivity|]. exists e.
          split; [assumption|apply lookup_insert_eq].
        - rewrite lookup_insert_ne by congruence.
          destruct (decide (key = "start_time")) as [->|Hne2].
          + right. split; [left; reflexivity|]. exists s.
            split; [assumption|apply lookup_insert_eq].
          + left. apply lookup_insert_ne. congruence. }
      apply bindM_ok in H as (reported & w3 & Hcheck & H).
      destruct (check_conflicts_frame _ _ _ _ _ _ _ _ Hcheck)
        as (Hheap & Hstore & Hconv & Hout & _).
      assert (Hframe : store w3 = store w /\ conversation_state w3 = conversation_state w
                       /\ outbox w3 = outbox w /\ heap_related (heap w) (heap w3)).
      { rewrite Hheap, Hstore, Hconv, Hout. repeat split; assumption. }
      destruct Hframe as (F1 & F2 & F3 & F4).
      destruct (bool_decide (status reported = Some "success")
                && has_conflicts reported) eqn:Hfound.
      * apply mret_inv in H as [<- <-].
        apply andb_true_iff in Hfound as [Hstatus Hhas].
        apply bool_decide_eq_true in Hstatus.
        destruct (check_conflicts_reports _ _ _ _ _ _ _ _ Hcheck Hstatus Hhas)
          as (found & -> & Hne).
        split; [assumption|]. split; [assumption|]. split; [assumption|].
        split; [assumption|]. split.
        -- intros c [= <-]. split; [reflexivity|exact Hne].
        -- discriminate.
      * apply mret_inv in H as [<- <-].
        split; [assumption|]. split; [assumption|]. split; [assumption|].
        split; [assumption|]. split; [discriminate|].
        intros a0 Ha0 (_ & _ & s0 & e0 & first & others
                       & Hs0 & He0 & Hf0 & Hg0 & Hl).
        rewrite Ha in Ha0. injection Ha0 as <-.
        rewrite Hps in Hs0. injection Hs0 as <-.
        rewrite Hpe in He0. injection He0 as <-.
        exfalso.
        assert (Hl' : events_list service (store w2)
                        (calendar_or_default default_calendar_id None)
                        (format_time (format_time s)) (format_time (format_time e))
                        None = Ok (first :: others))
          by (rewrite !format_time_idempotent; exact Hl).
        destruct (check_conflicts_listing (format_time s) (format_time e) None w2 _
                    (format_time_nonempty _ Hfs) (format_time_nonempty _ Hfe) Hl')
          as (w4 & Hrun).
        rewrite Hrun in Hcheck. injection Hcheck as <- _.
        discriminate Hfound.
    + apply mret_inv in H as [<- <-].
      split; [reflexivity|]. split; [reflexivity|]. split; [reflexivity|].
      split; [apply heap_related_refl|]. split; [discriminate|].
      intros a0 Ha0 (_ & _ & s0 & e0 & first & others
                     & Hs0 & He0 & Hf0 & Hg0 & Hl).
      rewrite Ha in Ha0. injection Ha0 as <-.
      rewrite Hs0, He0 in Htruthy. cbn [default from_option id truthy] in Htruthy.
      rewrite Hf0, Hg0 in Htruthy. discriminate.
  - apply mret_inv in H as [<- <-].
    split; [reflexivity|]. split; [reflexivity|]. split; [reflexivity|].
    split; [apply heap_related_refl|]. split; [discriminate|].
    intros a0 Ha0 (Hs0 & Hm0 & _).
    rewrite Ha in Ha0. injection Ha0 as <-.
    rewrite Hs0, Hm0 in Hcal. discriminate.
Qed.

Lemma validate_loop_spec (refs : list ref) :
  forall (w w' : World Store) (found : list ActionConflict),
  validate_loop service default_calendar_id refs w = (Ok found, w') ->
  store w' = store w
  /\ conversation_state w' = conversation_state w
  /\ outbox w' = outbox w
  /\ heap_related (heap w) (heap w')
  /\ Forall (fun c => In (c_action c) refs /\ c_conflicts c <> []) found
  /\ (forall r a, In r refs -> heap w !! r = Some a ->
      listing_finds_events service default_calendar_id (store w) a ->
      found <> []).
Proof.
  induction refs as [|r rest IH]; intros w w' found H.
  - apply mret_inv in H as [<- <-].
    split; [reflexivity|]. split; [reflexivity|]. split; [reflexivity|].
    split; [apply heap_related_refl|]. split; [constructor|].
    intros r a [].
  - cbn [validate_loop] in H.
    apply bindM_ok in H as (this & w1 & Hthis & H).
    apply bindM_ok in H as (more & w2 & Hmore & H).
    apply mret_inv in H as [<- <-].
    destruct (validate_action_spec _ _ _ _ Hthis)
      as (S1 & C1 & O1 & R1 & Hc1 & Hf1).
    destruct (IH _ _ _ Hmore) as (S2 & C2 & O2 & R2 & Hc2 & Hf2).
    split; [congruence|]. split; [congruence|]. split; [congruence|].
    split; [eapply heap_related_trans; eassumption|].
    assert (Hmore' : Forall (fun c => In (c_action c) (r :: rest)
                                      /\ c_conflicts c <> []) more).
    { eapply Forall_impl; [exact Hc2|]. simpl. intros c [Hin Hne]. auto. }
    split.
    + destruct this as [c|]; [|assumption].
      constructor; [|assumption].
      destruct (Hc1 c eq_refl) as [-> Hne]. split; [left; reflexivity|assumption].
    + intros r0 a [<-|Hin] Ha Hlist.
      * specialize (Hf1 a Ha Hlist).
        destruct this as [c|]; [discriminate|]. congruence.
      * specialize (R1 r0). rewrite Ha in R1.
        destruct (heap w1 !! r0) as [a1|] eqn:Ha1; [|contradiction].
        assert (found_more : more <> []).
        { apply (Hf2 r0 a1 Hin Ha1). rewrite S1.
          eapply listing_finds_events_related; eassumption. }
        destruct this; [discriminate|assumption].
Qed.

Lemma build_actions_spec (proposed : list ActionData) :
  forall w : World Store,
  exists refs w1,
    build_actions proposed w = (Ok refs, w1)
    /\ store w1 = store w
    /\ conversation_state w1 = conversation_state w
    /\ outbox w1 = outbox w
    /\ requests w1 = requests w
    /\ Forall2 (fun action_data r => heap w1 !! r = Some (action_of action_data))
         proposed refs
    /\ (forall r a, heap w !! r = Some a -> heap w1 !! r = Some a).
Proof.
  induction proposed as [|action_data rest IH]; intros w.
  - exists [], w. repeat split; try reflexivity; [constructor|auto].
  - cbn [build_actions].
    set (a := mk_Action (ad_service action_data) (ad_method action_data)
                (ad_params action_data)).
    set (r := fresh (dom (heap w))).
    set (w0 := with_heap w (<[r := a]> (heap w))).
    assert (Halloc : alloc a w = (Ok r, w0)) by reflexivity.
    destruct (IH w0) as (refs & w1 & Hbuild & S1 & C1 & O1 & Q1 & Hall & Hkeep).
    exists (r :: refs), w1.
    rewrite (bindM_step _ _ _ _ _ Halloc), (bindM_step _ _ _ _ _ Hbuild).
    split; [reflexivity|]. split; [exact S1|]. split; [exact C1|].
    split; [exact O1|]. split; [exact Q1|]. split.
    + constructor; [|exact Hall].
      apply Hkeep. unfold w0. cbn [heap with_heap]. apply lookup_insert_eq.
    + intros r0 a0 Ha0. apply Hkeep. unfold w0. cbn [heap with_heap].
      rewrite lookup_insert_ne; [assumption|].
      intros <-. pose proof (is_fresh (dom (heap w))) as Hfresh.
      apply not_elem_of_dom in Hfresh. fold r in Hfresh. congruence.
Qed.

Lemma Forall2_In_l {A B} (P : A -> B -> Prop) (l : list A) (k : list B) (x : A) :
  Forall2 P l k -> In x l -> exists y, In y k /\ P x y.
Proof.
  induction 1 as [|a b l k Hab Hlk IH]; simpl; [intros []|].
  intros [<-|Hin].
  - exists b. auto.
  - destruct (IH Hin) as (y & Hy & Hp). exists y. auto.
Qed.

(** C8, as the code has it.  When the plan holds a calendar creation
    whose conflict check reports conflicts, validation sets
    [requires_verification] and appends the conflict details (one line
    per conflicting event, with its title and its start) to the summary;
    the plan keeps every proposed action, in order, with its service, its
    method and its parameters, except that the strings under
    ["start_time"] and ["end_time"] of the checked creations are replaced
    by their normalized form.  The calendar is not changed. *)
Theorem validation_flags_conflicts_and_keeps_actions
  (result : PlanResult) (w w' : World Store) (p : ActionPlan) :
  (exists action_data,
     In action_data (r_actions result)
     /\ reports_conflict service default_calendar_id w (action_of action_data)) ->
  plan service default_calendar_id result w = (Ok p, w') ->
  requires_verification p = true
  /\ (exists found,
        found <> []
        /\ Forall (fun c => In (c_action c) (actions p) /\ c_conflicts c <> []) found
        /\ summary p = r_summary result ++ conflict_details found)
  /\ Forall2 (fun action_data r =>
                exists a', heap w' !! r = Some a'
                           /\ same_but_times (action_of action_data) a')
       (r_actions result) (actions p)
  /\ store w' = store w.
Proof.
  intros (action_data & Hin & Hreports) Hplan.
  apply reports_conflict_listing in Hreports.
  unfold plan in Hplan.
  destruct (build_actions_spec (r_actions result) w)
    as (refs & w1 & Hbuild & S1 & _ & _ & _ & Hall & _).
  rewrite (bindM_step _ _ _ _ _ Hbuild) in Hplan.
  destruct (Forall2_In_l _ _ _ _ Hall Hin) as (r & Hr & Hheap).
  unfold mbind at 1, M_bind at 1, bindM at 1 in Hplan.
  destruct (filter (fun r0 => is_calendar_action w1 r0 = true) refs)
    as [|r1 calendar_actions] eqn:Hfilter.
  { exfalso.
    assert (Hmem : r ∈ filter (fun r0 => is_calendar_action w1 r0 = true) refs).
    { apply list_elem_of_filter. split; [|apply list_elem_of_In; assumption].
      unfold is_calendar_action. rewrite Hheap.
      destruct Hreports as (Hs & _). cbn [Model.service action_of] in *.
      rewrite Hs. reflexivity. }
    rewrite Hfilter in Hmem. inversion Hmem. }
  apply bindM_ok in Hplan as (validation & w2 & Hval & Hplan).
  unfold validate_calendar_actions in Hval.
  apply bindM_ok in Hval as (found & w3 & Hloop & Hval).
  apply mret_inv in Hval as [<- <-].
  destruct (validate_loop_spec _ _ _ _ Hloop) as (S2 & _ & _ & R2 & Hfound & Hsome).
  assert (Hne : found <> []).
  { apply (Hsome r (action_of action_data) Hr Hheap). rewrite S1. assumption. }
  cbn [valid v_conflicts] in Hplan.
  destruct found as [|c found]; [congruence|].
  cbn [length Nat.eqb negb] in Hplan.
  apply mret_inv in Hplan as [<- <-]. cbn [requires_verification summary actions].
  split; [reflexivity|]. split.
  { exists (c :: found). split; [discriminate|]. split; [assumption|reflexivity]. }
  split; [|congruence].
  eapply Forall2_impl; [exact Hall|]. simpl.
  intros ad r0 Hr0. specialize (R2 r0). rewrite Hr0 in R2.
  destruct (heap w3 !! r0) as [a'|]; [|contradiction].
  exists a'. split; [reflexivity|assumption].
Qed.

End PlannerFacts.

Lemma naive_creation_reports_conflict :
  reports_conflict remote "primary" quiet_world (action_of naive_creation).
Proof.
  split; [reflexivity|]. split; [reflexivity|].
  eexists. eexists. eexists. eexists.
  split; [reflexivity|]. split; [reflexivity|].
  split; [vm_compute; reflexivity|]. split; reflexivity.
Defined.

Lemma validation_flags_conflicts_and_keeps_actions_witness :
  exists p w',
    plan remote "primary" naive_proposal quiet_world = (Ok p, w')
    /\ requires_verification p = true
    /\ Forall2 (fun action_data r =>
                  exists a', heap w' !! r = Some a'
                             /\ same_but_times (action_of action_data) a')
         (r_actions naive_proposal) (actions p)
    /\ store w' = store quiet_world.
Proof.
  eexists. eexists. split; [vm_compute; reflexivity|].
  pose proof (validation_flags_conflicts_and_keeps_actions remote "primary"
                naive_proposal quiet_world _ _
                (ex_intro _ naive_creation
                   (conj (or_introl eq_refl) naive_creation_reports_conflict))
                eq_refl) as (Hflag & _ & Hkeep & Hstore).
  split; [exact Hflag|]. split; [exact Hkeep|exact Hstore].
Defined.

(** C8, as the claim states it, fails.  The creation is proposed with
    the start time ["2025-05-23T14:00:00"]; its check reports the review;
    the plan that comes back holds the action with the start time
    ["2025-05-23T14:00:00Z"]: validation has rewritten a parameter. *)
Lemma validation_rewrites_times :
  reports_conflict remote "primary" quiet_world (action_of naive_creation)
  /\ exists p w' a',
      plan remote "primary" naive_proposal quiet_world = (Ok p, w')
      /\ actions p = [0%nat]
      /\ heap w' !! 0%nat = Some a'
      /\ ad_params naive_creation !! "start_time"
         = Some (VStr "2025-05-23T14:00:00")
      /\ params a' !! "start_time" = Some (VStr "2025-05-23T14:00:00Z")
      /\ params a' <> ad_params naive_creation.
Proof.
  split; [exact naive_creation_reports_conflict|].
  eexists. eexists. eexists.
  split; [vm_compute; reflexivity|].
  split; [reflexivity|].
  split; [vm_compute; reflexivity|].
  split; [vm_compute; reflexivity|].
  split; [vm_compute; reflexivity|].
  intros Heq.
  apply (f_equal (fun m : Params => m !! "start_time")) in Heq.
  vm_compute in Heq. discriminate Heq.
Qed.

End PlannerFacts.

(* ===================================================================== *)
(** * The finder behind the connector of the repository                   *)
(* ===================================================================== *)

Module IntegrationFacts.
Import Normalizer Calendar Integration FinderFacts NormalizerFacts.

Lemma listing_raise_gives_fallback (original_start original_end : string)
  (conflicts : list Event) (e : Exn) :
  smart_alternative_slots original_start original_end conflicts (Raise e)
  = fallback_slots original_start original_end.
Proof.
  unfold smart_alternative_slots, smart_search, mbind, PyResult_bind, Py.bind.
  destruct (parse_iso original_start) as [start_dt|]; [|reflexivity].
  destruct (parse_iso original_end) as [end_dt|]; [|reflexivity].
  destruct (sub end_dt start_dt); reflexivity.
Qed.

(** With the connector of the repository as calendar service, a day on
    which the calendar lists at least one event never gets a searched
    answer: what [get_smart_alternative_times] returns is what
    [get_fallback_alternatives] returns. *)
Lemma calendar_with_events_gives_fallback {Store : Type}
  (service : GoogleService Store) (default_calendar_id : string)
  (original_start original_end : string) (conflicts : list FlatEvent)
  (day_start day_end : string) (w : World Store)
  (first : GEvent) (others : list GEvent) :
  events_list service (store w)
    (calendar_or_default default_calendar_id None)
    (format_time day_start) (format_time day_end) (Some 10)
  = Ok (first :: others) ->
  fst (smart_alternatives_from_calendar service default_calendar_id
         original_start original_end conflicts day_start day_end w)
  = Ok (get_fallback_alternatives original_start original_end).
Proof.
  intros Hlist.
  unfold smart_alternatives_from_calendar, list_events.
  unfold mbind, M_bind, bindM, lift.
  destruct (_ensure_iso_format (Some day_start) (Some day_end))
    as [[s e]|err] eqn:Hens.
  - apply ensure_iso_format_ok in Hens
      as (s0 & e0 & [= <-] & [= <-] & _ & _ & -> & ->).
    unfold _list_events_sync, try_except, mbind, M_bind, bindM, api_list.
    rewrite Hlist. unfold mret, M_ret, ret. cbn [fst map].
    unfold get_smart_alternative_times, get_fallback_alternatives.
    rewrite connector_events_divert_to_fallback.
    reflexivity.
  - cbn [fst].
    unfold get_smart_alternative_times, get_fallback_alternatives.
    rewrite listing_raise_gives_fallback. reflexivity.
Qed.

End IntegrationFacts.

(* ===================================================================== *)
(** * More about the free-slot finder                                     *)
(* ===================================================================== *)

Module FinderExtras.
Import FinderFacts Examples.

(** An invariant [I] of the cursor and a property [Q] of the candidates
    recorded under it carry over to everything a walk collects. *)
Lemma walk_invariant (I : datetime -> Prop) (Q : period -> Prop)
  (busy : list period) (duration step : timedelta) (window_end : datetime)
  (enough : nat) :
  (forall t t_next, I t -> add t step = Ok t_next -> I t_next) ->
  (forall t t_end b, I t -> In b busy -> conflicts_with b (t, t_end) -> I (snd b)) ->
  (forall t t_end, I t -> add t duration = Ok t_end ->
                   instant t_end <= instant window_end -> Q (t, t_end)) ->
  forall t collected out,
    walk busy duration step window_end enough t collected out ->
    I t -> Forall Q collected -> Forall Q out.
Proof.
  intros Hstep Hjump Hrecord t collected out.
  induction 1 as [t collected Hpass
                 |t collected Hlen
                 |t t_end t_next collected out Hadd Hfit Hfree Hnext Hwalk IH
                 |t t_end b0 collected out Hadd Hfit Hin Hc Hwalk IH];
    intros Ht Hacc; try assumption.
  - apply IH; [eapply Hstep; eassumption|].
    apply Forall_app. split; [assumption|].
    constructor; [|constructor]. apply Hrecord; assumption.
  - apply IH; [|assumption]. eapply Hjump; eassumption.
Qed.

Lemma Forall_firstn {A} (Q : A -> Prop) (n : nat) (l : list A) :
  Forall Q l -> Forall Q (firstn n l).
Proof.
  intros H. apply List.Forall_forall. intros x Hx.
  rewrite List.Forall_forall in H. apply H. eapply In_firstn; eassumption.
Qed.

(** What the search records, under an invariant of the cursor that holds
    at 09:00. *)
Lemma search_slots_Forall (I : datetime -> Prop) (Q : period -> Prop)
  (original_start original_end : string) (listing : PyResult ListEventsResult)
  (slots : list period) (start_dt end_dt : datetime) (duration : timedelta) :
  smart_search original_start original_end listing = Ok slots ->
  parse_iso original_start = Ok start_dt ->
  parse_iso original_end = Ok end_dt ->
  sub end_dt start_dt = Ok duration ->
  I (replace_hour start_dt 9) ->
  (forall t t_next, I t -> add t (30 * MINUTE) = Ok t_next -> I t_next) ->
  (forall t t_end b, I t -> conflicts_with b (t, t_end) -> I (snd b)) ->
  (forall t t_end, I t -> add t duration = Ok t_end ->
                   instant t_end <= instant (replace_hour start_dt 18) ->
                   Q (t, t_end)) ->
  Forall Q slots.
Proof.
  intros H Hs He Hd H9 Hstep Hjump Hrecord.
  apply smart_search_ok in H.
  destruct H as (start_dt' & end_dt' & duration' & result & unsorted & busy & out
                 & Hs' & He' & Hd' & _ & _ & _ & Hloop & ->).
  rewrite Hs in Hs'. injection Hs' as <-.
  rewrite He in He'. injection He' as <-.
  rewrite Hd in Hd'. injection Hd' as <-.
  apply Forall_firstn. apply search_loop_walk in Hloop.
  eapply (walk_invariant I Q); [exact Hstep| |exact Hrecord|exact Hloop|exact H9|constructor].
  intros t t_end b Ht _ Hc. eapply Hjump; eassumption.
Qed.

Lemma fallback_loop_Forall (start_dt : datetime) (duration : timedelta)
  (hours : list Z) :
  forall suggestions,
  fallback_loop start_dt duration hours = Ok suggestions ->
  Forall (fun slot => exists hour,
            In hour hours
            /\ fst slot = replace_hour start_dt hour
            /\ add (fst slot) duration = Ok (snd slot)
            /\ neq (fst slot) start_dt = true) suggestions
  /\ (length suggestions <= length hours)%nat.
Proof.
  induction hours as [|hour hours IH]; simpl; intros suggestions.
  - intros [= <-]. split; [constructor|simpl; lia].
  - unfold mbind, PyResult_bind, Py.bind.
    destruct (add (replace_hour start_dt hour) duration) as [candidate_end|] eqn:Hadd;
      [|discriminate].
    destruct (fallback_loop start_dt duration hours) as [more|]; [|discriminate].
    intros [= <-]. destruct (IH more eq_refl) as [Hall Hlen].
    assert (Hmore : Forall (fun slot => exists hour0,
                      In hour0 (hour :: hours)
                      /\ fst slot = replace_hour start_dt hour0
                      /\ add (fst slot) duration = Ok (snd slot)
                      /\ neq (fst slot) start_dt = true) more).
    { eapply Forall_impl; [exact Hall|]. simpl.
      intros slot (h & Hin & H1 & H2 & H3). exists h. auto. }
    destruct (neq (replace_hour start_dt hour) start_dt) eqn:Hneq.
    + split; [|simpl; lia]. constructor; [|exact Hmore].
      exists hour. simpl. auto.
    + split; [exact Hmore|lia].
Qed.

(** What the fallback returns, once the request is parsed. *)
Lemma fallback_slots_ok (original_start original_end : string) (slot : period) :
  In slot (fallback_slots original_start original_end) ->
  exists start_dt end_dt duration suggestions,
    parse_iso original_start = Ok start_dt
    /\ parse_iso original_end = Ok end_dt
    /\ sub end_dt start_dt = Ok duration
    /\ fallback_loop start_dt duration [9; 12; 16] = Ok suggestions
    /\ fallback_slots original_start original_end = suggestions.
Proof.
  unfold fallback_slots, mbind, PyResult_bind, Py.bind.
  destruct (parse_iso original_start) as [start_dt|] eqn:Hs; [|intros []].
  destruct (parse_iso original_end) as [end_dt|] eqn:He; [|intros []].
  destruct (sub end_dt start_dt) as [duration|] eqn:Hd; [|intros []].
  destruct (fallback_loop start_dt duration [9; 12; 16]) as [suggestions|] eqn:Hl;
    [|intros []].
  intros _. exists start_dt, end_dt, duration, suggestions.
  repeat split; first [reflexivity|assumption].
Qed.

Lemma sub_ok (a b : datetime) (td : timedelta) :
  sub a b = Ok td -> td = instant a - instant b.
Proof.
  unfold sub. destruct (same_awareness a b); [|discriminate].
  intros [= <-]. reflexivity.
Qed.

(** X1.  Every slot [get_smart_alternative_times] returns, from the
    search or from the fallback, lasts exactly as long as the original
    request: its end is its start plus [end_dt - start_dt]. *)
Theorem alternatives_keep_duration (original_start original_end : string)
  (conflicts : list Event) (listing : PyResult ListEventsResult)
  (slot : period) :
  In slot (smart_alternative_slots original_start original_end conflicts listing) ->
  exists start_dt end_dt duration,
    parse_iso original_start = Ok start_dt
    /\ parse_iso original_end = Ok end_dt
    /\ sub end_dt start_dt = Ok duration
    /\ add (fst slot) duration = Ok (snd slot)
    /\ instant (snd slot) - instant (fst slot) = instant end_dt - instant start_dt.
Proof.
  unfold smart_alternative_slots.
  destruct (smart_search original_start original_end listing) as [slots|] eqn:Hsearch.
  - intros Hin.
    destruct (smart_search_ok _ _ _ _ Hsearch)
      as (start_dt & end_dt & duration & _ & _ & _ & _ & Hs & He & Hd & _).
    exists start_dt, end_dt, duration.
    assert (Hall : Forall (fun s => add (fst s) duration = Ok (snd s)) slots).
    { eapply (search_slots_Forall (fun _ => True));
        [exact Hsearch|exact Hs|exact He|exact Hd|exact Logic.I| | |]; auto. }
    rewrite List.Forall_forall in Hall. specialize (Hall slot Hin).
    repeat split; try assumption.
    rewrite (instant_add _ _ _ Hall), (sub_ok _ _ _ Hd). lia.
  - intros Hin.
    destruct (fallback_slots_ok _ _ _ Hin)
      as (start_dt & end_dt & duration & suggestions & Hs & He & Hd & Hloop & Heq).
    rewrite Heq in Hin.
    destruct (fallback_loop_Forall _ _ _ _ Hloop) as [Hall _].
    rewrite List.Forall_forall in Hall.
    destruct (Hall slot Hin) as (hour & _ & _ & Hadd & _).
    exists start_dt, end_dt, duration. repeat split; try assumption.
    rewrite (instant_add _ _ _ Hadd), (sub_ok _ _ _ Hd). lia.
Qed.

Lemma alternatives_keep_duration_witness :
  exists start_dt end_dt duration,
    parse_iso "2025-05-23T10:00:00+01:00" = Ok start_dt
    /\ parse_iso "2025-05-23T10:30:00+01:00" = Ok end_dt
    /\ sub end_dt start_dt = Ok duration
    /\ add (fst (mk_datetime 63883587600000000 (Some 3600000000),
                 mk_datetime 63883589400000000 (Some 3600000000))) duration
       = Ok (snd (mk_datetime 63883587600000000 (Some 3600000000),
                  mk_datetime 63883589400000000 (Some 3600000000)))
    /\ instant (snd (mk_datetime 63883587600000000 (Some 3600000000),
                     mk_datetime 63883589400000000 (Some 3600000000)))
       - instant (fst (mk_datetime 63883587600000000 (Some 3600000000),
                       mk_datetime 63883589400000000 (Some 3600000000)))
       = instant end_dt - instant start_dt.
Proof.
  apply (alternatives_keep_duration "2025-05-23T10:00:00+01:00"
           "2025-05-23T10:30:00+01:00" [] standup_day).
  vm_compute. left. reflexivity.
Defined.

(** X2.  Every slot the search itself records lies inside the business
    window of the requested day: it starts at 09:00 or later and ends at
    18:00 or earlier (on the clock of the request). *)
Theorem search_slots_inside_business_window
  (original_start original_end : string) (listing : PyResult ListEventsResult)
  (slots : list period) (start_dt : datetime) (slot : period) :
  smart_search original_start original_end listing = Ok slots ->
  parse_iso original_start = Ok start_dt ->
  In slot slots ->
  instant (replace_hour start_dt 9) <= instant (fst slot)
  /\ instant (snd slot) <= instant (replace_hour start_dt 18).
Proof.
  intros Hsearch Hs Hin.
  destruct (smart_search_ok _ _ _ _ Hsearch)
    as (start_dt' & end_dt & duration & _ & _ & _ & _ & Hs' & He & Hd & _).
  rewrite Hs in Hs'. injection Hs' as <-.
  assert (Hall : Forall (fun s =>
            instant (replace_hour start_dt 9) <= instant (fst s)
            /\ instant (snd s) <= instant (replace_hour start_dt 18)) slots).
  { eapply (search_slots_Forall
              (fun t => instant (replace_hour start_dt 9) <= instant t));
      [exact Hsearch|exact Hs|exact He|exact Hd| | | |].
    - lia.
    - intros t t_next Ht Hnext. rewrite (instant_add _ _ _ Hnext).
      assert (0 < 30 * MINUTE) by (vm_compute; reflexivity). lia.
    - intros t t_end b Ht [_ Hc]. simpl in Hc. lia.
    - intros t t_end Ht _ Hfit. simpl. split; assumption. }
  rewrite List.Forall_forall in Hall. apply Hall. assumption.
Qed.

Lemma search_slots_inside_business_window_witness :
  exists slots start_dt,
    smart_search "2025-05-23T10:00:00+01:00" "2025-05-23T10:30:00+01:00"
      standup_day = Ok slots
    /\ length slots = 3%nat
    /\ Forall (fun slot =>
                 instant (replace_hour start_dt 9) <= instant (fst slot)
                 /\ instant (snd slot) <= instant (replace_hour start_dt 18)) slots.
Proof.
  eexists. eexists. split; [vm_compute; reflexivity|]. split; [reflexivity|].
  apply List.Forall_forall. intros slot Hin.
  exact (search_slots_inside_business_window "2025-05-23T10:00:00+01:00"
           "2025-05-23T10:30:00+01:00" standup_day _ _ slot
           eq_refl eq_refl Hin).
Defined.

(** X3.  [get_smart_alternative_times] never returns more than three
    alternatives, and it returns none at all, without raising, when one of
    the request's own times cannot be parsed. *)
Theorem alternatives_at_most_three (original_start original_end : string)
  (conflicts : list Event) (listing : PyResult ListEventsResult) :
  (length (get_smart_alternative_times original_start original_end
             conflicts listing) <= 3)%nat
  /\ (raises (parse_iso original_start) = true
      \/ raises (parse_iso original_end) = true ->
      get_smart_alternative_times original_start original_end conflicts listing
      = []).
Proof.
  unfold get_smart_alternative_times. rewrite length_map. split.
  - unfold smart_alternative_slots.
    destruct (smart_search original_start original_end listing) as [slots|] eqn:Hsearch.
    + destruct (smart_search_ok _ _ _ _ Hsearch)
        as (_ & _ & _ & _ & _ & _ & out & _ & _ & _ & _ & _ & _ & _ & ->).
      apply firstn_le_length.
    + unfold fallback_slots, mbind, PyResult_bind, Py.bind.
      destruct (parse_iso original_start) as [start_dt|]; [|simpl; lia].
      destruct (parse_iso original_end) as [end_dt|]; [|simpl; lia].
      destruct (sub end_dt start_dt) as [duration|]; [|simpl; lia].
      destruct (fallback_loop start_dt duration [9; 12; 16]) as [l|] eqn:Hl;
        [|simpl; lia].
      apply fallback_loop_Forall in Hl as [_ Hlen]. exact Hlen.
  - intros Hbad.
    unfold smart_alternative_slots, smart_search, fallback_slots,
      mbind, PyResult_bind, Py.bind.
    destruct (parse_iso original_start) as [start_dt|]; [|reflexivity].
    destruct (parse_iso original_end) as [end_dt|]; [|reflexivity].
    destruct Hbad; discriminate.
Qed.

(** X4.  The fallback proposes only times at 09:00, 12:00 or 16:00 of the
    requested day, and never the rejected start time itself. *)
Theorem fallback_avoids_rejected_time (original_start original_end : string)
  (slot : period) :
  In slot (fallback_slots original_start original_end) ->
  exists start_dt hour,
    parse_iso original_start = Ok start_dt
    /\ In hour [9; 12; 16]
    /\ fst slot = replace_hour start_dt hour
    /\ instant (fst slot) <> instant start_dt.
Proof.
  intros Hin.
  destruct (fallback_slots_ok _ _ _ Hin)
    as (start_dt & end_dt & duration & suggestions & Hs & _ & _ & Hloop & Heq).
  rewrite Heq in Hin.
  destruct (fallback_loop_Forall _ _ _ _ Hloop) as [Hall _].
  rewrite List.Forall_forall in Hall.
  destruct (Hall slot Hin) as (hour & Hhour & Hfst & _ & Hneq).
  exists start_dt, hour. repeat split; try assumption.
  revert Hneq. unfold neq. rewrite Hfst.
  assert (Hsame : same_awareness (replace_hour start_dt hour) start_dt = true)
    by (unfold same_awareness, replace_hour; simpl; destruct (tzinfo start_dt);
        reflexivity).
  rewrite Hsame. intros Hneq Heqi. rewrite Heqi, Z.eqb_refl in Hneq. discriminate.
Qed.

Lemma fallback_avoids_rejected_time_witness :
  length (fallback_slots "2025-05-23T12:00:00+01:00" "2025-05-23T13:00:00+01:00")
  = 2%nat
  /\ Forall (fun slot =>
               exists start_dt hour,
                 parse_iso "2025-05-23T12:00:00+01:00" = Ok start_dt
                 /\ In hour [9; 12; 16]
                 /\ fst slot = replace_hour start_dt hour
                 /\ instant (fst slot) <> instant start_dt)
       (fallback_slots "2025-05-23T12:00:00+01:00" "2025-05-23T13:00:00+01:00").
Proof.
  split; [reflexivity|].
  apply List.Forall_forall. intros slot Hin.
  exact (fallback_avoids_rejected_time _ _ slot Hin).
Defined.

End FinderExtras.

(* ===================================================================== *)
(** * Further properties of the connector                                 *)
(* ===================================================================== *)

Module CalendarExtras.
Import Normalizer Calendar Examples Scenarios CalendarFacts.

Section CalendarExtras.

Context {Store : Type}.
Variable service : GoogleService Store.
Variable default_calendar_id : string.
Variable other_methods : string -> Params -> M Store Result.

Lemma no_insert_filter (sent : list Request) :
  forallb (fun r => negb (is_insert r)) sent = true ->
  List.filter is_insert sent = [].
Proof.
  induction sent as [|r sent IH]; simpl; [reflexivity|].
  intros H. apply andb_true_iff in H as [Hr Hrest].
  destruct (is_insert r); [discriminate|]. auto.
Qed.

(** X5.  [create_event] fails open: when conflicts are to be checked but
    the listing request of the check fails, the check's error result is
    not a conflict, so the event is inserted all the same, with the
    normalized times. *)
Theorem create_event_proceeds_when_check_fails
  (summary start_time end_time description location : Value)
  (calendar_id : option string) (check_for_conflicts : Value)
  (w : World Store) (s e : string) (err : Exn) :
  truthy check_for_conflicts = true ->
  ensure_iso_format_values start_time end_time = Ok (s, e) ->
  events_list service (store w)
    (calendar_or_default default_calendar_id calendar_id) s e None = Raise err ->
  exists r w' body,
    create_event service default_calendar_id summary start_time end_time
      description location calendar_id check_for_conflicts w = (Ok r, w')
    /\ b_summary body = summary /\ b_start body = s /\ b_end body = e
    /\ requests w'
       = (requests w
          ++ [ListRequest (calendar_or_default default_calendar_id calendar_id)
                s e None;
              InsertRequest (calendar_or_default default_calendar_id calendar_id)
                body])%list
    /\ store w'
       = snd (events_insert service (store w)
                (calendar_or_default default_calendar_id calendar_id) body)
    /\ (status r = Some "success"
        <-> raises (fst (events_insert service (store w)
                           (calendar_or_default default_calendar_id calendar_id)
                           body)) = false).
Proof.
  intros Hcheck Hens Hlist.
  unfold create_event. rewrite Hcheck.
  unfold check_conflicts. rewrite calendar_or_default_again.
  unfold mbind, M_bind, bindM, lift. rewrite Hens.
  unfold _check_conflicts_sync, try_except, mbind, M_bind, bindM, api_list.
  rewrite Hlist. cbn [mret M_ret ret status has_conflicts andb].
  rewrite (bool_decide_eq_false_2 (Some "error" = Some "success")) by discriminate.
  cbn [andb].
  unfold _create_event_sync, try_except, mbind, M_bind, bindM, api_insert.
  cbn [store heap requests conversation_state outbox].
  match goal with
  | |- context [events_insert service (store w) ?c ?b] =>
      exists (match fst (events_insert service (store w) c b) with
              | Ok event => Created "Event created successfully" (created_entry event)
              | Raise e0 => Error ("Failed to create event: " ++ str_of_exn e0)
              end);
      exists (mk_World (heap w) (snd (events_insert service (store w) c b))
                ((requests w ++ [ListRequest c s e None])
                 ++ [InsertRequest c b])%list
                (conversation_state w) (outbox w));
      exists b;
      destruct (events_insert service (store w) c b) as [[event|e0] store'] eqn:Hins
  end.
  - cbn [fst snd mret M_ret ret]. split; [reflexivity|].
    repeat split; try reflexivity.
    cbn [requests]. rewrite <- app_assoc. reflexivity.
  - cbn [fst snd mret M_ret ret]. split; [reflexivity|].
    repeat split; try reflexivity; try discriminate.
    cbn [requests]. rewrite <- app_assoc. reflexivity.
Qed.

Lemma ensure_values_raise (start_time end_time : Value) (err : Exn) :
  ensure_iso_format_values start_time end_time = Raise err ->
  err = ValueError "Both start_time and end_time must be provided"
  \/ err = AttributeError "object has no attribute 'endswith'".
Proof.
  unfold ensure_iso_format_values, _ensure_iso_format.
  destruct (negb (truthy start_time) || negb (truthy end_time));
    [intros [= <-]; left; reflexivity|].
  destruct start_time, end_time; try (intros [= <-]; right; reflexivity).
  destruct (falsy (Some s) || falsy (Some s0)); [|discriminate].
  intros [= <-]. left. reflexivity.
Qed.

(** The two ways the part of [create_event] after the conflict check can
    go: the times are refused before anything is sent, or one insert
    request is sent. *)
Lemma create_path_cases (summary start_time end_time description location : Value)
  (cal : string) (w0 w' : World Store) (res : PyResult Result) :
  ('(s, e) ← lift (ensure_iso_format_values start_time end_time);
   _create_event_sync service summary s e description location cal) w0
  = (res, w') ->
  (exists err, ensure_iso_format_values start_time end_time = Raise err
               /\ res = Raise err /\ w' = w0)
  \/ (exists r body,
        res = Ok r
        /\ (status r = Some "success"
            <-> raises (fst (events_insert service (store w0) cal body)) = false)
        /\ (status r = Some "success" \/ status r = Some "error")
        /\ b_summary body = summary
        /\ w' = mk_World (heap w0)
                  (snd (events_insert service (store w0) cal body))
                  (requests w0 ++ [InsertRequest cal body])%list
                  (conversation_state w0) (outbox w0)).
Proof.
  unfold mbind, M_bind, bindM, lift.
  destruct (ensure_iso_format_values start_time end_time) as [[s e]|err].
  - unfold _create_event_sync, try_except, mbind, M_bind, bindM, api_insert.
    match goal with
    | |- context [events_insert service (store w0) ?c ?b] =>
        destruct (events_insert service (store w0) c b) as [[event|e0] store'] eqn:Hins;
        intros [= <- <-]; right; eexists; exists b; rewrite Hins
    end.
    + split; [reflexivity|]. split; [split; reflexivity|].
      split; [left; reflexivity|]. split; reflexivity.
    + split; [reflexivity|]. split; [split; discriminate|].
      split; [right; reflexivity|]. split; reflexivity.
  - intros [= <- <-]. left. exists err. repeat split.
Qed.

(** All the ways [create_event] can go. *)
Lemma create_event_cases
  (summary start_time end_time description location : Value)
  (calendar_id : option string) (check_for_conflicts : Value)
  (w w' : World Store) (res : PyResult Result) :
  create_event service default_calendar_id summary start_time end_time
    description location calendar_id check_for_conflicts w = (res, w') ->
  (exists err, ensure_iso_format_values start_time end_time = Raise err
               /\ res = Raise err /\ w' = w)
  \/ (exists message found s e,
        res = Ok (Conflict message found) /\ found <> []
        /\ truthy check_for_conflicts = true
        /\ w' = mk_World (heap w) (store w)
                  (requests w
                   ++ [ListRequest
                         (calendar_or_default default_calendar_id calendar_id)
                         s e None])%list
                  (conversation_state w) (outbox w))
  \/ (exists r body listing,
        res = Ok r
        /\ (status r = Some "success"
            <-> raises (fst (events_insert service (store w)
                  (calendar_or_default default_calendar_id calendar_id) body))
                = false)
        /\ (status r = Some "success" \/ status r = Some "error")
        /\ b_summary body = summary
        /\ ((listing = [] /\ truthy check_for_conflicts = false)
            \/ (truthy check_for_conflicts = true
                /\ exists s e,
                  listing = [ListRequest
                               (calendar_or_default default_calendar_id calendar_id)
                               s e None]))
        /\ w' = mk_World (heap w)
                  (snd (events_insert service (store w)
                     (calendar_or_default default_calendar_id calendar_id) body))
                  (requests w ++ listing
                   ++ [InsertRequest
                         (calendar_or_default default_calendar_id calendar_id)
                         body])%list
                  (conversation_state w) (outbox w)).
Proof.
  unfold create_event.
  destruct (truthy check_for_conflicts) eqn:Hcheck.
  - unfold check_conflicts at 1. rewrite calendar_or_default_again.
    unfold mbind at 1, M_bind at 1, bindM at 1.
    unfold mbind at 1, M_bind at 1, bindM at 1, lift at 1.
    destruct (ensure_iso_format_values start_time end_time) as [[s e]|err] eqn:Hens.
    + unfold _check_conflicts_sync, try_except at 1.
      unfold mbind at 1, M_bind at 1, bindM at 1, api_list.
      destruct (events_list service (store w) _ s e None) as [evs|err].
      * cbn [mret M_ret ret status has_conflicts].
        rewrite (bool_decide_eq_true_2 (Some "success" = Some "success")) by reflexivity.
        destruct evs as [|ev evs].
        -- cbn [map length Nat.ltb Nat.leb andb]. intros Hrun.
           rewrite <- Hens in Hrun.
           apply create_path_cases in Hrun
             as [(err & Herr & _)|(r & body & -> & Hiff & Hst & Hsum & ->)];
             [congruence|].
           right. right. exists r, body. eexists.
           split; [reflexivity|]. split; [exact Hiff|]. split; [exact Hst|].
           split; [exact Hsum|].
           split; [right; split; [reflexivity|]; exists s, e; reflexivity|].
           cbn [heap store requests conversation_state outbox].
           rewrite <- app_assoc. reflexivity.
        -- cbn [map length Nat.ltb Nat.leb andb mret M_ret ret conflicts_of].
           intros [= <- <-]. right. left. do 2 eexists. exists s, e.
           split; [reflexivity|]. split; [discriminate|]. split; reflexivity.
      * cbn [mret M_ret ret status has_conflicts].
        rewrite (bool_decide_eq_false_2 (Some "error" = Some "success")) by discriminate.
        cbn [andb]. intros Hrun. rewrite <- Hens in Hrun.
        apply create_path_cases in Hrun
          as [(err' & Herr & _)|(r & body & -> & Hiff & Hst & Hsum & ->)];
          [congruence|].
        right. right. exists r, body. eexists.
        split; [reflexivity|]. split; [exact Hiff|]. split; [exact Hst|].
        split; [exact Hsum|].
        split; [right; split; [reflexivity|]; exists s, e; reflexivity|].
        cbn [heap store requests conversation_state outbox].
        rewrite <- app_assoc. reflexivity.
    + intros [= <- <-]. left. exists err. repeat split.
  - intros Hrun.
    apply create_path_cases in Hrun
      as [(err & Herr & -> & ->)|(r & body & -> & Hiff & Hst & Hsum & ->)].
    + left. exists err. repeat split. exact Herr.
    + right. right. exists r, body, [].
      split; [reflexivity|]. split; [exact Hiff|]. split; [exact Hst|].
      split; [exact Hsum|]. split; [left; split; reflexivity|]. reflexivity.
Qed.

(** X6.  Asked through [execute] to create an event whose start or end
    time is missing ([None], an empty string, zero or [False]), the
    connector answers with the error of the normalizer and sends nothing:
    no listing request, no insert, whatever [check_for_conflicts] says. *)
Theorem create_event_without_times_sends_nothing
  (params : Params) (summary start_time end_time : Value) (w : World Store) :
  only_keys ["summary"; "start_time"; "end_time"; "description"; "location";
             "calendar_id"; "check_for_conflicts"] params = true ->
  params !! "summary" = Some summary ->
  params !! "start_time" = Some start_time ->
  params !! "end_time" = Some end_time ->
  truthy start_time = false \/ truthy end_time = false ->
  execute service default_calendar_id other_methods "create_event" params w
  = (Ok (ErrorOnly "Both start_time and end_time must be provided"), w).
Proof.
  intros Hkeys Hsummary Hstart Hend Hmissing.
  assert (Hens : ensure_iso_format_values start_time end_time
                 = Raise (ValueError "Both start_time and end_time must be provided")).
  { unfold ensure_iso_format_values.
    destruct Hmissing as [-> | ->]; [reflexivity|].
    rewrite orb_true_r. reflexivity. }
  unfold execute.
  change (negb (bool_decide ("create_event" ∈ method_map))) with false.
  cbn [String.eqb Ascii.eqb Bool.eqb]. unfold try_except, call_create_event.
  rewrite Hkeys, Hsummary, Hstart, Hend. cbn [negb].
  unfold create_event.
  destruct (truthy (default (VBool true) (params !! "check_for_conflicts"))).
  - unfold check_conflicts, mbind, M_bind, bindM, lift. rewrite Hens. reflexivity.
  - unfold mbind, M_bind, bindM, lift. rewrite Hens. reflexivity.
Qed.


(** What a conflict check leaves behind, whatever its outcome. *)
Lemma check_conflicts_footprint (start_time end_time : Value)
  (calendar_id : option string) (w w' : World Store) (res : PyResult Result) :
  check_conflicts service default_calendar_id start_time end_time calendar_id w
  = (res, w') ->
  exists sent,
    w' = mk_World (heap w) (store w) (requests w ++ sent)%list
           (conversation_state w) (outbox w)
    /\ (length sent <= 1)%nat
    /\ List.filter is_insert sent = []
    /\ (raises res = true -> sent = []).
Proof.
  unfold check_conflicts, mbind, M_bind, bindM, lift.
  destruct (ensure_iso_format_values start_time end_time) as [[s e]|err].
  - unfold _check_conflicts_sync, try_except, mbind, M_bind, bindM, api_list.
    destruct (events_list service (store w) _ s e None) as [evs|err];
      intros [= <- <-]; eexists; (split; [reflexivity|]);
      (split; [simpl; lia|]); (split; [reflexivity|]); discriminate.
  - intros [= <- <-]. exists []. rewrite app_nil_r.
    split; [destruct w; reflexivity|]. split; [simpl; lia|].
    split; reflexivity.
Qed.

(** X8.  A conflict check is read-only and its result is consistent: it
    sends at most one listing request and never an insert, leaves the
    calendar and everything else as they are, raises only before sending
    anything, and in its result [count] is the number of [conflicts] and
    [has_conflicts] says whether there is one. *)
Theorem check_conflicts_read_only_and_consistent
  (start_time end_time : Value) (calendar_id : option string) (w : World Store) :
  exists res w' sent,
    check_conflicts service default_calendar_id start_time end_time calendar_id w
    = (res, w')
    /\ w' = mk_World (heap w) (store w) (requests w ++ sent)%list
              (conversation_state w) (outbox w)
    /\ (length sent <= 1)%nat
    /\ List.filter is_insert sent = []
    /\ (raises res = true -> sent = [])
    /\ (forall r, res = Ok r ->
        count_of r = length (conflicts_of r)
        /\ (has_conflicts r = true <-> conflicts_of r <> [])
        /\ (status r = Some "success"
            \/ (status r = Some "error" /\ conflicts_of r = []))).
Proof.
  unfold check_conflicts, mbind, M_bind, bindM, lift.
  destruct (ensure_iso_format_values start_time end_time) as [[s e]|err].
  - unfold _check_conflicts_sync, try_except, mbind, M_bind, bindM, api_list.
    destruct (events_list service (store w) _ s e None) as [evs|err].
    + do 3 eexists. split; [reflexivity|]. split; [reflexivity|].
      split; [simpl; lia|]. split; [reflexivity|]. split; [discriminate|].
      intros r [= <-]. cbn [count_of conflicts_of has_conflicts status].
      split; [reflexivity|]. split; [|left; reflexivity].
      destruct evs; simpl; split; intros H;
        first [discriminate | reflexivity | exfalso; apply H; reflexivity].
    + do 3 eexists. split; [reflexivity|]. split; [reflexivity|].
      split; [simpl; lia|]. split; [reflexivity|]. split; [discriminate|].
      intros r [= <-]. cbn [count_of conflicts_of has_conflicts status].
      split; [reflexivity|].
      split; [split; intros H; [discriminate|exfalso; apply H; reflexivity]|].
      right. split; reflexivity.
  - exists (Raise err), w, []. rewrite app_nil_r.
    split; [destruct w; reflexivity|]. split; [destruct w; reflexivity|].
    split; [simpl; lia|]. split; [reflexivity|]. split; [reflexivity|].
    intros r [=].
Qed.

(** X9.  [list_events] needs both bounds: without one of them it raises
    before any request, the defaults reading an attribute that
    [TimeConverter] does not have.  With both it never raises once the
    bounds are non-empty, sends exactly one listing request for the
    normalized bounds, and returns one entry per event of the remote
    answer, in the same order and with the same ids. *)
Theorem list_events_one_request_per_listing
  (time_min time_max : option string) (max_results : Z)
  (calendar_id : option string) (w : World Store) :
  exists res w' sent,
    list_events service default_calendar_id time_min time_max max_results
      calendar_id w = (res, w')
    /\ w' = mk_World (heap w) (store w) (requests w ++ sent)%list
              (conversation_state w) (outbox w)
    /\ (raises res = true ->
        sent = [] /\ (falsy time_min || falsy time_max = true))
    /\ (forall r, res = Ok r ->
        exists lo hi,
          time_min = Some lo /\ time_max = Some hi
          /\ sent = [ListRequest (calendar_or_default default_calendar_id calendar_id)
                       (format_time lo) (format_time hi) (Some max_results)]
          /\ match events_list service (store w)
                     (calendar_or_default default_calendar_id calendar_id)
                     (format_time lo) (format_time hi) (Some max_results) with
             | Ok remote_events =>
                 exists listed,
                   r = ListSuccess (length remote_events) listed
                   /\ map f_id listed = map g_id remote_events
             | Raise err => status r = Some "error"
             end).
Proof.
  unfold list_events.
  destruct time_min as [lo|]; [destruct time_max as [hi|]|].
  - unfold mbind, M_bind, bindM, lift, _ensure_iso_format.
    destruct (falsy (Some lo) || falsy (Some hi)) eqn:Hfalsy.
    + exists (Raise (ValueError "Both start_time and end_time must be provided")),
        w, []. rewrite app_nil_r.
      split; [reflexivity|]. split; [destruct w; reflexivity|].
      split; [intros _; split; reflexivity|]. intros r [=].
    + unfold _list_events_sync, try_except, mbind, M_bind, bindM, api_list.
      destruct (events_list service (store w) _ (format_time lo) (format_time hi)
                  (Some max_results)) as [evs|err] eqn:Hlist.
      * do 3 eexists. split; [reflexivity|]. split; [reflexivity|].
        split; [discriminate|]. intros r [= <-]. exists lo, hi.
        split; [reflexivity|]. split; [reflexivity|]. split; [reflexivity|].
        rewrite Hlist. eexists. rewrite length_map. split; [reflexivity|].
        rewrite map_map. reflexivity.
      * do 3 eexists. split; [reflexivity|]. split; [reflexivity|].
        split; [discriminate|]. intros r [= <-]. exists lo, hi.
        split; [reflexivity|]. split; [reflexivity|]. split; [reflexivity|].
        rewrite Hlist. reflexivity.
  - eexists. exists w, []. rewrite app_nil_r.
    split; [reflexivity|]. split; [destruct w; reflexivity|].
    split; [intros _; split; [reflexivity|apply orb_true_r]|]. intros r [=].
  - eexists. exists w, []. rewrite app_nil_r.
    split; [reflexivity|]. split; [destruct w; reflexivity|].
    split; [intros _; split; reflexivity|]. intros r [=].
Qed.

(** X10.  [execute] turns every failure into a result: it never raises,
    whatever the method does, and a method it does not know is refused
    with an error and without touching anything. *)
Theorem execute_never_raises (method : string) (params : Params)
  (w : World Store) :
  exists r w',
    execute service default_calendar_id other_methods method params w = (Ok r, w')
    /\ (method ∉ method_map ->
        r = ErrorOnly ("Unknown method: " ++ method) /\ w' = w)
    /\ (forall e w1,
          method ∈ method_map -> method <> "create_event" ->
          method <> "check_conflicts" ->
          other_methods method params w = (Raise e, w1) ->
          r = ErrorOnly (str_of_exn e) /\ w' = w1).
Proof.
  unfold execute.
  destruct (bool_decide (method ∈ method_map)) eqn:Hknown.
  - apply bool_decide_eq_true in Hknown. cbn [negb]. unfold try_except.
    destruct (String.eqb method "create_event") eqn:Hcreate.
    { apply String.eqb_eq in Hcreate.
      match goal with
      | |- context [match ?m w with _ => _ end] => destruct (m w) as [[r|e] w']
      end; do 2 eexists; (split; [reflexivity|]); split; try tauto;
        intros; congruence. }
    destruct (String.eqb method "check_conflicts") eqn:Hcheck.
    { apply String.eqb_eq in Hcheck.
      match goal with
      | |- context [match ?m w with _ => _ end] => destruct (m w) as [[r|e] w']
      end; do 2 eexists; (split; [reflexivity|]); split; try tauto;
        intros; congruence. }
    destruct (other_methods method params w) as [[r|e] w'] eqn:Hother;
      do 2 eexists; (split; [reflexivity|]); split; try tauto.
    + intros e w1 _ _ _ [=].
    + intros e' w1 _ _ _ [= <- <-]. split; reflexivity.
  - apply bool_decide_eq_false in Hknown. cbn [negb].
    do 2 eexists. split; [reflexivity|]. split.
    + intros _. split; reflexivity.
    + intros e w1 Hin. contradiction.
Qed.

End CalendarExtras.

Lemma create_event_without_times_sends_nothing_witness :
  execute remote "primary" no_other_methods "create_event"
    (<["summary" := VStr "Sync"]>
       (<["start_time" := VStr ""]>
          (<["end_time" := VStr "2025-05-23T15:00:00+01:00"]>
             (<["check_for_conflicts" := VBool true]> ∅))))
    quiet_world
  = (Ok (ErrorOnly "Both start_time and end_time must be provided"), quiet_world).
Proof.
  apply (create_event_without_times_sends_nothing remote "primary"
           no_other_methods _ (VStr "Sync") (VStr "")
           (VStr "2025-05-23T15:00:00+01:00")).
  - vm_compute. reflexivity.
  - vm_compute. reflexivity.
  - vm_compute. reflexivity.
  - vm_compute. reflexivity.
  - left. reflexivity.
Defined.

Lemma create_event_proceeds_when_check_fails_witness :
  exists r w' body,
    create_event unlistable_remote "primary" (VStr "Sync")
      (VStr "2025-05-23T14:00:00+01:00") (VStr "2025-05-23T15:00:00+01:00")
      (VStr "") (VStr "") None (VBool true) quiet_world = (Ok r, w')
    /\ b_summary body = VStr "Sync"
    /\ b_start body = "2025-05-23T14:00:00+01:00"
    /\ b_end body = "2025-05-23T15:00:00+01:00"
    /\ requests w'
       = [ListRequest "primary" "2025-05-23T14:00:00+01:00"
            "2025-05-23T15:00:00+01:00" None;
          InsertRequest "primary" body]
    /\ store w' = (stored_events ++ [event_of_body body])%list
    /\ (status r = Some "success" <-> false = false).
Proof.
  exact (create_event_proceeds_when_check_fails unlistable_remote "primary"
           (VStr "Sync") (VStr "2025-05-23T14:00:00+01:00")
           (VStr "2025-05-23T15:00:00+01:00") (VStr "") (VStr "") None
           (VBool true) quiet_world _ _ (OtherError "HttpError 500: internal error")
           eq_refl eq_refl eq_refl).
Defined.

End CalendarExtras.

(* ===================================================================== *)
(** * Further properties of the planner                                   *)
(* ===================================================================== *)

Module PlannerExtras.
Import Normalizer Calendar Planner Examples Scenarios CalendarFacts
  NormalizerFacts PlannerFacts CalendarExtras.

Section PlannerExtras.

Context {Store : Type}.
Variable service : GoogleService Store.
Variable default_calendar_id : string.

(** What the validation of one action leaves behind, whatever its
    outcome. *)
Lemma validate_action_frame (r : ref) (w w' : World Store)
  (res : PyResult (option ActionConflict)) :
  validate_action service default_calendar_id r w = (res, w') ->
  store w' = store w
  /\ conversation_state w' = conversation_state w
  /\ outbox w' = outbox w
  /\ (forall r', r' <> r -> heap w' !! r' = heap w !! r')
  /\ exists sent,
      requests w' = (requests w ++ sent)%list
      /\ List.filter is_insert sent = []
      /\ (length sent <= 1)%nat.
Proof.
  assert (Hsame : forall w0 : World Store,
    store w0 = store w0
    /\ conversation_state w0 = conversation_state w0
    /\ outbox w0 = outbox w0
    /\ (forall r', r' <> r -> heap w0 !! r' = heap w0 !! r')
    /\ exists sent,
        requests w0 = (requests w0 ++ sent)%list
        /\ List.filter is_insert sent = []
        /\ (length sent <= 1)%nat).
  { intros w0. repeat split. exists []. rewrite app_nil_r.
    repeat split. simpl. lia. }
  unfold validate_action. intros H.
  apply bindM_inv in H as [(a & w0 & Hread & H)|(e & Hread & ->)].
  2: { unfold read in Hread. destruct (heap w !! r); [discriminate|].
       injection Hread as _ <-. apply Hsame. }
  apply read_ok in Hread as [Ha ->].
  destruct (String.eqb (Model.service a) "calendar"
            && String.eqb (method a) "create_event");
    [|injection H as <- <-; apply Hsame].
  destruct (truthy (default VNone (params a !! "start_time"))
            && truthy (default VNone (params a !! "end_time")));
    [|injection H as <- <-; apply Hsame].
  apply bindM_inv in H as [([s' e'] & w1 & Hens & H)|(e & Hens & ->)].
  2: { unfold lift in Hens. injection Hens as _ <-. apply Hsame. }
  unfold lift in Hens. injection Hens as Hens <-.
  rewrite (bindM_step _ _ _ _ _ (set_param_ok r _ _ w a Ha)) in H.
  erewrite bindM_step in H;
    [|apply set_param_ok; simpl; apply lookup_insert_eq].
  cbn [Model.service method params] in H.
  unfold with_heap in H.
  cbn [heap store requests conversation_state outbox] in H.
  rewrite insert_insert_eq in H.
  assert (Hdone : forall (w3 : World Store) sent,
    w3 = mk_World
           (<[r := mk_Action (Model.service a) (method a)
                     (<["end_time" := VStr e']>
                        (<["start_time" := VStr s']> (params a)))]> (heap w))
           (store w) (requests w ++ sent)%list (conversation_state w) (outbox w) ->
    (length sent <= 1)%nat -> List.filter is_insert sent = [] ->
    store w3 = store w
    /\ conversation_state w3 = conversation_state w
    /\ outbox w3 = outbox w
    /\ (forall r', r' <> r -> heap w3 !! r' = heap w !! r')
    /\ exists sent0,
        requests w3 = (requests w ++ sent0)%list
        /\ List.filter is_insert sent0 = []
        /\ (length sent0 <= 1)%nat).
  { intros w3 sent -> Hlen Hfil. cbn [heap store requests conversation_state outbox].
    split; [reflexivity|]. split; [reflexivity|]. split; [reflexivity|].
    split; [intros r' Hr'; apply lookup_insert_ne; congruence|].
    exists sent. repeat split; assumption. }
  apply bindM_inv in H as [(reported & w3 & Hcheck & H)|(e & Hcheck & ->)].
  - apply check_conflicts_footprint in Hcheck as (sent & Hw3 & Hlen & Hfil & _).
    cbn [heap store requests conversation_state outbox] in Hw3.
    destruct (bool_decide (status reported = Some "success")
              && has_conflicts reported);
      injection H as <- <-; eapply Hdone; eassumption.
  - apply check_conflicts_footprint in Hcheck as (sent & Hw3 & Hlen & Hfil & _).
    cbn [heap store requests conversation_state outbox] in Hw3.
    eapply Hdone; eassumption.
Qed.

Lemma validate_loop_frame (refs : list ref) :
  forall (w w' : World Store) (res : PyResult (list ActionConflict)),
  validate_loop service default_calendar_id refs w = (res, w') ->
  store w' = store w
  /\ conversation_state w' = conversation_state w
  /\ outbox w' = outbox w
  /\ (forall r', ~ In r' refs -> heap w' !! r' = heap w !! r')
  /\ exists sent,
      requests w' = (requests w ++ sent)%list
      /\ List.filter is_insert sent = []
      /\ (length sent <= length refs)%nat.
Proof.
  induction refs as [|r rest IH]; intros w w' res H.
  - injection H as <- <-. repeat split. exists []. rewrite app_nil_r.
    repeat split. simpl. lia.
  - cbn [validate_loop] in H.
    apply bindM_inv in H as [(this & w1 & Hthis & H)|(e & Hthis & ->)].
    + apply validate_action_frame in Hthis
        as (S1 & C1 & O1 & H1 & sent1 & Q1 & F1 & L1).
      assert (Hrest : exists res2, validate_loop service default_calendar_id rest w1
                                   = (res2, w')).
      { apply bindM_inv in H as [(more & w2 & Hmore & H)|(e & Hmore & ->)].
        - injection H as <- <-. eexists. exact Hmore.
        - eexists. exact Hmore. }
      destruct Hrest as [res2 Hrest].
      apply IH in Hrest as (S2 & C2 & O2 & H2 & sent2 & Q2 & F2 & L2).
      split; [congruence|]. split; [congruence|]. split; [congruence|].
      split.
      * intros r' Hr'. rewrite H2, H1; [reflexivity| |]; intros Hx; apply Hr';
          [left; congruence|right; assumption].
      * exists (sent1 ++ sent2)%list. rewrite Q2, Q1, <- app_assoc.
        split; [reflexivity|]. rewrite List.filter_app, F1, F2, length_app.
        split; [reflexivity|]. simpl. lia.
    + apply validate_action_frame in Hthis
        as (S1 & C1 & O1 & H1 & sent1 & Q1 & F1 & L1).
      split; [assumption|]. split; [assumption|]. split; [assumption|].
      split.
      * intros r' Hr'. apply H1. intros ->. apply Hr'. left. reflexivity.
      * exists sent1. repeat split; try assumption. simpl. lia.
Qed.

(** The references [build_actions] hands out are new. *)
Lemma build_actions_fresh (proposed : list ActionData) :
  forall (w w1 : World Store) (refs : list ref),
  build_actions proposed w = (Ok refs, w1) ->
  Forall (fun r => heap w !! r = None) refs
  /\ length refs = length proposed.
Proof.
  induction proposed as [|action_data rest IH]; intros w w1 refs H.
  - injection H as <- <-. split; [constructor|reflexivity].
  - cbn [build_actions] in H.
    apply bindM_ok in H as (r & w0 & Halloc & H).
    apply bindM_ok in H as (more & w2 & Hmore & H).
    apply mret_inv in H as [<- <-].
    unfold alloc in Halloc. injection Halloc as <- <-.
    apply IH in Hmore as [Hfresh Hlen].
    split; [|simpl; congruence].
    constructor.
    + apply not_elem_of_dom. apply is_fresh.
    + eapply Forall_impl; [exact Hfresh|]. simpl. intros r Hr.
      unfold with_heap in Hr. cbn [heap] in Hr.
      apply lookup_insert_None in Hr as [Hr _]. exact Hr.
Qed.

(** X11.  Planning only reads the calendar: whatever the language model
    proposes and however the plan comes out, [plan] sends no insert
    request, at most one listing request per proposed action, leaves the
    calendar, the dialogs and the outbox as they are, and does not touch
    the [Action] objects that existed before. *)
Theorem plan_only_reads_the_calendar (result : PlanResult) (w : World Store) :
  exists res w' sent,
    plan service default_calendar_id result w = (res, w')
    /\ store w' = store w
    /\ conversation_state w' = conversation_state w
    /\ outbox w' = outbox w
    /\ requests w' = (requests w ++ sent)%list
    /\ List.filter is_insert sent = []
    /\ (length sent <= length (r_actions result))%nat
    /\ (forall r a, heap w !! r = Some a -> heap w' !! r = Some a).
Proof.
  unfold plan.
  destruct (build_actions_spec (r_actions result) w)
    as (refs & w1 & Hbuild & S1 & C1 & O1 & Q1 & _ & Hkeep).
  destruct (build_actions_fresh _ _ _ _ Hbuild) as [Hfresh Hlen].
  rewrite (bindM_step _ _ _ _ _ Hbuild).
  unfold mbind at 1, M_bind at 1, bindM at 1.
  assert (Hquiet : exists sent,
    store w1 = store w /\ conversation_state w1 = conversation_state w
    /\ outbox w1 = outbox w /\ requests w1 = (requests w ++ sent)%list
    /\ List.filter is_insert sent = []
    /\ (length sent <= length (r_actions result))%nat
    /\ (forall r a, heap w !! r = Some a -> heap w1 !! r = Some a)).
  { exists []. rewrite app_nil_r. repeat split; try assumption. simpl. lia. }
  destruct (filter (fun r0 => is_calendar_action w1 r0 = true) refs)
    as [|r1 calendar_actions].
  { destruct Hquiet as (sent & Hq). do 2 eexists. exists sent.
    split; [reflexivity|]. exact Hq. }
  clear Hquiet.
  destruct (validate_calendar_actions service default_calendar_id refs w1)
    as [val w2] eqn:Hval.
  assert (Hframe : store w2 = store w1
    /\ conversation_state w2 = conversation_state w1
    /\ outbox w2 = outbox w1
    /\ (forall r', ~ In r' refs -> heap w2 !! r' = heap w1 !! r')
    /\ exists sent,
        requests w2 = (requests w1 ++ sent)%list
        /\ List.filter is_insert sent = []
        /\ (length sent <= length refs)%nat).
  { unfold validate_calendar_actions in Hval.
    apply bindM_inv in Hval as [(found & w3 & Hloop & Hval)|(e & Hloop & _)].
    - injection Hval as _ <-. eapply validate_loop_frame. exact Hloop.
    - eapply validate_loop_frame. exact Hloop. }
  destruct Hframe as (S2 & C2 & O2 & H2 & sent & Q2 & F2 & L2).
  assert (Hres : exists res,
    (validation_result ← validate_calendar_actions service default_calendar_id refs;
     if negb (valid validation_result)
     then mret (mk_ActionPlan refs
                  (r_summary result ++ conflict_details (v_conflicts validation_result))
                  true)
     else mret (mk_ActionPlan refs (r_summary result)
                  (r_requires_verification result))) w1 = (res, w2)).
  { unfold mbind, M_bind, bindM. rewrite Hval.
    destruct val as [validation|e]; [|eexists; reflexivity].
    destruct (negb (valid validation)); eexists; reflexivity. }
  destruct Hres as [res Hres]. exists res, w2, sent.
  split; [exact Hres|]. split; [congruence|]. split; [congruence|].
  split; [congruence|]. split; [congruence|]. split; [assumption|].
  split; [lia|].
  intros r a Ha. rewrite H2; [apply Hkeep; assumption|].
  intros Hin. rewrite List.Forall_forall in Hfresh.
  specialize (Hfresh r Hin). congruence.
Qed.

Lemma validate_action_skips (r : ref) (a : Action) (w : World Store) :
  heap w !! r = Some a ->
  is_checked_creation a = false ->
  validate_action service default_calendar_id r w = (Ok None, w).
Proof.
  intros Ha Hskip. unfold validate_action.
  erewrite bindM_step; [|unfold read; rewrite Ha; reflexivity].
  unfold is_checked_creation in Hskip.
  destruct (String.eqb (Model.service a) "calendar"
            && String.eqb (method a) "create_event"); [|reflexivity].
  cbn [andb] in Hskip. rewrite Hskip. reflexivity.
Qed.

Lemma validate_loop_skips (refs : list ref) (w : World Store) :
  Forall (fun r => exists a, heap w !! r = Some a
                             /\ is_checked_creation a = false) refs ->
  validate_loop service default_calendar_id refs w = (Ok [], w).
Proof.
  induction 1 as [|r rest (a & Ha & Hskip) _ IH]; [reflexivity|].
  cbn [validate_loop].
  rewrite (bindM_step _ _ _ _ _ (validate_action_skips r a w Ha Hskip)).
  rewrite (bindM_step _ _ _ _ _ IH). reflexivity.
Qed.

(** X12.  A proposal without a calendar creation that carries both its
    times goes through planning untouched: the plan has the proposed
    actions with their parameters, the proposed summary and verification
    flag, and no request was sent to the calendar. *)
Theorem plan_without_checked_creation_is_the_proposal
  (result : PlanResult) (w : World Store) :
  Forall (fun action_data => is_checked_creation (action_of action_data) = false)
    (r_actions result) ->
  exists p w',
    plan service default_calendar_id result w = (Ok p, w')
    /\ summary p = r_summary result
    /\ requires_verification p = r_requires_verification result
    /\ Forall2 (fun action_data r => heap w' !! r = Some (action_of action_data))
         (r_actions result) (actions p)
    /\ requests w' = requests w
    /\ store w' = store w.
Proof.
  intros Hskip. unfold plan.
  destruct (build_actions_spec (r_actions result) w)
    as (refs & w1 & Hbuild & S1 & _ & _ & Q1 & Hall & _).
  rewrite (bindM_step _ _ _ _ _ Hbuild).
  unfold mbind at 1, M_bind at 1, bindM at 1.
  assert (Hloop : validate_loop service default_calendar_id refs w1 = (Ok [], w1)).
  { apply validate_loop_skips. clear -Hall Hskip.
    induction Hall as [|ad r ads rs Hr _ IH]; [constructor|].
    inversion Hskip as [|? ? Had Hads]; subst.
    constructor; [|apply IH; assumption].
    exists (action_of ad). split; assumption. }
  exists (mk_ActionPlan refs (r_summary result) (r_requires_verification result)), w1.
  split.
  - destruct (filter (fun r0 => is_calendar_action w1 r0 = true) refs);
      [reflexivity|].
    unfold validate_calendar_actions.
    unfold mbind, M_bind, bindM. rewrite Hloop. reflexivity.
  - split; [reflexivity|]. split; [reflexivity|]. split; [exact Hall|].
    split; assumption.
Qed.

Lemma check_conflicts_returns (s e : string) (calendar_id : option string)
  (w : World Store) :
  falsy (Some s) = false -> falsy (Some e) = false ->
  exists r w',
    check_conflicts service default_calendar_id (VStr s) (VStr e) calendar_id w
    = (Ok r, w').
Proof.
  intros Hs He. unfold check_conflicts, mbind, M_bind, bindM, lift.
  rewrite (ensure_values_strings s e Hs He).
  unfold _check_conflicts_sync, try_except, mbind, M_bind, bindM, api_list.
  destruct (events_list service (store w) _ _ _ None); do 2 eexists; reflexivity.
Qed.

Lemma string_or_falsy_truthy (v : option Value) :
  string_or_falsy v = true -> truthy (default VNone v) = true ->
  exists s, v = Some (VStr s) /\ falsy (Some s) = false.
Proof.
  destruct v as [[|b|n|s]|];
    cbn [string_or_falsy truthy default from_option id]; intros Hv Ht;
    try discriminate.
  - rewrite Ht in Hv. discriminate.
  - rewrite Ht in Hv. discriminate.
  - exists s. split; [reflexivity|].
    destruct (falsy (Some s)); [discriminate|reflexivity].
Qed.

Lemma validate_action_returns (r : ref) (a : Action) (w : World Store) :
  heap w !! r = Some a ->
  has_string_times a = true ->
  exists res w' a',
    validate_action service default_calendar_id r w = (Ok res, w')
    /\ heap w' !! r = Some a'
    /\ has_string_times a' = true
    /\ (forall r', r' <> r -> heap w' !! r' = heap w !! r').
Proof.
  intros Ha Hgood. unfold validate_action.
  erewrite bindM_step; [|unfold read; rewrite Ha; reflexivity].
  destruct (String.eqb (Model.service a) "calendar"
            && String.eqb (method a) "create_event");
    [|exists None, w, a; repeat split; assumption].
  destruct (truthy (default VNone (params a !! "start_time"))
            && truthy (default VNone (params a !! "end_time"))) eqn:Htruthy;
    [|exists None, w, a; repeat split; assumption].
  apply andb_true_iff in Htruthy as [Hts Hte].
  unfold has_string_times in Hgood. apply andb_true_iff in Hgood as [Hgs Hge].
  destruct (string_or_falsy_truthy _ Hgs Hts) as (s & Hs & Hfs).
  destruct (string_or_falsy_truthy _ Hge Hte) as (e & He & Hfe).
  rewrite Hs, He. cbn [default from_option id].
  erewrite bindM_step;
    [|unfold lift; rewrite (ensure_values_strings s e Hfs Hfe); reflexivity].
  cbv beta iota.
  rewrite (bindM_step _ _ _ _ _ (set_param_ok r _ _ w a Ha)).
  erewrite bindM_step;
    [|apply set_param_ok; simpl; apply lookup_insert_eq].
  cbn [Model.service method params].
  unfold with_heap.
  cbn [heap store requests conversation_state outbox].
  rewrite insert_insert_eq.
  set (w2 := mk_World
               (<[r := mk_Action (Model.service a) (method a)
                         (<["end_time" := VStr (format_time e)]>
                            (<["start_time" := VStr (format_time s)]> (params a)))]>
                  (heap w))
               (store w) (requests w) (conversation_state w) (outbox w)).
  destruct (check_conflicts_returns (format_time s) (format_time e) None w2
              (format_time_nonempty _ Hfs) (format_time_nonempty _ Hfe))
    as (reported & w3 & Hcheck).
  pose proof (check_conflicts_footprint _ _ _ _ _ _ _ _ Hcheck)
    as (sent & Hw3 & _).
  rewrite (bindM_step _ _ _ _ _ Hcheck).
  cbn [heap store requests conversation_state outbox] in Hw3.
  assert (Hheap : heap w3 !! r
                  = Some (mk_Action (Model.service a) (method a)
                            (<["end_time" := VStr (format_time e)]>
                               (<["start_time" := VStr (format_time s)]> (params a))))).
  { rewrite Hw3. cbn [heap]. apply lookup_insert_eq. }
  assert (Hothers : forall r', r' <> r -> heap w3 !! r' = heap w !! r').
  { intros r' Hr'. rewrite Hw3. cbn [heap]. apply lookup_insert_ne. congruence. }
  assert (Hstill : has_string_times
                     (mk_Action (Model.service a) (method a)
                        (<["end_time" := VStr (format_time e)]>
                           (<["start_time" := VStr (format_time s)]> (params a))))
                   = true).
  { unfold has_string_times. cbn [params].
    rewrite lookup_insert_eq.
    rewrite lookup_insert_ne by discriminate. rewrite lookup_insert_eq.
    reflexivity. }
  destruct (bool_decide (status reported = Some "success")
            && has_conflicts reported);
    do 3 eexists; (split; [reflexivity|]); repeat split; eassumption.
Qed.

Lemma validate_loop_returns (refs : list ref) :
  forall w : World Store,
  Forall (fun r => exists a, heap w !! r = Some a
                             /\ has_string_times a = true) refs ->
  exists found w', validate_loop service default_calendar_id refs w = (Ok found, w').
Proof.
  induction refs as [|r rest IH]; intros w Hall.
  - do 2 eexists. reflexivity.
  - inversion Hall as [|? ? (a & Ha & Hgood) Hrest]; subst.
    destruct (validate_action_returns r a w Ha Hgood)
      as (this & w1 & a' & Hthis & Ha' & Hgood' & Hothers).
    destruct (IH w1) as (more & w2 & Hmore).
    { eapply Forall_impl; [exact Hrest|]. simpl. intros r0 (a0 & Ha0 & Hg0).
      destruct (decide (r0 = r)) as [->|Hne].
      - exists a'. split; assumption.
      - exists a0. rewrite Hothers by assumption. split; assumption. }
    cbn [validate_loop].
    rewrite (bindM_step _ _ _ _ _ Hthis), (bindM_step _ _ _ _ _ Hmore).
    do 2 eexists. reflexivity.
Qed.

(** X13.  Planning does not fail on the calendar: when every time a
    proposed action carries under ["start_time"] or ["end_time"] is a
    string (or is absent or falsy), [plan] returns a plan with one action
    per proposed action, even if the listing requests of the validation
    fail. *)
Theorem plan_returns_when_times_are_strings
  (result : PlanResult) (w : World Store) :
  Forall (fun action_data => has_string_times (action_of action_data) = true)
    (r_actions result) ->
  exists p w',
    plan service default_calendar_id result w = (Ok p, w')
    /\ length (actions p) = length (r_actions result).
Proof.
  intros Hgood. unfold plan.
  destruct (build_actions_spec (r_actions result) w)
    as (refs & w1 & Hbuild & _ & _ & _ & _ & Hall & _).
  destruct (build_actions_fresh _ _ _ _ Hbuild) as [_ Hlen].
  rewrite (bindM_step _ _ _ _ _ Hbuild).
  unfold mbind at 1, M_bind at 1, bindM at 1.
  destruct (filter (fun r0 => is_calendar_action w1 r0 = true) refs).
  { do 2 eexists. split; [reflexivity|]. exact Hlen. }
  destruct (validate_loop_returns refs w1) as (found & w2 & Hloop).
  { clear -Hall Hgood.
    induction Hall as [|ad r ads rs Hr _ IH]; [constructor|].
    inversion Hgood as [|? ? Had Hads]; subst.
    constructor; [|apply IH; assumption].
    exists (action_of ad). split; assumption. }
  unfold validate_calendar_actions.
  unfold mbind, M_bind, bindM. rewrite Hloop.
  cbn [mret M_ret ret valid v_conflicts].
  destruct (negb (length found =? 0)%nat);
    do 2 eexists; (split; [reflexivity|]); exact Hlen.
Qed.

(** X14.  [validate_required_parameters] and the connector agree on
    calendar creations: for an action with no keyword the connector does
    not know, executing [create_event] is refused for a missing argument
    exactly when [validate_required_parameters] rejects the action; the
    refusal sends nothing. *)
Theorem rejected_creation_is_refused_by_the_connector
  (other_methods : string -> Params -> M Store Result)
  (action : Action) (w : World Store) :
  Model.service action = "calendar" ->
  method action = "create_event" ->
  only_keys ["summary"; "start_time"; "end_time"; "description"; "location";
             "calendar_id"; "check_for_conflicts"] (params action) = true ->
  (validate_required_parameters action = false
   <-> fst (execute service default_calendar_id other_methods
              (method action) (params action) w)
       = Ok (ErrorOnly "missing required positional argument"))
  /\ (validate_required_parameters action = false ->
      snd (execute service default_calendar_id other_methods
             (method action) (params action) w) = w).
Proof.
  intros Hservice Hmethod Hkeys.
  unfold validate_required_parameters, has_key.
  rewrite Hservice, Hmethod. cbn [String.eqb Ascii.eqb Bool.eqb].
  unfold execute.
  change (negb (bool_decide ("create_event" ∈ method_map))) with false.
  cbn [String.eqb Ascii.eqb Bool.eqb]. unfold try_except, call_create_event.
  rewrite Hkeys. cbn [negb].
  destruct (params action !! "summary") as [summary|];
    [|split; [split; reflexivity|reflexivity]].
  destruct (params action !! "start_time") as [start_time|];
    [|split; [split; reflexivity|reflexivity]].
  destruct (params action !! "end_time") as [end_time|];
    [|split; [split; reflexivity|reflexivity]].
  rewrite !bool_decide_eq_true_2 by (eexists; reflexivity). cbn [andb].
  split; [|discriminate]. split; [discriminate|].
  match goal with
  | |- context [create_event ?sv ?d ?a1 ?a2 ?a3 ?a4 ?a5 ?a6 ?a7 w] =>
      destruct (create_event sv d a1 a2 a3 a4 a5 a6 a7 w) as [res w'] eqn:Hrun;
      apply create_event_cases in Hrun
        as [(err & Herr & -> & ->)
           |[(message & found & s & e & -> & _)
            |(r & body & listing & -> & _ & Hst & _)]]
  end.
  - apply ensure_values_raise in Herr as [-> | ->]; discriminate.
  - discriminate.
  - cbn [fst]. intros [= ->]. destruct Hst; discriminate.
Qed.

End PlannerExtras.

Lemma plan_without_checked_creation_is_the_proposal_witness :
  exists p w',
    plan remote "primary" listing_only quiet_world = (Ok p, w')
    /\ summary p = "List the events of Friday."
    /\ requires_verification p = false
    /\ Forall2 (fun action_data r => heap w' !! r = Some (action_of action_data))
         (r_actions listing_only) (actions p)
    /\ requests w' = []
    /\ store w' = stored_events.
Proof.
  apply (plan_without_checked_creation_is_the_proposal remote "primary"
           listing_only quiet_world).
  repeat constructor.
Defined.

Lemma plan_returns_when_times_are_strings_witness :
  exists p w',
    plan unlistable_remote "primary" naive_proposal quiet_world = (Ok p, w')
    /\ length (actions p) = 1%nat.
Proof.
  apply (plan_returns_when_times_are_strings unlistable_remote "primary"
           naive_proposal quiet_world).
  repeat constructor.
Defined.

Lemma rejected_creation_is_refused_by_the_connector_witness :
  (validate_required_parameters endless_creation = false
   <-> fst (execute remote "primary" no_other_methods
              (method endless_creation) (params endless_creation) quiet_world)
       = Ok (ErrorOnly "missing required positional argument"))
  /\ (validate_required_parameters endless_creation = false ->
      snd (execute remote "primary" no_other_methods
             (method endless_creation) (params endless_creation) quiet_world)
      = quiet_world).
Proof.
  apply (rejected_creation_is_refused_by_the_connector remote "primary"
           no_other_methods endless_creation quiet_world).
  - reflexivity.
  - reflexivity.
  - vm_compute. reflexivity.
Defined.

End PlannerExtras.

(* ===================================================================== *)
(** * Further properties of the conflict-resolution dialog                *)
(* ===================================================================== *)

Module DialogExtras.
Import Normalizer Calendar Dialog Examples Scenarios CalendarFacts DialogFacts
  CalendarExtras.

Section DialogExtras.

Context {Store : Type}.
Variable service : GoogleService Store.
Variable default_calendar_id : string.
Variable other_methods : string -> Params -> M Store Result.

Lemma quiet_ret {A} (a : A) : quiet (mret a : M Store A).
Proof. intros w res w' [= <- <-]. split; reflexivity. Qed.

Lemma quiet_throw {A} (e : Exn) : quiet (throw e : M Store A).
Proof. intros w res w' [= <- <-]. split; reflexivity. Qed.

Lemma quiet_lift {A} (r : PyResult A) : quiet (lift r : M Store A).
Proof. intros w res w' [= <- <-]. split; reflexivity. Qed.

Lemma quiet_bind {A B} (m : M Store A) (k : A -> M Store B) :
  quiet m -> (forall a, quiet (k a)) -> quiet (x ← m; k x).
Proof.
  intros Hm Hk w res w' H.
  apply bindM_inv in H as [(a & w1 & H1 & H2)|(e & H1 & _)].
  - destruct (Hm _ _ _ H1) as [O1 C1]. destruct (Hk a _ _ _ H2) as [O2 C2].
    split; congruence.
  - exact (Hm _ _ _ H1).
Qed.

Lemma quiet_try {A} (body : M Store A) (handler : Exn -> M Store A) :
  quiet body -> (forall e, quiet (handler e)) -> quiet (try_except body handler).
Proof.
  intros Hb Hh w res w'. unfold try_except.
  destruct (body w) as [[a|e] w1] eqn:H1.
  - intros [= <- <-]. exact (Hb _ _ _ H1).
  - intros H2. destruct (Hb _ _ _ H1) as [O1 C1].
    destruct (Hh e _ _ _ H2) as [O2 C2]. split; congruence.
Qed.

Lemma quiet_set_param (r : ref) (key : string) (v : Value) :
  quiet (set_param r key v : M Store unit).
Proof.
  intros w res w'. unfold set_param.
  destruct (heap w !! r); intros [= <- <-]; split; reflexivity.
Qed.

Lemma quiet_read (r : ref) : quiet (read r : M Store Action).
Proof.
  intros w res w'. unfold read.
  destruct (heap w !! r); intros [= <- <-]; split; reflexivity.
Qed.

Lemma quiet_get_state (sender_id : string) :
  quiet (get_state sender_id : M Store ConvState).
Proof. intros w res w' [= <- <-]. split; reflexivity. Qed.

Lemma quiet_check_conflicts (start_time end_time : Value)
  (calendar_id : option string) :
  quiet (check_conflicts service default_calendar_id start_time end_time
           calendar_id).
Proof.
  intros w res w' H.
  apply check_conflicts_footprint in H as (sent & -> & _). split; reflexivity.
Qed.

Lemma quiet_create_event
  (summary start_time end_time description location : Value)
  (calendar_id : option string) (check_for_conflicts : Value) :
  quiet (create_event service default_calendar_id summary start_time end_time
           description location calendar_id check_for_conflicts).
Proof.
  intros w res w' H.
  apply create_event_cases in H
    as [(err & _ & _ & ->)
       |[(message & found & s & e & _ & _ & _ & ->)
        |(r & body & listing & _ & _ & _ & _ & _ & ->)]];
    split; reflexivity.
Qed.

Lemma quiet_execute_create_event (params : Params) :
  quiet (execute service default_calendar_id other_methods "create_event" params).
Proof.
  unfold execute.
  change (negb (bool_decide ("create_event" ∈ method_map))) with false.
  cbn [String.eqb Ascii.eqb Bool.eqb].
  apply quiet_try; [|intros e; apply quiet_ret].
  unfold call_create_event. destruct (negb _); [apply quiet_throw|].
  destruct (params !! "summary"); [|apply quiet_throw].
  destruct (params !! "start_time"); [|apply quiet_throw].
  destruct (params !! "end_time"); [|apply quiet_throw].
  apply quiet_create_event.
Qed.


(** X17.  A time of the requester's own that is free is booked, but the
    negotiation is not closed: the pending creation is rewritten to the
    new times and executed with the conflict check switched off (only
    insert requests follow the check), the requester gets one answer, and
    the stored dialog state is exactly what it was, so the requester is
    still awaiting conflict resolution. *)
Theorem free_custom_time_keeps_negotiation_open
  (sender_id message_text : string) (analysis : Analysis)
  (parsed : Intent) (w w1 : World Store) (state : ConvState) (r : ref)
  (a : Action) (start_time end_time : string) (reported : Result) :
  conversation_state w !! sender_id = Some state ->
  original_action state = Some r ->
  heap w !! r = Some a ->
  Model.service a = "calendar" ->
  method a = "create_event" ->
  intent analysis = Some "reschedule_to_custom" ->
  entities parsed
  = Some (mk_Entities (Some (VStr start_time)) (Some (VStr end_time))) ->
  check_conflicts service default_calendar_id (VStr start_time) (VStr end_time)
    None w = (Ok reported, w1) ->
  has_conflicts reported = false ->
  exists result w2 response sent,
    execute service default_calendar_id other_methods "create_event"
      (params (rescheduled a start_time end_time))
      (with_heap w1 (<[r := rescheduled a start_time end_time]> (heap w1)))
    = (Ok result, w2)
    /\ requests w2 = (requests w1 ++ sent)%list
    /\ forallb is_insert sent = true
    /\ handle_conflict_resolution service default_calendar_id other_methods
         sender_id message_text (Ok analysis) (Ok parsed) w
       = (Ok tt,
          mk_World (heap w2) (store w2) (requests w2) (conversation_state w)
            (outbox w ++ [(sender_id, response)]))
    /\ mode (mk_World (heap w2) (store w2) (requests w2) (conversation_state w)
               (outbox w ++ [(sender_id, response)])) sender_id
       = mode w sender_id.
Proof.
  intros Hstate Horig Ha Hservice Hmethod Hintent Hentities Hcheck Hhas.
  destruct (check_conflicts_frame _ _ _ _ _ _ _ _ Hcheck)
    as (Hheap & Hstore & Hconv & Hout & _).
  assert (Ha1 : heap w1 !! r = Some a) by (rewrite Hheap; exact Ha).
  destruct (reschedule_to_time_runs service default_calendar_id other_methods
              sender_id r a start_time end_time w1 Ha1 Hservice)
    as (result & w2 & response & Hexec & Hre).
  rewrite Hmethod in Hexec.
  destruct (quiet_execute_create_event _ _ _ _ Hexec) as [Hout2 Hconv2].
  cbn [with_heap outbox conversation_state] in Hout2, Hconv2.
  destruct (create_without_check_only_inserts service default_calendar_id
              other_methods _ _ _ _ (lookup_insert_eq _ _ _) Hexec)
    as (sent & Hsent & Hins).
  cbn [with_heap requests] in Hsent.
  exists result, w2, response, sent.
  split; [exact Hexec|]. split; [exact Hsent|]. split; [exact Hins|].
  split; [|reflexivity].
  assert (Hcustom :
    handle_custom_reschedule service default_calendar_id other_methods sender_id r
      (default message_text (custom_time analysis)) (Ok parsed) w
    = (Ok tt,
       mk_World (heap w2) (store w2) (requests w2) (conversation_state w)
         (outbox w ++ [(sender_id, response)]))).
  { unfold handle_custom_reschedule, try_except.
    unfold mbind at 1, M_bind at 1, bindM at 1, lift at 1.
    rewrite Hentities. cbn [default from_option id start_time_iso end_time_iso].
    rewrite (bindM_step _ _ _ _ _ Hcheck). rewrite Hhas. rewrite Hre.
    rewrite Hout2, Hconv2, Hout, Hconv. reflexivity. }
  unfold handle_conflict_resolution, get_state.
  unfold mbind at 1, M_bind at 1, bindM at 1.
  rewrite Hstate. cbn [default from_option id]. rewrite Horig.
  unfold mbind at 1, M_bind at 1, bindM at 1, try_except, resolve.
  unfold mbind at 1, M_bind at 1, bindM at 1, lift at 1.
  rewrite Hintent.
  rewrite (bool_decide_eq_false_2
             (Some "reschedule_to_custom" = Some "cancel")) by discriminate.
  rewrite (bool_decide_eq_false_2
             (Some "reschedule_to_custom" = Some "override_conflicts"))
    by discriminate.
  rewrite (bool_decide_eq_false_2
             (Some "reschedule_to_custom" = Some "reschedule_to_suggested"))
    by discriminate.
  rewrite (bool_decide_eq_true_2
             (Some "reschedule_to_custom" = Some "reschedule_to_custom"))
    by reflexivity.
  rewrite (bindM_step _ _ _ _ _ Hcustom). reflexivity.
Qed.

Hypothesis other_methods_quiet :
  forall method params, quiet (other_methods method params).

Lemma quiet_execute (method : string) (params : Params) :
  quiet (execute service default_calendar_id other_methods method params).
Proof.
  unfold execute. destruct (negb _); [apply quiet_ret|].
  apply quiet_try; [|intros e; apply quiet_ret].
  destruct (String.eqb method "create_event").
  { unfold call_create_event. destruct (negb _); [apply quiet_throw|].
    destruct (params !! "summary"); [|apply quiet_throw].
    destruct (params !! "start_time"); [|apply quiet_throw].
    destruct (params !! "end_time"); [|apply quiet_throw].
    apply quiet_create_event. }
  destruct (String.eqb method "check_conflicts").
  { unfold call_check_conflicts. destruct (negb _); [apply quiet_throw|].
    destruct (params !! "start_time"); [|apply quiet_throw].
    destruct (params !! "end_time"); [|apply quiet_throw].
    apply quiet_check_conflicts. }
  apply other_methods_quiet.
Qed.

Lemma quiet_service_execute (name method : string) (params : Params) :
  quiet (service_execute service default_calendar_id other_methods
           name method params).
Proof.
  unfold service_execute.
  destruct (String.eqb name "calendar"); [apply quiet_execute|apply quiet_throw].
Qed.

Lemma settles_ret {A} (sender_id : string) (a : A) :
  settles sender_id (mret a : M Store A).
Proof. intros w. exists a, w. repeat split. Qed.

Lemma settles_set_state (sender_id : string) (state : ConvState) :
  settles sender_id (set_state sender_id state : M Store unit).
Proof.
  intros w. do 2 eexists. split; [reflexivity|]. split; [reflexivity|].
  intros other Hother. cbn [conversation_state].
  apply lookup_insert_ne. congruence.
Qed.

Lemma answers_send (sender_id : string) (message : Message) :
  answers_once sender_id (send_message sender_id message : M Store unit).
Proof.
  intros w. do 3 eexists. split; [reflexivity|]. split; [reflexivity|].
  intros other _. reflexivity.
Qed.

Lemma answers_then_settles {A B} (sender_id : string)
  (m : M Store A) (k : A -> M Store B) :
  answers_once sender_id m -> (forall a, settles sender_id (k a)) ->
  answers_once sender_id (x ← m; k x).
Proof.
  intros Hm Hk w.
  destruct (Hm w) as (a & w1 & message & H1 & O1 & C1).
  destruct (Hk a w1) as (b & w2 & H2 & O2 & C2).
  exists b, w2, message.
  rewrite (bindM_step _ _ _ _ _ H1).
  split; [exact H2|]. split; [congruence|].
  intros other Hother. rewrite C2, C1 by assumption. reflexivity.
Qed.

Lemma attempts_of_answers {A} (sender_id : string) (m : M Store A) :
  answers_once sender_id m -> attempts sender_id m.
Proof. intros Hm w. left. apply Hm. Qed.

Lemma attempts_throw {A} (sender_id : string) (e : Exn) :
  attempts sender_id (throw e : M Store A).
Proof. intros w. right. exists e, w. repeat split. Qed.

Lemma attempts_after_quiet {A B} (sender_id : string)
  (m : M Store A) (k : A -> M Store B) :
  quiet m -> (forall a, attempts sender_id (k a)) ->
  attempts sender_id (x ← m; k x).
Proof.
  intros Hm Hk w.
  destruct (m w) as [[a|e] w1] eqn:H1.
  - destruct (Hm _ _ _ H1) as [O1 C1].
    rewrite (bindM_step _ _ _ _ _ H1).
    destruct (Hk a w1) as [(b & w2 & message & H2 & O2 & C2)
                           |(e & w2 & H2 & O2 & C2)].
    + left. exists b, w2, message. split; [exact H2|]. split; [congruence|].
      intros other Hother. rewrite C2, C1 by assumption. reflexivity.
    + right. exists e, w2. split; [exact H2|]. split; congruence.
  - right. exists e, w1. destruct (Hm _ _ _ H1) as [O1 C1].
    split; [|split; assumption].
    unfold mbind, M_bind, bindM. rewrite H1. reflexivity.
Qed.

Lemma answers_try {A} (sender_id : string)
  (body : M Store A) (handler : Exn -> M Store A) :
  attempts sender_id body -> (forall e, answers_once sender_id (handler e)) ->
  answers_once sender_id (try_except body handler).
Proof.
  intros Hb Hh w. unfold try_except.
  destruct (Hb w) as [(a & w1 & message & H1 & O1 & C1)|(e & w1 & H1 & O1 & C1)];
    rewrite H1.
  - exists a, w1, message. repeat split; assumption.
  - destruct (Hh e w1) as (a & w2 & message & H2 & O2 & C2).
    exists a, w2, message. split; [exact H2|]. split; [congruence|].
    intros other Hother. rewrite C2, C1 by assumption. reflexivity.
Qed.

Lemma answers_after_returning {A B} (sender_id : string)
  (m : M Store A) (k : A -> M Store B) :
  quiet m -> (forall w, exists a w', m w = (Ok a, w')) ->
  (forall a, answers_once sender_id (k a)) ->
  answers_once sender_id (x ← m; k x).
Proof.
  intros Hq Hr Hk w.
  destruct (Hr w) as (a & w1 & H1). destruct (Hq _ _ _ H1) as [O1 C1].
  destruct (Hk a w1) as (b & w2 & message & H2 & O2 & C2).
  exists b, w2, message. rewrite (bindM_step _ _ _ _ _ H1).
  split; [exact H2|]. split; [congruence|].
  intros other Hother. rewrite C2, C1 by assumption. reflexivity.
Qed.

Lemma reschedule_to_time_answers (sender_id : string) (r : ref)
  (start_time end_time : string) :
  answers_once sender_id
    (reschedule_to_time service default_calendar_id other_methods
       sender_id r start_time end_time).
Proof.
  unfold reschedule_to_time.
  apply answers_after_returning.
  - apply quiet_try; [|intros e; apply quiet_ret].
    apply quiet_bind; [apply quiet_set_param|intros _].
    apply quiet_bind; [apply quiet_set_param|intros _].
    apply quiet_bind; [apply quiet_set_param|intros _].
    apply quiet_bind; [apply quiet_read|intros action].
    apply quiet_bind; [apply quiet_service_execute|intros result].
    destruct (bool_decide _); [|apply quiet_ret].
    apply quiet_bind; [apply quiet_lift|intros _; apply quiet_ret].
  - intros w. unfold try_except.
    match goal with
    | |- context [match ?m w with _ => _ end] => destruct (m w) as [[a|e] w1]
    end; do 2 eexists; reflexivity.
  - intros response. apply answers_send.
Qed.

Lemma create_event_ignoring_conflicts_answers (sender_id : string) (r : ref) :
  answers_once sender_id
    (create_event_ignoring_conflicts service default_calendar_id other_methods
       sender_id r).
Proof.
  unfold create_event_ignoring_conflicts.
  apply answers_try; [|intros e; apply answers_send].
  apply attempts_after_quiet; [apply quiet_set_param|intros _].
  apply attempts_after_quiet; [apply quiet_read|intros action].
  apply attempts_after_quiet; [apply quiet_service_execute|intros result].
  apply attempts_of_answers.
  destruct (bool_decide _); apply answers_send.
Qed.

Lemma handle_custom_reschedule_answers (sender_id : string) (r : ref)
  (custom_time_text : string) (parsed : PyResult Intent) :
  answers_once sender_id
    (handle_custom_reschedule service default_calendar_id other_methods
       sender_id r custom_time_text parsed).
Proof.
  unfold handle_custom_reschedule.
  apply answers_try; [|intros e; apply answers_send].
  apply attempts_after_quiet; [apply quiet_lift|intros intent].
  destruct (start_time_iso _) as [start_time|];
    [|apply attempts_of_answers, answers_send].
  destruct (end_time_iso _) as [end_time|];
    [|apply attempts_of_answers, answers_send].
  apply attempts_after_quiet; [apply quiet_check_conflicts|intros conflict_check].
  destruct start_time; try apply attempts_throw.
  destruct end_time; try apply attempts_throw.
  apply attempts_of_answers.
  destruct (has_conflicts conflict_check).
  - apply answers_then_settles; [apply answers_send|intros _].
    apply settles_set_state.
  - apply reschedule_to_time_answers.
Qed.

Lemma resolve_attempts (sender_id message_text : string)
  (alternative_times : list (string * string)) (r : ref)
  (llm : PyResult Analysis) (parsed : PyResult Intent) :
  attempts sender_id
    (resolve service default_calendar_id other_methods sender_id message_text
       alternative_times r llm parsed).
Proof.
  unfold resolve.
  apply attempts_after_quiet; [apply quiet_lift|intros analysis].
  destruct (bool_decide (intent analysis = Some "cancel")).
  { apply attempts_of_answers.
    apply answers_then_settles; [apply answers_send|intros _; apply settles_ret]. }
  destruct (bool_decide (intent analysis = Some "override_conflicts")).
  { apply attempts_of_answers.
    apply answers_then_settles;
      [apply create_event_ignoring_conflicts_answers|intros _; apply settles_ret]. }
  destruct (bool_decide (intent analysis = Some "reschedule_to_suggested")).
  { apply attempts_after_quiet; [apply quiet_lift|intros time_index].
    destruct ((0 <=? time_index) && _).
    - destruct (alternative_times !! Z.to_nat time_index) as [[start_time end_time]|];
        [|apply attempts_throw].
      apply attempts_of_answers.
      apply answers_then_settles;
        [apply reschedule_to_time_answers|intros _; apply settles_ret].
    - apply attempts_of_answers.
      apply answers_then_settles; [apply answers_send|intros _; apply settles_ret]. }
  destruct (bool_decide (intent analysis = Some "reschedule_to_custom")).
  { apply attempts_of_answers.
    apply answers_then_settles;
      [apply handle_custom_reschedule_answers|intros _; apply settles_ret]. }
  apply attempts_of_answers.
  apply answers_then_settles; [apply answers_send|intros _; apply settles_ret].
Qed.

(** X15.  Whatever the requester replies, whatever the language model
    and the parser make of it and whatever the calendar does,
    [handle_conflict_resolution] does not raise and answers the requester
    with exactly one message; it leaves the dialogs of all other
    requesters as they are. *)
Theorem conflict_dialog_answers_exactly_once
  (sender_id message_text : string) (llm : PyResult Analysis)
  (parsed : PyResult Intent) (w : World Store) :
  exists w' reply,
    handle_conflict_resolution service default_calendar_id other_methods
      sender_id message_text llm parsed w = (Ok tt, w')
    /\ outbox w' = (outbox w ++ [(sender_id, reply)])%list
    /\ forall other, other <> sender_id ->
         conversation_state w' !! other = conversation_state w !! other.
Proof.
  assert (Hall : answers_once sender_id
            (handle_conflict_resolution service default_calendar_id other_methods
               sender_id message_text llm parsed)).
  { unfold handle_conflict_resolution.
    apply answers_after_returning.
    - apply quiet_get_state.
    - intros w0. do 2 eexists. reflexivity.
    - intros state.
      destruct (original_action state) as [r|].
      + apply answers_then_settles.
        * apply answers_try; [apply resolve_attempts|].
          intros e. apply answers_then_settles;
            [apply answers_send|intros _; apply settles_ret].
        * intros [|]; [apply settles_set_state|apply settles_ret].
      + apply answers_then_settles; [apply answers_send|intros _].
        apply settles_set_state. }
  destruct (Hall w) as ([] & w' & reply & Hrun & Hout & Hconv).
  exists w', reply. repeat split; assumption.
Qed.

Lemma handle_conflict_resolution_answers
  (sender_id message_text : string) (llm : PyResult Analysis)
  (parsed : PyResult Intent) :
  answers_once sender_id
    (handle_conflict_resolution service default_calendar_id other_methods
       sender_id message_text llm parsed).
Proof.
  unfold handle_conflict_resolution.
  apply answers_after_returning.
  - apply quiet_get_state.
  - intros w0. do 2 eexists. reflexivity.
  - intros state.
    destruct (original_action state) as [r|].
    + apply answers_then_settles.
      * apply answers_try; [apply resolve_attempts|].
        intros e. apply answers_then_settles;
          [apply answers_send|intros _; apply settles_ret].
      * intros [|]; [apply settles_set_state|apply settles_ret].
    + apply answers_then_settles; [apply answers_send|intros _].
      apply settles_set_state.
Qed.

Lemma sets_only_quiet {A} (sender_id : string) (P : ConvState -> Prop)
  (m : M Store A) :
  quiet m -> sets_only sender_id P m.
Proof. intros Hm w res w' H. left. apply (Hm _ _ _ H). Qed.

Lemma sets_only_send (sender_id : string) (P : ConvState -> Prop)
  (message : Message) :
  sets_only sender_id P (send_message sender_id message : M Store unit).
Proof. intros w res w' [= <- <-]. left. reflexivity. Qed.

Lemma sets_only_set_state (sender_id : string) (P : ConvState -> Prop)
  (state : ConvState) :
  P state -> sets_only sender_id P (set_state sender_id state : M Store unit).
Proof.
  intros HP w res w' [= <- <-]. right. exists state. split; [exact HP|reflexivity].
Qed.

Lemma sets_only_bind {A B} (sender_id : string) (P : ConvState -> Prop)
  (m : M Store A) (k : A -> M Store B) :
  sets_only sender_id P m -> (forall a, sets_only sender_id P (k a)) ->
  sets_only sender_id P (x ← m; k x).
Proof.
  intros Hm Hk w res w' H.
  apply bindM_inv in H as [(a & w1 & H1 & H2)|(e & H1 & _)].
  - destruct (Hm _ _ _ H1) as [C1|(st1 & P1 & C1)];
      destruct (Hk a _ _ _ H2) as [C2|(st2 & P2 & C2)].
    + left. congruence.
    + right. exists st2. split; [exact P2|congruence].
    + right. exists st1. split; [exact P1|congruence].
    + right. exists st2. split; [exact P2|].
      rewrite C2, C1. apply insert_insert_eq.
  - exact (Hm _ _ _ H1).
Qed.

Lemma sets_only_try {A} (sender_id : string) (P : ConvState -> Prop)
  (body : M Store A) (handler : Exn -> M Store A) :
  sets_only sender_id P body -> (forall e, sets_only sender_id P (handler e)) ->
  sets_only sender_id P (try_except body handler).
Proof.
  intros Hb Hh w res w'. unfold try_except.
  destruct (body w) as [[a|e] w1] eqn:H1.
  - intros [= <- <-]. exact (Hb _ _ _ H1).
  - intros H2.
    destruct (Hb _ _ _ H1) as [C1|(st1 & P1 & C1)];
      destruct (Hh e _ _ _ H2) as [C2|(st2 & P2 & C2)].
    + left. congruence.
    + right. exists st2. split; [exact P2|congruence].
    + right. exists st1. split; [exact P1|congruence].
    + right. exists st2. split; [exact P2|].
      rewrite C2, C1. apply insert_insert_eq.
Qed.

Lemma reschedule_to_time_sets_only (sender_id : string) (P : ConvState -> Prop)
  (r : ref) (start_time end_time : string) :
  sets_only sender_id P
    (reschedule_to_time service default_calendar_id other_methods
       sender_id r start_time end_time).
Proof.
  unfold reschedule_to_time.
  apply sets_only_bind; [|intros response; apply sets_only_send].
  apply sets_only_quiet.
  apply quiet_try; [|intros e; apply quiet_ret].
  apply quiet_bind; [apply quiet_set_param|intros _].
  apply quiet_bind; [apply quiet_set_param|intros _].
  apply quiet_bind; [apply quiet_set_param|intros _].
  apply quiet_bind; [apply quiet_read|intros action].
  apply quiet_bind; [apply quiet_service_execute|intros result].
  destruct (bool_decide _); [|apply quiet_ret].
  apply quiet_bind; [apply quiet_lift|intros _; apply quiet_ret].
Qed.

(** Whatever [handle_conflict_resolution] stores for the requester is a
    state without a plan awaiting verification. *)
Lemma handle_conflict_resolution_sets_only
  (sender_id message_text : string) (llm : PyResult Analysis)
  (parsed : PyResult Intent) :
  sets_only sender_id no_pending_plan
    (handle_conflict_resolution service default_calendar_id other_methods
       sender_id message_text llm parsed).
Proof.
  assert (Hempty : no_pending_plan empty_state) by (split; reflexivity).
  assert (Hsend : forall message,
            sets_only sender_id no_pending_plan
              (send_message sender_id message : M Store unit))
    by (intros message; apply sets_only_send).
  assert (Hret : forall (A : Type) (a : A),
            sets_only sender_id no_pending_plan (mret a : M Store A))
    by (intros A a; apply sets_only_quiet, quiet_ret).
  unfold handle_conflict_resolution.
  apply sets_only_bind; [apply sets_only_quiet, quiet_get_state|intros state].
  destruct (original_action state) as [r|].
  2: { apply sets_only_bind; [apply Hsend|intros _].
       apply sets_only_set_state. exact Hempty. }
  apply sets_only_bind.
  2: { intros [|]; [apply sets_only_set_state; exact Hempty|apply Hret]. }
  apply sets_only_try.
  2: { intros e. apply sets_only_bind; [apply Hsend|intros _; apply Hret]. }
  unfold resolve.
  apply sets_only_bind; [apply sets_only_quiet, quiet_lift|intros analysis].
  destruct (bool_decide (intent analysis = Some "cancel")).
  { apply sets_only_bind; [apply Hsend|intros _; apply Hret]. }
  destruct (bool_decide (intent analysis = Some "override_conflicts")).
  { apply sets_only_bind; [|intros _; apply Hret].
    unfold create_event_ignoring_conflicts.
    apply sets_only_try; [|intros e; apply Hsend].
    apply sets_only_bind; [apply sets_only_quiet, quiet_set_param|intros _].
    apply sets_only_bind; [apply sets_only_quiet, quiet_read|intros action].
    apply sets_only_bind; [apply sets_only_quiet, quiet_service_execute|intros result].
    destruct (bool_decide _); apply Hsend. }
  destruct (bool_decide (intent analysis = Some "reschedule_to_suggested")).
  { apply sets_only_bind; [apply sets_only_quiet, quiet_lift|intros time_index].
    destruct ((0 <=? time_index) && _).
    - destruct (default [] (alternative_times state) !! Z.to_nat time_index)
        as [[start_time end_time]|];
        [|apply sets_only_quiet, quiet_throw].
      apply sets_only_bind; [apply reschedule_to_time_sets_only|intros _; apply Hret].
    - apply sets_only_bind; [apply Hsend|intros _; apply Hret]. }
  destruct (bool_decide (intent analysis = Some "reschedule_to_custom")).
  { apply sets_only_bind; [|intros _; apply Hret].
    unfold handle_custom_reschedule.
    apply sets_only_try; [|intros e; apply Hsend].
    apply sets_only_bind; [apply sets_only_quiet, quiet_lift|intros parsed_intent].
    destruct (start_time_iso _) as [start_time|]; [|apply Hsend].
    destruct (end_time_iso _) as [end_time|]; [|apply Hsend].
    apply sets_only_bind;
      [apply sets_only_quiet, quiet_check_conflicts|intros conflict_check].
    destruct start_time; try (apply sets_only_quiet, quiet_throw).
    destruct end_time; try (apply sets_only_quiet, quiet_throw).
    destruct (has_conflicts conflict_check).
    - apply sets_only_bind; [apply Hsend|intros _].
      apply sets_only_set_state. split; reflexivity.
    - apply reschedule_to_time_sets_only. }
  apply sets_only_bind; [apply Hsend|intros _; apply Hret].
Qed.

End DialogExtras.


Lemma free_custom_time_keeps_negotiation_open_witness :
  exists result w2 response sent,
    requests w2
    = ([ListRequest "primary" "2025-05-23T16:00:00+01:00"
          "2025-05-23T17:00:00+01:00" None] ++ sent)%list
    /\ forallb is_insert sent = true
    /\ handle_conflict_resolution remote "primary" no_other_methods
         requester "what about four"
         (Ok (custom "four"))
         (Ok (parsed_times "2025-05-23T16:00:00+01:00"
                "2025-05-23T17:00:00+01:00"))
         negotiating_world
       = (Ok tt,
          mk_World (heap w2) (store w2) (requests w2)
            (conversation_state negotiating_world)
            (outbox negotiating_world ++ [(requester, response)]))
    /\ status result = Some "success"
    /\ mode (mk_World (heap w2) (store w2) (requests w2)
               (conversation_state negotiating_world)
               (outbox negotiating_world ++ [(requester, response)])) requester
       = AwaitingConflictResolution.
Proof.
  destruct (free_custom_time_keeps_negotiation_open remote "primary"
              no_other_methods requester "what about four" (custom "four")
              (parsed_times "2025-05-23T16:00:00+01:00" "2025-05-23T17:00:00+01:00")
              negotiating_world _ negotiation 0%nat sync_action
              "2025-05-23T16:00:00+01:00" "2025-05-23T17:00:00+01:00" _
              eq_refl eq_refl eq_refl eq_refl eq_refl eq_refl eq_refl
              eq_refl eq_refl)
    as (result & w2 & response & sent & Hexec & Hsent & Hins & Hrun & Hmode).
  exists result, w2, response, sent.
  split; [exact Hsent|]. split; [exact Hins|]. split; [exact Hrun|].
  split; [|exact Hmode].
  vm_compute in Hexec. injection Hexec as <- _. reflexivity.
Defined.

Lemma conflict_dialog_answers_exactly_once_witness :
  exists w' reply,
    handle_conflict_resolution remote "primary" no_other_methods
      requester "the first one" (Ok (pick 0))
      (Raise (OtherError "not consulted")) negotiating_world = (Ok tt, w')
    /\ outbox w' = (outbox negotiating_world ++ [(requester, reply)])%list
    /\ forall other, other <> requester ->
         conversation_state w' !! other
         = conversation_state negotiating_world !! other.
Proof.
  apply (conflict_dialog_answers_exactly_once remote "primary" no_other_methods).
  intros method params w res w' [= <- <-]. split; reflexivity.
Defined.

End DialogExtras.

(* ===================================================================== *)
(** * Properties of the execution of a plan                               *)
(* ===================================================================== *)

Module ExecutorFacts.
Import Normalizer Calendar Dialog Integration Executor Examples Scenarios
  CalendarFacts NormalizerFacts FinderFacts IntegrationFacts FinderExtras
  CalendarExtras.

Section ExecutorFacts.

Context {Store : Type}.
Variable service : GoogleService Store.
Variable default_calendar_id : string.
Variable other_methods : string -> Params -> M Store Result.
Variable day_bounds : datetime -> PyResult (string * string).
Variable generate_response : ActionPlan -> list Result -> M Store string.

(** What a listing leaves behind, and what it can return. *)
Lemma list_events_footprint (time_min time_max : option string) (max_results : Z)
  (calendar_id : option string) (w w' : World Store) (res : PyResult Result) :
  list_events service default_calendar_id time_min time_max max_results
    calendar_id w = (res, w') ->
  (exists sent,
     w' = mk_World (heap w) (store w) (requests w ++ sent)%list
            (conversation_state w) (outbox w)
     /\ (length sent <= 1)%nat
     /\ List.filter is_insert sent = [])
  /\ (forall r, res = Ok r ->
      (exists count found, r = ListSuccess count found)
      \/ exists message, r = Error message).
Proof.
  assert (Hnone : exists sent,
            w = mk_World (heap w) (store w) (requests w ++ sent)%list
                  (conversation_state w) (outbox w)
            /\ (length sent <= 1)%nat /\ List.filter is_insert sent = []).
  { exists []. rewrite app_nil_r. destruct w. repeat split. simpl. lia. }
  unfold list_events.
  destruct time_min as [lo|]; [destruct time_max as [hi|]|];
    try (intros [= <- <-]; split; [exact Hnone|intros r [=]]).
  unfold mbind, M_bind, bindM, lift.
  destruct (_ensure_iso_format (Some lo) (Some hi)) as [[s e]|err].
  - unfold _list_events_sync, try_except, mbind, M_bind, bindM, api_list.
    destruct (events_list service (store w) _ s e (Some max_results)) as [evs|err];
      intros [= <- <-]; (split; [eexists; split; [reflexivity|split; [simpl; lia|reflexivity]]|]);
      intros r [= <-].
    + left. do 2 eexists. reflexivity.
    + right. eexists. reflexivity.
  - intros [= <- <-]. split; [exact Hnone|intros r [=]].
Qed.

Lemma empty_listing_views (original_start original_end : string)
  (conflicts : list Event) (message : string) :
  get_smart_alternative_times original_start original_end conflicts
    (Ok (listing_view (Error message)))
  = get_smart_alternative_times original_start original_end conflicts
      (Ok (mk_ListEventsResult (Some []))).
Proof. reflexivity. Qed.

Lemma alternatives_length (original_start original_end : string)
  (conflicts : list Event) (listing : PyResult ListEventsResult) :
  (length (get_smart_alternative_times original_start original_end
             conflicts listing) <= 3)%nat.
Proof.
  unfold get_smart_alternative_times. rewrite length_map.
  unfold smart_alternative_slots.
  destruct (smart_search original_start original_end listing) as [slots|] eqn:Hsearch.
  - destruct (smart_search_ok _ _ _ _ Hsearch)
      as (_ & _ & _ & _ & _ & _ & out & _ & _ & _ & _ & _ & _ & _ & ->).
    apply firstn_le_length.
  - unfold fallback_slots, mbind, PyResult_bind, Py.bind.
    destruct (parse_iso original_start) as [start_dt|]; [|simpl; lia].
    destruct (parse_iso original_end) as [end_dt|]; [|simpl; lia].
    destruct (sub end_dt start_dt) as [duration|]; [|simpl; lia].
    destruct (fallback_loop start_dt duration [9; 12; 16]) as [l|] eqn:Hl;
      [|simpl; lia].
    apply fallback_loop_Forall in Hl as [_ Hlen]. exact Hlen.
Qed.

Lemma fallback_length (original_start original_end : string) :
  (length (get_fallback_alternatives original_start original_end) <= 3)%nat.
Proof.
  pose proof (alternatives_length original_start original_end []
                (Raise (OtherError ""))) as H.
  unfold get_smart_alternative_times in H.
  rewrite listing_raise_gives_fallback in H. exact H.
Qed.

Lemma get_smart_alternative_times_on_cases
  (original_start original_end : string) (conflicts : list FlatEvent)
  (w : World Store) :
  exists alternatives w' sent,
    get_smart_alternative_times_on service default_calendar_id day_bounds
      original_start original_end conflicts w = (Ok alternatives, w')
    /\ w' = mk_World (heap w) (store w) (requests w ++ sent)%list
              (conversation_state w) (outbox w)
    /\ (length sent <= 1)%nat
    /\ List.filter is_insert sent = []
    /\ (length alternatives <= 3)%nat
    /\ (alternatives = get_fallback_alternatives original_start original_end
        \/ alternatives
           = get_smart_alternative_times original_start original_end
               (map flat_view conflicts) (Ok (mk_ListEventsResult (Some [])))).
Proof.
  unfold get_smart_alternative_times_on.
  destruct (start_dt ← parse_iso original_start;
            end_dt ← parse_iso original_end;
            _ ← sub end_dt start_dt; day_bounds start_dt)
    as [[day_start day_end]|err].
  2: { exists (get_fallback_alternatives original_start original_end), w, [].
       rewrite app_nil_r. split; [reflexivity|].
       split; [destruct w; reflexivity|]. split; [simpl; lia|].
       split; [reflexivity|].
       split; [apply fallback_length|].
       left; reflexivity. }
  unfold smart_alternatives_from_calendar.
  destruct (list_events service default_calendar_id (Some day_start)
              (Some day_end) 10 None w) as [listing w'] eqn:Hlist.
  destruct (list_events_footprint _ _ _ _ _ _ _ Hlist)
    as [(sent & Hw' & Hlen & Hfil) Hshape].
  do 2 eexists. exists sent. split; [reflexivity|].
  split; [exact Hw'|]. split; [exact Hlen|]. split; [exact Hfil|].
  split; [apply alternatives_length|].
  destruct listing as [r|err].
  - destruct (Hshape r eq_refl) as [(count & found & ->)|(message & ->)].
    + destruct found as [|first others].
      * right. reflexivity.
      * left. unfold get_smart_alternative_times, get_fallback_alternatives.
        rewrite connector_events_divert_to_fallback. reflexivity.
    + right. apply empty_listing_views.
  - left. unfold get_smart_alternative_times, get_fallback_alternatives.
    rewrite listing_raise_gives_fallback. reflexivity.
Qed.

(** X18.  With the connector of the repository as calendar service,
    what is on the calendar never informs the search.  The finder sends
    at most one listing request and changes nothing; its answer is the
    fallback (in particular whenever the listing returns an event, since
    the connector's events carry their times as strings), or the answer
    of the search on an empty day. *)
Theorem connector_listing_never_informs_the_search
  (original_start original_end : string) (conflicts : list FlatEvent)
  (w : World Store) :
  exists alternatives w' sent,
    get_smart_alternative_times_on service default_calendar_id day_bounds
      original_start original_end conflicts w = (Ok alternatives, w')
    /\ w' = mk_World (heap w) (store w) (requests w ++ sent)%list
              (conversation_state w) (outbox w)
    /\ (length sent <= 1)%nat
    /\ List.filter is_insert sent = []
    /\ (alternatives = get_fallback_alternatives original_start original_end
        \/ alternatives
           = get_smart_alternative_times original_start original_end
               (map flat_view conflicts) (Ok (mk_ListEventsResult (Some [])))).
Proof.
  destruct (get_smart_alternative_times_on_cases original_start original_end
              conflicts w)
    as (alternatives & w' & sent & Hrun & Hw' & Hlen & Hfil & _ & Hcases).
  exists alternatives, w', sent. repeat split; assumption.
Qed.

Lemma alternatives_for_footprint (start_time end_time : Value)
  (conflicts : list FlatEvent) (w : World Store) :
  exists alternatives w' sent,
    alternatives_for service default_calendar_id day_bounds
      start_time end_time conflicts w = (Ok alternatives, w')
    /\ w' = mk_World (heap w) (store w) (requests w ++ sent)%list
              (conversation_state w) (outbox w)
    /\ (length sent <= 1)%nat
    /\ List.filter is_insert sent = []
    /\ (length alternatives <= 3)%nat.
Proof.
  assert (Hnone : exists alternatives w' sent,
            (mret [] : M Store (list (string * string))) w = (Ok alternatives, w')
            /\ w' = mk_World (heap w) (store w) (requests w ++ sent)%list
                      (conversation_state w) (outbox w)
            /\ (length sent <= 1)%nat
            /\ List.filter is_insert sent = []
            /\ (length alternatives <= 3)%nat).
  { exists [], w, []. rewrite app_nil_r. split; [reflexivity|].
    split; [destruct w; reflexivity|]. repeat split; simpl; lia. }
  unfold alternatives_for.
  destruct start_time; try exact Hnone.
  destruct end_time; try exact Hnone.
  destruct (get_smart_alternative_times_on_cases s s0 conflicts w)
    as (alternatives & w' & sent & Hrun & Hw' & Hlen & Hfil & Hthree & _).
  exists alternatives, w', sent. repeat split; assumption.
Qed.

Lemma normalize_times_frame (r : ref) (action : Action) (w w' : World Store)
  (res : PyResult unit) :
  heap w !! r = Some action ->
  normalize_times r action w = (res, w') ->
  store w' = store w /\ requests w' = requests w
  /\ conversation_state w' = conversation_state w /\ outbox w' = outbox w
  /\ (forall r', r' <> r -> heap w' !! r' = heap w !! r')
  /\ exists action',
      heap w' !! r = Some action'
      /\ Model.service action' = Model.service action
      /\ method action' = method action.
Proof.
  intros Ha.
  assert (Hsame : store w = store w /\ requests w = requests w
    /\ conversation_state w = conversation_state w /\ outbox w = outbox w
    /\ (forall r', r' <> r -> heap w !! r' = heap w !! r')
    /\ exists action',
        heap w !! r = Some action'
        /\ Model.service action' = Model.service action
        /\ method action' = method action).
  { repeat split. exists action. repeat split. exact Ha. }
  unfold normalize_times.
  destruct (String.eqb (method action) "create_event");
    [|intros [= <- <-]; exact Hsame].
  destruct (params action !! "start_time") as [start_time|];
    [|intros [= <- <-]; exact Hsame].
  destruct (params action !! "end_time") as [end_time|];
    [|intros [= <- <-]; exact Hsame].
  intros H.
  apply bindM_inv in H as [([s e] & w1 & Hens & H)|(err & Hens & ->)].
  2: { unfold lift in Hens. injection Hens as _ <-. exact Hsame. }
  unfold lift in Hens. injection Hens as _ <-.
  rewrite (bindM_step _ _ _ _ _ (set_param_ok r _ _ w action Ha)) in H.
  rewrite (set_param_ok r "end_time" (VStr e) _ _ (lookup_insert_eq _ _ _)) in H.
  injection H as <- <-.
  unfold with_heap. cbn [heap store requests conversation_state outbox
                         Model.service method params].
  rewrite insert_insert_eq.
  split; [reflexivity|]. split; [reflexivity|]. split; [reflexivity|].
  split; [reflexivity|].
  split; [intros r' Hr'; apply lookup_insert_ne; congruence|].
  eexists. split; [apply lookup_insert_eq|]. split; reflexivity.
Qed.

Lemma execute_create_event_conflict (params : Params) (w w' : World Store)
  (result : Result) :
  execute service default_calendar_id other_methods "create_event" params w
  = (Ok result, w') ->
  status result = Some "conflict" ->
  conflicts_of result <> []
  /\ exists listing,
      is_insert listing = false
      /\ w' = mk_World (heap w) (store w) (requests w ++ [listing])%list
                (conversation_state w) (outbox w).
Proof.
  unfold execute.
  change (negb (bool_decide ("create_event" ∈ method_map))) with false.
  cbn [String.eqb Ascii.eqb Bool.eqb]. unfold try_except, call_create_event.
  destruct (negb (only_keys _ params)); [intros [= <- <-]; discriminate|].
  destruct (params !! "summary") as [summary|]; [|intros [= <- <-]; discriminate].
  destruct (params !! "start_time") as [start_time|];
    [|intros [= <- <-]; discriminate].
  destruct (params !! "end_time") as [end_time|];
    [|intros [= <- <-]; discriminate].
  match goal with
  | |- context [create_event ?sv ?d ?a1 ?a2 ?a3 ?a4 ?a5 ?a6 ?a7 w] =>
      destruct (create_event sv d a1 a2 a3 a4 a5 a6 a7 w) as [res w1] eqn:Hrun;
      apply create_event_cases in Hrun
        as [(err & _ & -> & ->)
           |[(message & found & s & e & -> & Hfound & _ & ->)
            |(r & body & listing & -> & _ & Hst & _)]]
  end.
  - intros [= <- <-]. discriminate.
  - intros [= <- <-] _. split; [exact Hfound|].
    eexists. split; [|reflexivity]. reflexivity.
  - intros [= <- <-] Hc. destruct Hst; congruence.
Qed.

Hypothesis other_methods_frame :
  forall method params w res w',
    other_methods method params w = (res, w') ->
    heap w' = heap w /\ conversation_state w' = conversation_state w.

Lemma execute_frame (method : string) (params : Params) (w w' : World Store)
  (res : PyResult Result) :
  execute service default_calendar_id other_methods method params w = (res, w') ->
  heap w' = heap w /\ conversation_state w' = conversation_state w.
Proof.
  unfold execute. destruct (negb _); [intros [= <- <-]; split; reflexivity|].
  unfold try_except.
  match goal with
  | |- context [match ?m w with _ => _ end] =>
      assert (Hbody : forall r0 w0, m w = (r0, w0) ->
                heap w0 = heap w /\ conversation_state w0 = conversation_state w);
      [|destruct (m w) as [[r0|e] w0] eqn:Hm; intros [= <- <-];
        eapply Hbody; reflexivity]
  end.
  intros r0 w0.
  destruct (String.eqb method "create_event").
  { unfold call_create_event.
    destruct (negb _); [intros [= <- <-]; split; reflexivity|].
    destruct (params !! "summary"); [|intros [= <- <-]; split; reflexivity].
    destruct (params !! "start_time"); [|intros [= <- <-]; split; reflexivity].
    destruct (params !! "end_time"); [|intros [= <- <-]; split; reflexivity].
    intros Hrun. apply create_event_cases in Hrun
      as [(err & _ & _ & ->)
         |[(message & found & s & e & _ & _ & _ & ->)
          |(r & body & listing & _ & _ & _ & _ & _ & ->)]];
      split; reflexivity. }
  destruct (String.eqb method "check_conflicts").
  { unfold call_check_conflicts.
    destruct (negb _); [intros [= <- <-]; split; reflexivity|].
    destruct (params !! "start_time"); [|intros [= <- <-]; split; reflexivity].
    destruct (params !! "end_time"); [|intros [= <- <-]; split; reflexivity].
    intros Hrun. apply check_conflicts_footprint in Hrun as (sent & -> & _).
    split; reflexivity. }
  apply other_methods_frame.
Qed.

(** All the ways the body of the [try] can go for one calendar action. *)
Lemma run_calendar_action_cases (sender_id : string) (r : ref) (action : Action)
  (w w' : World Store) (res : PyResult Step) :
  heap w !! r = Some action ->
  run_calendar_action service default_calendar_id other_methods day_bounds
    sender_id r action w = (res, w') ->
  (forall r', is_Some (heap w !! r') -> is_Some (heap w' !! r'))
  /\ ((exists e, res = Raise e /\ conversation_state w' = conversation_state w)
      \/ (exists result,
            res = Ok (Append result)
            /\ conversation_state w' = conversation_state w)
      \/ (exists action' conflicts alternative_times,
            res = Ok (Return (ConflictMessage
                                (default (VStr "Event") (params action' !! "summary"))
                                conflicts (firstn 3 alternative_times)))
            /\ conflicts <> []
            /\ (length alternative_times <= 3)%nat
            /\ heap w' !! r = Some action'
            /\ Model.service action' = Model.service action
            /\ method action' = "create_event"
            /\ conversation_state w'
               = <[sender_id :=
                     {| awaiting_verification := false;
                        pending_action := None;
                        awaiting_conflict_resolution := true;
                        Model.conflicts := Some conflicts;
                        Model.alternative_times := Some alternative_times;
                        original_action := Some r |}]> (conversation_state w)
            /\ store w' = store w
            /\ outbox w' = outbox w
            /\ exists sent,
                requests w' = (requests w ++ sent)%list
                /\ List.filter is_insert sent = []
                /\ (length sent <= 2)%nat)).
Proof.
  intros Ha H. unfold run_calendar_action in H.
  apply bindM_inv in H as [([] & w1 & Hnorm & H)|(e & Hnorm & ->)].
  2: { destruct (normalize_times_frame _ _ _ _ _ Ha Hnorm)
         as (_ & _ & C1 & _ & H1 & a1 & Ha1 & _).
       split.
       - intros r' Hr'. destruct (decide (r' = r)) as [->|Hne];
           [rewrite Ha1; eexists; reflexivity|rewrite H1 by assumption; exact Hr'].
       - left. exists e. split; [reflexivity|exact C1]. }
  destruct (normalize_times_frame _ _ _ _ _ Ha Hnorm)
    as (S1 & Q1 & C1 & O1 & H1 & a1 & Ha1 & Hs1 & Hm1).
  assert (Hdom : forall r', is_Some (heap w !! r') -> is_Some (heap w1 !! r')).
  { intros r' Hr'. destruct (decide (r' = r)) as [->|Hne];
      [rewrite Ha1; eexists; reflexivity|rewrite H1 by assumption; exact Hr']. }
  erewrite bindM_step in H; [|unfold read; rewrite Ha1; reflexivity].
  apply bindM_inv in H as [(result & w2 & Hexec & H)|(e & Hexec & ->)].
  2: { destruct (execute_frame _ _ _ _ _ Hexec) as [H2 C2].
       split; [intros r' Hr'; rewrite H2; auto|].
       left. exists e. split; [reflexivity|congruence]. }
  destruct (execute_frame _ _ _ _ _ Hexec) as [H2 C2].
  destruct (String.eqb (method a1) "create_event"
            && bool_decide (status result = Some "conflict")) eqn:Hcond.
  2: { unfold mret, M_ret, ret in H. injection H as <- <-.
       split; [intros r' Hr'; rewrite H2; auto|].
       right. left. exists result. split; [reflexivity|congruence]. }
  apply andb_true_iff in Hcond as [Hcreate Hconflict].
  apply String.eqb_eq in Hcreate. apply bool_decide_eq_true in Hconflict.
  rewrite Hcreate in Hexec.
  destruct (execute_create_event_conflict _ _ _ _ Hexec Hconflict)
    as (Hfound & listing & Hlisting & Hw2).
  apply bindM_inv in H as [(start_time & w20 & Hstart & H)|(e & Hstart & ->)].
  2: { unfold lift in Hstart. injection Hstart as _ <-.
       split; [intros r' Hr'; rewrite H2; auto|].
       left. exists e. split; [reflexivity|congruence]. }
  unfold lift in Hstart. injection Hstart as _ <-.
  apply bindM_inv in H as [(end_time & w20 & Hend & H)|(e & Hend & ->)].
  2: { unfold lift in Hend. injection Hend as _ <-.
       split; [intros r' Hr'; rewrite H2; auto|].
       left. exists e. split; [reflexivity|congruence]. }
  unfold lift in Hend. injection Hend as _ <-.
  destruct (alternatives_for_footprint start_time end_time (conflicts_of result) w2)
    as (alternatives & w3 & sent & Hrun & Hw3 & Hlen & Hfil & Hthree).
  rewrite (bindM_step _ _ _ _ _ Hrun) in H.
  erewrite bindM_step in H; [|reflexivity].
  unfold mret, M_ret, ret in H. injection H as <- <-.
  cbn [heap store requests conversation_state outbox].
  assert (Hheap3 : heap w3 = heap w1) by (rewrite Hw3; cbn [heap]; exact H2).
  split; [intros r' Hr'; rewrite Hheap3; auto|].
  right. right. exists a1, (conflicts_of result), alternatives.
  split; [reflexivity|]. split; [exact Hfound|]. split; [exact Hthree|].
  split; [rewrite Hheap3; exact Ha1|]. split; [exact Hs1|].
  split; [exact Hcreate|].
  split; [rewrite Hw3; cbn [conversation_state]; rewrite C2, C1; reflexivity|].
  split; [rewrite Hw3, Hw2; cbn [store]; exact S1|].
  split; [rewrite Hw3, Hw2; cbn [outbox]; exact O1|].
  exists (listing :: sent). rewrite Hw3, Hw2. cbn [requests]. rewrite Q1.
  split; [rewrite <- app_assoc; reflexivity|].
  split; [cbn [List.filter]; rewrite Hlisting; exact Hfil|simpl; lia].
Qed.

(** X19.  A conflict stops the plan.  When executing an action ends with
    the [return] inside the loop, the action is a calendar creation whose
    conflict check found at least one event; nothing was inserted and no
    message sent; the requester is now awaiting conflict resolution, with
    the conflicts, at most three alternatives and the action itself
    stored; and the actions after it in the plan are not executed at
    all. *)
Theorem conflict_stops_the_plan (sender_id : string) (r : ref)
  (rest : list ref) (results : list Result) (w w' : World Store)
  (response : Response) :
  execute_action service default_calendar_id other_methods day_bounds
    sender_id r w = (Ok (Return response), w') ->
  execute_loop service default_calendar_id other_methods day_bounds
    sender_id (r :: rest) results w = (Ok (inl response), w')
  /\ exists action' conflicts alternative_times,
      response = ConflictMessage
                   (default (VStr "Event") (params action' !! "summary"))
                   conflicts (firstn 3 alternative_times)
      /\ conflicts <> []
      /\ (length alternative_times <= 3)%nat
      /\ heap w' !! r = Some action'
      /\ Model.service action' = "calendar"
      /\ method action' = "create_event"
      /\ conversation_state w' !! sender_id
         = Some {| awaiting_verification := false;
                   pending_action := None;
                   awaiting_conflict_resolution := true;
                   Model.conflicts := Some conflicts;
                   Model.alternative_times := Some alternative_times;
                   original_action := Some r |}
      /\ mode w' sender_id = AwaitingConflictResolution
      /\ store w' = store w
      /\ List.filter is_insert (requests w') = List.filter is_insert (requests w)
      /\ outbox w' = outbox w.
Proof.
  intros Hstep. split.
  { cbn [execute_loop]. rewrite (bindM_step _ _ _ _ _ Hstep). reflexivity. }
  unfold execute_action in Hstep.
  apply bindM_ok in Hstep as (action & w0 & Hread & Hstep).
  apply read_ok in Hread as [Ha ->].
  destruct (String.eqb (Model.service action) "calendar") eqn:Hcal;
    [|discriminate].
  apply String.eqb_eq in Hcal.
  unfold try_except in Hstep.
  destruct (run_calendar_action service default_calendar_id other_methods
              day_bounds sender_id r action w) as [[step|e] w1] eqn:Hrun;
    [|discriminate].
  injection Hstep as -> ->.
  destruct (run_calendar_action_cases _ _ _ _ _ _ Ha Hrun)
    as [_ [(e & [=] & _)|[(result & [=] & _)
        |(action' & conflicts & alternatives & [= ->] & Hfound & Hthree & Ha'
          & Hservice & Hmethod & Hconv & Hstore & Hout & sent & Hsent & Hfil & _)]]].
  exists action', conflicts, alternatives.
  split; [reflexivity|]. split; [exact Hfound|]. split; [exact Hthree|].
  split; [exact Ha'|]. split; [congruence|]. split; [exact Hmethod|].
  split; [rewrite Hconv; apply lookup_insert_eq|].
  split; [unfold mode; rewrite Hconv, lookup_insert_eq; reflexivity|].
  split; [exact Hstore|]. split; [|exact Hout].
  rewrite Hsent, List.filter_app, Hfil. apply app_nil_r.
Qed.

Lemma execute_action_cases (sender_id : string) (r : ref) (w : World Store) :
  is_Some (heap w !! r) ->
  exists step w',
    execute_action service default_calendar_id other_methods day_bounds
      sender_id r w = (Ok step, w')
    /\ (forall r', is_Some (heap w !! r') -> is_Some (heap w' !! r'))
    /\ ((exists result,
           step = Append result
           /\ conversation_state w' = conversation_state w)
        \/ (exists response state,
              step = Return response
              /\ awaiting_verification state = false
              /\ awaiting_conflict_resolution state = true
              /\ original_action state = Some r
              /\ conversation_state w'
                 = <[sender_id := state]> (conversation_state w))).
Proof.
  intros [action Ha]. unfold execute_action.
  erewrite bindM_step; [|unfold read; rewrite Ha; reflexivity].
  destruct (String.eqb (Model.service action) "calendar").
  2: { do 2 eexists. split; [reflexivity|]. split; [auto|].
       left. eexists. split; reflexivity. }
  unfold try_except.
  destruct (run_calendar_action service default_calendar_id other_methods
              day_bounds sender_id r action w) as [res w1] eqn:Hrun.
  destruct (run_calendar_action_cases _ _ _ _ _ _ Ha Hrun)
    as [Hdom [(e & -> & Hconv)|[(result & -> & Hconv)
        |(action' & conflicts & alternatives & -> & _ & _ & _ & _ & _ & Hconv & _)]]].
  - do 2 eexists. split; [reflexivity|]. split; [exact Hdom|].
    left. eexists. split; [reflexivity|exact Hconv].
  - do 2 eexists. split; [reflexivity|]. split; [exact Hdom|].
    left. eexists. split; [reflexivity|exact Hconv].
  - do 2 eexists. split; [reflexivity|]. split; [exact Hdom|].
    right. do 2 eexists. split; [reflexivity|].
    split; [|split; [|split; [|exact Hconv]]]; reflexivity.
Qed.

Lemma execute_loop_stops_awaiting (sender_id : string) (actions : list ref) :
  forall (results : list Result) (w w' : World Store) (response : Response),
  Forall (fun r => is_Some (heap w !! r)) actions ->
  execute_loop service default_calendar_id other_methods day_bounds
    sender_id actions results w = (Ok (inl response), w') ->
  mode w' sender_id = AwaitingConflictResolution.
Proof.
  induction actions as [|r rest IH]; intros results w w' response Hall Hloop.
  - discriminate.
  - inversion Hall as [|? ? Hr Hrest]; subst.
    destruct (execute_action_cases sender_id r w Hr)
      as (step & w1 & Hstep & Hdom
          & [(result & -> & Hconv)
            |(response' & state & -> & Hverif & Hawait & Horig & Hconv)]);
      cbn [execute_loop] in Hloop; rewrite (bindM_step _ _ _ _ _ Hstep) in Hloop.
    + eapply IH; [|exact Hloop].
      eapply Forall_impl; [exact Hrest|]. simpl. intros r0. apply Hdom.
    + injection Hloop as _ <-.
      unfold mode. rewrite Hconv, lookup_insert_eq, Hverif, Hawait. reflexivity.
Qed.

(** X20.  No action of a plan makes its execution fail: whatever the
    calendar answers and whatever an action raises, the loop of
    [execute_action_plan] returns.  Either every action has contributed
    exactly one result, in order, and no dialog has changed; or the loop
    has stopped at an action of the plan, which is now stored as the
    pending action of the requester, who is awaiting conflict
    resolution. *)
Theorem every_action_gets_a_result (sender_id : string) (actions : list ref) :
  forall (results : list Result) (w : World Store),
  Forall (fun r => is_Some (heap w !! r)) actions ->
  exists outcome w',
    execute_loop service default_calendar_id other_methods day_bounds
      sender_id actions results w = (Ok outcome, w')
    /\ match outcome with
       | inr collected =>
           (exists new, collected = (results ++ new)%list
                        /\ length new = length actions)
           /\ conversation_state w' = conversation_state w
       | inl response =>
           exists r state,
             In r actions
             /\ awaiting_conflict_resolution state = true
             /\ original_action state = Some r
             /\ conversation_state w' !! sender_id = Some state
             /\ mode w' sender_id = AwaitingConflictResolution
       end.
Proof.
  induction actions as [|r rest IH]; intros results w Hall.
  - exists (inr results), w. split; [reflexivity|].
    split; [|reflexivity]. exists []. rewrite app_nil_r. split; reflexivity.
  - inversion Hall as [|? ? Hr Hrest]; subst.
    destruct (execute_action_cases sender_id r w Hr)
      as (step & w1 & Hstep & Hdom
          & [(result & -> & Hconv)
            |(response & state & -> & Hverif & Hawait & Horig & Hconv)]).
    + destruct (IH (results ++ [result])%list w1) as (outcome & w' & Hloop & Hout).
      { eapply Forall_impl; [exact Hrest|]. simpl. intros r0. apply Hdom. }
      exists outcome, w'. cbn [execute_loop].
      rewrite (bindM_step _ _ _ _ _ Hstep). split; [exact Hloop|].
      destruct outcome as [response|collected].
      * destruct Hout as (r0 & state & Hin & Hrest').
        exists r0, state. split; [right; exact Hin|exact Hrest'].
      * destruct Hout as [(new & -> & Hlen) Hconv'].
        split; [|congruence].
        exists (result :: new). rewrite <- app_assoc.
        split; [reflexivity|simpl; congruence].
    + exists (inl response), w1. cbn [execute_loop].
      rewrite (bindM_step _ _ _ _ _ Hstep). split; [reflexivity|].
      exists r, state. split; [left; reflexivity|].
      split; [exact Hawait|]. split; [exact Horig|].
      split; [rewrite Hconv; apply lookup_insert_eq|].
      unfold mode. rewrite Hconv, lookup_insert_eq, Hverif, Hawait.
      reflexivity.
Qed.

End ExecutorFacts.

Lemma no_other_methods_frame :
  forall method params (w : World (list GEvent)) res w',
    no_other_methods method params w = (res, w') ->
    heap w' = heap w /\ conversation_state w' = conversation_state w.
Proof. intros method params w res w' [= <- <-]. split; reflexivity. Defined.

Lemma conflict_stops_the_plan_witness :
  exists w' response,
    execute_loop remote "primary" no_other_methods may_23
      requester [0%nat; 1%nat] [] planned_world = (Ok (inl response), w')
    /\ response
       = ConflictMessage (VStr "Sync") [conflict_entry review_1430]
           [("2025-05-23T09:00:00+01:00", "2025-05-23T10:00:00+01:00");
            ("2025-05-23T12:00:00+01:00", "2025-05-23T13:00:00+01:00");
            ("2025-05-23T16:00:00+01:00", "2025-05-23T17:00:00+01:00")]
    /\ mode w' requester = AwaitingConflictResolution
    /\ store w' = stored_events
    /\ outbox w' = [].
Proof.
  destruct (conflict_stops_the_plan remote "primary" no_other_methods may_23
              no_other_methods_frame requester 0%nat [1%nat] [] planned_world
              _ _ eq_refl)
    as (Hloop & action' & conflicts & alternatives & _ & _ & _ & _ & _ & _
        & _ & Hmode & Hstore & _ & Hout).
  do 2 eexists. split; [exact Hloop|]. split; [reflexivity|].
  split; [exact Hmode|]. split; [exact Hstore|exact Hout].
Defined.

Lemma every_action_gets_a_result_witness :
  exists outcome w',
    execute_loop remote "primary" no_other_methods may_23
      requester [0%nat] [] planned_world = (Ok outcome, w')
    /\ match outcome with
       | inr collected =>
           (exists new, collected = ([] ++ new)%list
                        /\ length new = length [0%nat])
           /\ conversation_state w' = conversation_state planned_world
       | inl response =>
           exists r state,
             In r [0%nat]
             /\ awaiting_conflict_resolution state = true
             /\ original_action state = Some r
             /\ conversation_state w' !! requester = Some state
             /\ mode w' requester = AwaitingConflictResolution
       end.
Proof.
  apply (every_action_gets_a_result remote "primary" no_other_methods may_23
           no_other_methods_frame requester [0%nat] [] planned_world).
  constructor; [|constructor]. eexists. reflexivity.
Defined.

End ExecutorFacts.

(* ===================================================================== *)
(** * Properties of the entry point                                       *)
(* ===================================================================== *)

Module EntryFacts.
Import Normalizer Calendar Planner Dialog Executor Webhook Entry Examples
  Scenarios DialogExtras ExecutorFacts.

Section EntryFacts.

Context {Store : Type}.
Variable service : GoogleService Store.
Variable default_calendar_id : string.
Variable other_methods : string -> Params -> M Store Result.
Variable day_bounds : datetime -> PyResult (string * string).
Variable generate_response : ActionPlan -> list Result -> M Store string.
Variable lower : string -> string.


(** X22.  A message that contains "reschedule" and a 9 is taken for a
    reply in a conflict negotiation, whatever the requester was doing:
    the requester's dialog state is overwritten, so that a plan that
    awaited verification is dropped; none of the messages of the entry
    point is sent, the conflict dialog answers once, and it answers about
    the mock creation of lines 103-116. *)
Theorem forced_conflict_resolution_drops_pending_plan
  (sender_id message_text : string) (llm : PyResult Analysis)
  (parsed : PyResult Intent) (proposal : PyResult PlanResult)
  (s : Session Store) :
  (forall method params, quiet (other_methods method params)) ->
  forces_conflict_resolution lower message_text = true ->
  exists s' state reply,
    process_message service default_calendar_id other_methods day_bounds
      generate_response lower sender_id message_text llm parsed proposal s
    = (Ok tt, s')
    /\ sent s' = sent s
    /\ outbox (world s') = (outbox (world s) ++ [(sender_id, reply)])%list
    /\ conversation_state (world s') !! sender_id = Some state
    /\ awaiting_verification state = false
    /\ pending_action state = None.
Proof.
  intros Hquiet Hforce. unfold process_message. rewrite Hforce. unfold liftS.
  set (r := fresh (dom (heap (world s)))).
  set (w1 := with_heap (world s) (<[r := mock_action]> (heap (world s)))).
  set (w2 := mk_World (heap w1) (store w1) (requests w1)
               (<[sender_id := mock_state r]> (conversation_state w1)) (outbox w1)).
  assert (Halloc : alloc mock_action (world s) = (Ok r, w1)) by reflexivity.
  assert (Hset : set_state sender_id (mock_state r) w1 = (Ok tt, w2)) by reflexivity.
  rewrite (bindM_step _ _ _ _ _ Halloc), (bindM_step _ _ _ _ _ Hset).
  destruct (handle_conflict_resolution_answers service default_calendar_id
              other_methods Hquiet sender_id message_text llm parsed w2)
    as ([] & w' & reply & Hrun & Hout & _).
  pose proof (handle_conflict_resolution_sets_only service default_calendar_id
                other_methods Hquiet sender_id message_text llm parsed
                _ _ _ Hrun) as Hconv.
  rewrite Hrun.
  assert (Hstate : exists state,
            conversation_state w' !! sender_id = Some state
            /\ no_pending_plan state).
  { destruct Hconv as [->|(state & Hstate & ->)].
    - exists (mock_state r). split; [apply lookup_insert_eq|split; reflexivity].
    - exists state. split; [apply lookup_insert_eq|exact Hstate]. }
  destruct Hstate as (state & Hlookup & Hverif & Hpending).
  exists (mk_Session w' (sent s)), state, reply.
  split; [reflexivity|]. split; [reflexivity|]. split; [exact Hout|].
  split; [exact Hlookup|]. split; assumption.
Qed.

Hypothesis other_methods_frame :
  forall method params w res w',
    other_methods method params w = (res, w') ->
    heap w' = heap w /\ conversation_state w' = conversation_state w.

(** X23.  Confirming a plan forgets the conflict it runs into.  When the
    requester confirms the pending plan and its execution stops at a
    conflict, the conflict message, which asks how to go on, is sent, and
    the dialog state that [execute_action_plan] has just stored for the
    negotiation is overwritten with the empty state: the requester is
    idle, not awaiting conflict resolution. *)
Theorem confirmation_forgets_the_conflict
  (sender_id message_text : string) (s : Session Store) (state : ConvState)
  (action_plan : ActionPlan) (response : Response) (w1 : World Store) :
  conversation_state (world s) !! sender_id = Some state ->
  pending_action state = Some action_plan ->
  lower message_text ∈ ["yes"; "oui"; "y"; "sure"; "ok"; thumbs_up] ->
  Forall (fun r => is_Some (heap (world s) !! r)) (actions action_plan) ->
  execute_loop service default_calendar_id other_methods day_bounds
    sender_id (actions action_plan) [] (world s) = (Ok (inl response), w1) ->
  mode w1 sender_id = AwaitingConflictResolution
  /\ exists s',
      handle_verification_response service default_calendar_id other_methods
        day_bounds generate_response lower sender_id message_text s
      = (Ok tt, s')
      /\ sent s' = (sent s ++ [(sender_id, ProcessingNow);
                               (sender_id, Answer response)])%list
      /\ conversation_state (world s')
         = <[sender_id := empty_state]> (conversation_state w1)
      /\ mode (world s') sender_id = Idle
      /\ heap (world s') = heap w1 /\ store (world s') = store w1
      /\ requests (world s') = requests w1 /\ outbox (world s') = outbox w1.
Proof.
  intros Hstate Hpending Hyes Hall Hloop.
  split; [eapply execute_loop_stops_awaiting; eassumption|].
  unfold handle_verification_response, state_of.
  unfold mbind at 1, S_bind at 1, bindS at 1. rewrite Hstate.
  rewrite (bool_decide_eq_true_2 _ Hyes).
  unfold mbind at 1, S_bind at 1, bindS at 1, notify at 1.
  rewrite Hpending.
  unfold mbind at 1, S_bind at 1, bindS at 1. unfold mret at 1, S_ret, retS.
  unfold mbind at 1, S_bind at 1, bindS at 1, liftS at 1. cbn [world sent].
  unfold execute_action_plan.
  rewrite (bindM_step _ _ _ _ _ Hloop). unfold mret at 1, M_ret, ret.
  eexists. split; [reflexivity|]. cbn [world sent conversation_state heap store
                                       requests outbox].
  split; [rewrite <- app_assoc; reflexivity|]. split; [reflexivity|].
  split; [unfold mode; cbn [conversation_state]; rewrite lookup_insert_eq;
          reflexivity|].
  repeat split.
Qed.

End EntryFacts.


Lemma forced_conflict_resolution_drops_pending_plan_witness :
  exists s' state reply,
    process_message remote "primary" no_other_methods may_23 terse ascii_lower
      requester "Reschedule to 9am" (Ok (pick 0))
      (Raise (OtherError "not consulted")) (Raise (OtherError "not consulted"))
      verifying_session
    = (Ok tt, s')
    /\ sent s' = sent verifying_session
    /\ outbox (world s') = (outbox (world verifying_session) ++ [(requester, reply)])%list
    /\ conversation_state (world s') !! requester = Some state
    /\ awaiting_verification state = false
    /\ pending_action state = None.
Proof.
  apply (forced_conflict_resolution_drops_pending_plan remote "primary"
           no_other_methods may_23 terse ascii_lower).
  - intros method params w res w' [= <- <-]. split; reflexivity.
  - vm_compute. reflexivity.
Defined.

Lemma confirmation_forgets_the_conflict_witness :
  mode (world verifying_session) requester = AwaitingVerification
  /\ exists (w1 : World (list GEvent)) response s',
      mode w1 requester = AwaitingConflictResolution
      /\ handle_verification_response remote "primary" no_other_methods
           may_23 terse ascii_lower requester "Yes" verifying_session
         = (Ok tt, s')
      /\ sent s' = [(requester, ProcessingNow); (requester, Answer response)]
      /\ mode (world s') requester = Idle.
Proof.
  split; [reflexivity|].
  assert (Hloop : exists response w1,
            execute_loop remote "primary" no_other_methods may_23 requester
              (actions sync_plan) [] (world verifying_session)
            = (Ok (inl response), w1))
    by (do 2 eexists; vm_compute; reflexivity).
  destruct Hloop as (response & w1 & Hloop).
  assert (Hyes : ascii_lower "Yes" ∈ ["yes"; "oui"; "y"; "sure"; "ok"; thumbs_up])
    by (vm_compute; left).
  assert (Hall : Forall (fun r => is_Some (heap (world verifying_session) !! r))
                   (actions sync_plan))
    by (constructor; [eexists; reflexivity|constructor]).
  destruct (confirmation_forgets_the_conflict remote "primary" no_other_methods
              may_23 terse ascii_lower no_other_methods_frame
              requester "Yes" verifying_session _ sync_plan response w1
              eq_refl eq_refl Hyes Hall Hloop)
    as (Hmode & s' & Hrun & Hsent & _ & Hidle & _).
  exists w1, response, s'. split; [exact Hmode|]. split; [exact Hrun|].
  split; [exact Hsent|exact Hidle].
Defined.

End EntryFacts.

(* ===================================================================== *)
(** * Properties of dates and times in words                              *)
(* ===================================================================== *)

Module ClockFacts.
Import Clock Examples Scenarios.

Lemma DAY_value : DAY = 86400000000.
Proof. reflexivity. Qed.

Lemma HOUR_value : HOUR = 3600000000.
Proof. reflexivity. Qed.

Lemma date_of_shift (d : datetime) (k : Z) (tz : option Z) :
  date_of {| wall := wall d + k * DAY; tzinfo := tz |} = date_of d + k.
Proof.
  unfold date_of. cbn [wall]. rewrite Z.div_add by (rewrite DAY_value; lia).
  reflexivity.
Qed.

Lemma add_day (d : datetime) (k : Z) :
  0 <= wall d + k * DAY <= MAX_WALL ->
  add d (k * DAY) = Ok {| wall := wall d + k * DAY; tzinfo := tzinfo d |}.
Proof.
  intros H. unfold add, in_range.
  destruct (Z.leb_spec 0 (wall d + k * DAY)); [|lia].
  destruct (Z.leb_spec (wall d + k * DAY) MAX_WALL); [|lia].
  reflexivity.
Qed.

Lemma hour_replace_hour (d : datetime) (h : Z) :
  0 <= h < 24 -> hour (replace_hour d h) = h.
Proof.
  intros Hh. unfold hour, replace_hour. cbn [wall].
  rewrite Z.add_comm, Z.mod_add by (rewrite DAY_value; lia).
  rewrite Z.mod_small by (rewrite DAY_value, HOUR_value; lia).
  apply Z.div_mul. rewrite HOUR_value. lia.
Qed.

Lemma date_of_replace_hour (d : datetime) (h : Z) :
  0 <= h < 24 -> date_of (replace_hour d h) = date_of d.
Proof.
  intros Hh. unfold date_of, replace_hour. cbn [wall].
  rewrite Z.div_add_l by (rewrite DAY_value; lia).
  rewrite (Z.div_small (h * HOUR)) by (rewrite DAY_value, HOUR_value; lia). lia.
Qed.

Lemma on_the_hour (d : datetime) (h : Z) :
  wall (replace_hour d h) mod HOUR = 0.
Proof.
  unfold replace_hour. cbn [wall].
  replace (wall d / DAY * DAY + h * HOUR) with ((wall d / DAY * 24 + h) * HOUR)
    by (rewrite DAY_value, HOUR_value; lia).
  apply Z.mod_mul. rewrite HOUR_value. lia.
Qed.

Lemma time_patterns_hours :
  Forall (fun pattern => 9 <= snd pattern <= 18) time_patterns.
Proof. unfold time_patterns. repeat constructor; cbn [snd]; lia. Qed.

Lemma find_time_hours (text_lower : string) (time_hour : Z) :
  find_time text_lower = Some time_hour -> 9 <= time_hour <= 18.
Proof.
  unfold find_time.
  destruct (List.find _ time_patterns) as [pattern|] eqn:Hfind; [|discriminate].
  intros [= <-]. apply find_some in Hfind as [Hin _].
  pose proof time_patterns_hours as Hall.
  rewrite List.Forall_forall in Hall. apply Hall. exact Hin.
Qed.

Section ClockFacts.

Variable utcoffset : Z -> Z.
Variable lower : string -> string.
Variable strip : string -> string.

(** X24.  [get_next_business_day] returns the first weekday after the
    reference: one to three days later, at the same time of day, on a
    Monday to Friday, every day skipped being a Saturday or a Sunday; the
    result is aware, in the zone of the reference or, for a naive
    reference, in the user's zone.  It returns whenever the reference is
    read and three days later is still a date. *)
Theorem next_business_day_is_first_weekday
  (reference_date : DateArg) (reference : datetime) :
  as_datetime reference_date = Ok reference ->
  0 <= wall reference ->
  wall reference + 3 * DAY <= MAX_WALL ->
  exists next_day k,
    get_next_business_day utcoffset reference_date = Ok next_day
    /\ 1 <= k <= 3
    /\ wall next_day = wall reference + k * DAY
    /\ weekday next_day < 5
    /\ (forall j, 1 <= j < k -> 5 <= (date_of reference + j) mod 7)
    /\ tzinfo next_day
       = Some (default (utcoffset (wall reference)) (tzinfo reference)).
Proof.
  clear lower strip. intros Hread Hlo Hhi.
  unfold get_next_business_day. rewrite Hread.
  unfold mbind, PyResult_bind, Py.bind.
  set (ref' := match tzinfo reference with
               | Some _ => reference
               | None => localize utcoffset reference
               end).
  assert (Hwall : wall ref' = wall reference)
    by (unfold ref'; destruct (tzinfo reference); reflexivity).
  assert (Htz : tzinfo ref'
                = Some (default (utcoffset (wall reference)) (tzinfo reference)))
    by (unfold ref'; destruct (tzinfo reference) eqn:E;
        [cbn [default from_option id]; exact E|reflexivity]).
  assert (Hdate : date_of ref' = date_of reference)
    by (unfold date_of; rewrite Hwall; reflexivity).
  pose proof DAY_value as HD.
  assert (Hstep : forall k, 1 <= k <= 3 ->
            add ref' (k * DAY)
            = Ok {| wall := wall ref' + k * DAY; tzinfo := tzinfo ref' |}).
  { intros k Hk. apply add_day. rewrite Hwall. nia. }
  assert (Hweek : forall k,
            weekday {| wall := wall ref' + k * DAY; tzinfo := tzinfo ref' |}
            = (date_of reference + k) mod 7).
  { intros k. unfold weekday.
    change (wall {| wall := wall ref' + k * DAY; tzinfo := tzinfo ref' |} / DAY)
      with (date_of {| wall := wall ref' + k * DAY; tzinfo := tzinfo ref' |}).
    rewrite date_of_shift, Hdate. reflexivity. }
  assert (Hnext : forall k (d : datetime),
            1 <= k <= 2 ->
            wall d = wall ref' + k * DAY -> tzinfo d = tzinfo ref' ->
            add d DAY
            = Ok {| wall := wall ref' + (k + 1) * DAY; tzinfo := tzinfo ref' |}).
  { intros k d Hk Hw Ht. unfold add, in_range. rewrite Hw, Ht.
    replace (wall ref' + k * DAY + DAY) with (wall ref' + (k + 1) * DAY) by lia.
    destruct (Z.leb_spec 0 (wall ref' + (k + 1) * DAY)); [|nia].
    destruct (Z.leb_spec (wall ref' + (k + 1) * DAY) MAX_WALL); [|nia].
    reflexivity. }
  replace (add ref' DAY) with (add ref' (1 * DAY)) by (f_equal; lia).
  rewrite (Hstep 1) by lia.
  cbn [skip_weekend]. rewrite (Hweek 1).
  destruct (Z.leb_spec 5 ((date_of reference + 1) mod 7)) as [H1|H1].
  - rewrite (Hnext 1) by (cbn [wall tzinfo]; first [lia|reflexivity]).
    replace (1 + 1) with 2 by lia. rewrite (Hweek 2).
    destruct (Z.leb_spec 5 ((date_of reference + 2) mod 7)) as [H2|H2].
    + rewrite (Hnext 2) by (cbn [wall tzinfo]; first [lia|reflexivity]).
      replace (2 + 1) with 3 by lia. rewrite (Hweek 3).
      destruct (Z.leb_spec 5 ((date_of reference + 3) mod 7)) as [H3|H3].
      * exfalso. revert H1 H2 H3. generalize (date_of reference). intros q.
        Z.to_euclidean_division_equations. lia.
      * eexists. exists 3. split; [reflexivity|]. cbn [wall tzinfo].
        split; [lia|]. split; [rewrite Hwall; reflexivity|].
        split; [rewrite (Hweek 3); exact H3|].
        split; [|exact Htz].
        intros j Hj. assert (j = 1 \/ j = 2) as [-> | ->] by lia; assumption.
    + eexists. exists 2. split; [reflexivity|]. cbn [wall tzinfo].
      split; [lia|]. split; [rewrite Hwall; reflexivity|].
      split; [rewrite (Hweek 2); exact H2|].
      split; [|exact Htz].
      intros j Hj. assert (j = 1) as -> by lia. assumption.
  - eexists. exists 1. split; [reflexivity|]. cbn [wall tzinfo].
    split; [lia|]. split; [rewrite Hwall; reflexivity|].
    split; [rewrite (Hweek 1); exact H1|].
    split; [|exact Htz].
    intros j Hj. lia.
Qed.

(** X25.  [parse_relative_date] answers within a week: whatever the text,
    the date it returns is the reference date or one of the seven days
    after it; for "next monday" (when no earlier keyword matches) it is a
    Monday strictly after the reference date, a week later when the
    reference date is itself a Monday. *)
Theorem relative_date_is_within_a_week (text : string) (reference_time : datetime) :
  0 <= wall reference_time ->
  date_of reference_time + 7 <= 3652058 ->
  exists outcome,
    parse_relative_date lower text reference_time = Ok outcome
    /\ (forall day, outcome = Some day ->
        date_of reference_time <= day <= date_of reference_time + 7)
    /\ (contains "tomorrow" (lower text) = false ->
        contains "today" (lower text) = false ->
        contains "next week" (lower text) = false ->
        contains "next monday" (lower text) = true ->
        exists day,
          outcome = Some day
          /\ day mod 7 = 0
          /\ date_of reference_time < day
          /\ (weekday reference_time = 0 -> day = date_of reference_time + 7)).
Proof.
  clear utcoffset strip. intros Hlo Hhi.
  assert (Hq : 0 <= date_of reference_time).
  { unfold date_of. apply Z.div_pos; [exact Hlo|]. rewrite DAY_value. lia. }
  assert (Hadd : forall n, 0 <= n <= 7 ->
            date_add (date_of reference_time) n = Ok (date_of reference_time + n)).
  { intros n Hn. unfold date_add.
    destruct (Z.leb_spec 0 (date_of reference_time + n)); [|lia].
    destruct (Z.leb_spec (date_of reference_time + n) 3652058); [|lia].
    reflexivity. }
  unfold parse_relative_date.
  destruct (contains "tomorrow" (lower text)).
  { rewrite Hadd by lia. eexists. split; [reflexivity|].
    split; [intros day [= <-]; lia|discriminate]. }
  destruct (contains "today" (lower text)).
  { eexists. split; [reflexivity|].
    split; [intros day [= <-]; lia|]. intros _ [=]. }
  destruct (contains "next week" (lower text)).
  { rewrite Hadd by lia. eexists. split; [reflexivity|].
    split; [intros day [= <-]; lia|]. intros _ _ [=]. }
  destruct (contains "next monday" (lower text)).
  2: { eexists. split; [reflexivity|]. split; [intros day [=]|].
       intros _ _ _ [=]. }
  assert (Hw : 0 <= weekday reference_time < 7)
    by (unfold weekday; apply Z.mod_pos_bound; lia).
  destruct (Z.leb_spec (0 - weekday reference_time + 7) 0); [lia|].
  rewrite Hadd by lia. eexists. split; [reflexivity|].
  split; [intros day [= <-]; lia|].
  intros _ _ _ _. eexists. split; [reflexivity|].
  split; [|split; [lia|intros ->; lia]].
  unfold weekday, date_of in *. generalize dependent (wall reference_time / DAY).
  intros q. intros. Z.to_euclidean_division_equations. lia.
Qed.

(** X26.  Whatever the text, a time [parse_natural_time] returns is on
    the hour, between 09:00 and 18:00 of the reference day, of the day
    after or of the day a week later, in the zone of the reference; so
    [is_business_hours] accepts it exactly when it falls on a Monday to
    Friday. *)
Theorem natural_time_is_on_the_hour_in_business_hours
  (text : string) (reference_time result : datetime) :
  parse_natural_time lower strip text reference_time = Ok (Some result) ->
  9 <= hour result <= 18
  /\ wall result mod HOUR = 0
  /\ tzinfo result = tzinfo reference_time
  /\ (date_of result = date_of reference_time
      \/ date_of result = date_of reference_time + 1
      \/ date_of result = date_of reference_time + 7)
  /\ (is_business_hours result = true <-> weekday result < 5).
Proof.
  clear utcoffset. unfold parse_natural_time.
  set (text_lower := strip (lower text)).
  intros H.
  assert (Hbase : exists base_date time_hour,
            find_time text_lower = Some time_hour
            /\ result = replace_hour base_date time_hour
            /\ tzinfo base_date = tzinfo reference_time
            /\ (date_of base_date = date_of reference_time
                \/ date_of base_date = date_of reference_time + 1
                \/ date_of base_date = date_of reference_time + 7)).
  { unfold mbind, PyResult_bind, Py.bind in H.
    assert (Hshift : forall k base_date,
              add reference_time (k * DAY) = Ok base_date ->
              tzinfo base_date = tzinfo reference_time
              /\ date_of base_date = date_of reference_time + k).
    { intros k base_date. unfold add.
      destruct (in_range _); [|discriminate]. intros [= <-].
      split; [reflexivity|apply date_of_shift]. }
    destruct (contains "tomorrow" text_lower).
    { destruct (add reference_time DAY) as [base_date|] eqn:Hadd; [|discriminate].
      replace DAY with (1 * DAY) in Hadd by lia.
      destruct (Hshift 1 base_date Hadd) as [Htz Hdate].
      destruct (find_time text_lower) as [time_hour|]; [|discriminate].
      injection H as <-. exists base_date, time_hour. repeat split; auto. }
    destruct (contains "today" text_lower).
    { destruct (find_time text_lower) as [time_hour|]; [|discriminate].
      injection H as <-. exists reference_time, time_hour. repeat split; auto. }
    destruct (contains "next week" text_lower).
    { destruct (add reference_time (7 * DAY)) as [base_date|] eqn:Hadd;
        [|discriminate].
      destruct (Hshift 7 base_date Hadd) as [Htz Hdate].
      destruct (find_time text_lower) as [time_hour|]; [|discriminate].
      injection H as <-. exists base_date, time_hour. repeat split; auto. }
    destruct (find_time text_lower) as [time_hour|]; [|discriminate].
    injection H as <-. exists reference_time, time_hour. repeat split; auto. }
  destruct Hbase as (base_date & time_hour & Hfind & -> & Htz & Hdate).
  apply find_time_hours in Hfind.
  assert (Hhour : hour (replace_hour base_date time_hour) = time_hour)
    by (apply hour_replace_hour; lia).
  split; [rewrite Hhour; exact Hfind|].
  split; [apply on_the_hour|].
  split; [exact Htz|].
  split; [rewrite date_of_replace_hour by lia; exact Hdate|].
  unfold is_business_hours. rewrite Hhour.
  destruct (Z.leb_spec 5 (weekday (replace_hour base_date time_hour))).
  - split; [discriminate|lia].
  - split; [intros _; assumption|intros _].
    apply andb_true_iff. split; apply Z.leb_le; lia.
Qed.

End ClockFacts.

Lemma next_business_day_is_first_weekday_witness :
  exists next_day k,
    get_next_business_day (fun _ => HOUR) (IsoString "2025-05-23T10:00:00")
    = Ok next_day
    /\ 1 <= k <= 3
    /\ wall next_day = 63883591200000000 + k * DAY
    /\ weekday next_day < 5
    /\ (forall j, 1 <= j < k ->
        5 <= (date_of (mk_datetime 63883591200000000 None) + j) mod 7)
    /\ tzinfo next_day = Some HOUR.
Proof.
  apply (next_business_day_is_first_weekday (fun _ => HOUR)
           (IsoString "2025-05-23T10:00:00")
           (mk_datetime 63883591200000000 None)).
  - vm_compute. reflexivity.
  - vm_compute. discriminate.
  - vm_compute. discriminate.
Defined.

Lemma relative_date_is_within_a_week_witness :
  exists outcome,
    parse_relative_date ascii_lower "Next Monday, please"
      (mk_datetime 63883591200000000 None) = Ok outcome
    /\ (forall day, outcome = Some day ->
        date_of (mk_datetime 63883591200000000 None) <= day
        <= date_of (mk_datetime 63883591200000000 None) + 7)
    /\ (contains "tomorrow" (ascii_lower "Next Monday, please") = false ->
        contains "today" (ascii_lower "Next Monday, please") = false ->
        contains "next week" (ascii_lower "Next Monday, please") = false ->
        contains "next monday" (ascii_lower "Next Monday, please") = true ->
        exists day,
          outcome = Some day
          /\ day mod 7 = 0
          /\ date_of (mk_datetime 63883591200000000 None) < day
          /\ (weekday (mk_datetime 63883591200000000 None) = 0 ->
              day = date_of (mk_datetime 63883591200000000 None) + 7)).
Proof.
  apply (relative_date_is_within_a_week ascii_lower "Next Monday, please"
           (mk_datetime 63883591200000000 None)).
  - vm_compute. discriminate.
  - vm_compute. discriminate.
Defined.

Lemma natural_time_is_on_the_hour_in_business_hours_witness :
  exists result,
    parse_natural_time ascii_lower (fun text => text) "Tomorrow at 3PM"
      (mk_datetime 63883591200000000 (Some HOUR)) = Ok (Some result)
    /\ 9 <= hour result <= 18
    /\ wall result mod HOUR = 0
    /\ tzinfo result = Some HOUR
    /\ (date_of result = date_of (mk_datetime 63883591200000000 (Some HOUR))
        \/ date_of result
           = date_of (mk_datetime 63883591200000000 (Some HOUR)) + 1
        \/ date_of result
           = date_of (mk_datetime 63883591200000000 (Some HOUR)) + 7)
    /\ (is_business_hours result = true <-> weekday result < 5).
Proof.
  eexists. split; [vm_compute; reflexivity|].
  apply (natural_time_is_on_the_hour_in_business_hours ascii_lower
           (fun text => text) "Tomorrow at 3PM"
           (mk_datetime 63883591200000000 (Some HOUR))).
  vm_compute. reflexivity.
Defined.

End ClockFacts.
